(** * science_jubilee: machine communication and motion-safety core

    A shallow embedding of [JubileeController] (file
    [src/science_jubilee/JubileeController.py]) and the properties of its
    transport, homing gate, axis-limit check, homing sequence, tool-exchange
    sequences and position parser.

    Conventions of the embedding.
    - A Python [str] is a [string]; a character is a code point below 256.
    - A Python number is a rational [Q]: the exact value of a finite float
      or int.  Comparisons and [:.2f] formatting are exact on that value;
      [+], [-] and [*] on floats give the double nearest to the exact
      result (module [PyFloat]).
    - [None] is [None]: an optional argument is an [option].
    - A method is a function in the monad [M]: it takes the program state
      (the controller object and the network) and returns a value or a raised
      exception together with the new state.  State changes made before an
      exception is raised stay, as in Python.
    - The network is a script: the list of the outcomes of the HTTP requests
      still to come.  Every request is logged; a request made when the script
      is exhausted fails. *)

From Stdlib Require Import ZArith QArith Qabs String Ascii List Bool Lia DecimalString.
From stdpp Require Import gmap strings list.

Open Scope string_scope.
Open Scope list_scope.
Import ListNotations.

#[local] Set Warnings "-register-all".

(* ================================================================== *)
(** * Python strings *)
(* ================================================================== *)

Module PyStr.

(** The double-quote character, and a quoted string. *)
Definition dq : string := String "034"%char EmptyString.
Definition quoted (s : string) : string := dq ++ s ++ dq.

(** [sub in s] *)
Fixpoint contains (sub s : string) : bool :=
  String.prefix sub s ||
  match s with
  | EmptyString => false
  | String _ s' => contains sub s'
  end.

(** [s.startswith(p)] *)
Definition startswith (s p : string) : bool := String.prefix p s.

(** [s[n:]] *)
Fixpoint drop (n : nat) (s : string) : string :=
  match n, s with
  | O, _ => s
  | S n', String _ s' => drop n' s'
  | S _, EmptyString => EmptyString
  end.

(** [s.split(sep, 1)] for a non-empty [sep]: one part when [sep] does not
    occur, else the text before and after its first occurrence. *)
Fixpoint split1 (sep s : string) : list string :=
  if String.prefix sep s then [EmptyString; drop (String.length sep) s]
  else match s with
       | EmptyString => [EmptyString]
       | String c s' =>
           match split1 sep s' with
           | h :: t => String c h :: t
           | [] => []
           end
       end.

(** [str.isspace] on one character. *)
Definition isspace (c : ascii) : bool :=
  let n := nat_of_ascii c in
  ((9 <=? n)%nat && (n <=? 13)%nat) || ((28 <=? n)%nat && (n <=? 32)%nat)
  || (n =? 133)%nat || (n =? 160)%nat.

(** [s.split()]: the maximal runs of non-space characters, in order.
    [cur] is the run being read. *)
Fixpoint split_ws_from (cur s : string) : list string :=
  match s with
  | EmptyString => if String.eqb cur EmptyString then [] else [cur]
  | String c s' =>
      if isspace c
      then (if String.eqb cur EmptyString then split_ws_from EmptyString s'
            else cur :: split_ws_from EmptyString s')
      else split_ws_from (cur ++ String c EmptyString) s'
  end.

Definition split_ws (s : string) : list string := split_ws_from EmptyString s.

(** [sep.join(parts)] *)
Definition join (sep : string) (parts : list string) : string :=
  String.concat sep parts.

(** [str(n)] for an int. *)
Definition str_of_int (n : Z) : string :=
  match n with
  | Zneg p => "-" ++ NilZero.string_of_uint (N.to_uint (Npos p))
  | _ => NilZero.string_of_uint (N.to_uint (Z.to_N n))
  end.

End PyStr.

(* ================================================================== *)
(** * Python numbers *)
(* ================================================================== *)

Module PyNum.

Definition ltb (a b : Q) : bool := negb (Qle_bool b a).

(** [lo <= v <= hi] *)
Definition between (lo v hi : Q) : bool := Qle_bool lo v && Qle_bool v hi.

(** [int(q)]: truncation towards zero. *)
Definition trunc (q : Q) : Z := Z.quot (Qnum q) (Zpos (Qden q)).

(** The integer nearest to a non-negative [q], a tie going to the even
    one: the rounding of [format(q, '.2f')] on the exact value. *)
Definition round_half_even (q : Q) : Z :=
  let n := Qnum q in
  let d := Zpos (Qden q) in
  let f := (n / d)%Z in
  let r := (n mod d)%Z in
  match (2 * r ?= d)%Z with
  | Lt => f
  | Gt => (f + 1)%Z
  | Eq => if Z.even f then f else (f + 1)%Z
  end.

Definition digit (n : Z) : ascii := ascii_of_nat (48 + Z.to_nat n).

(** The number of hundredths printed for [q]. *)
Definition hundredths (q : Q) : Z := round_half_even (Qabs q * 100)%Q.

(** [f"{q:.2f}"]: sign, integer digits, a point, exactly two digits. *)
Definition format_2f (q : Q) : string :=
  let h := hundredths q in
  (if ltb q 0%Q then "-" else "")
  ++ NilZero.string_of_uint (N.to_uint (Z.to_N (h / 100)))
  ++ "."
  ++ String (digit ((h / 10) mod 10)) (String (digit (h mod 10)) EmptyString).

End PyNum.

(* ================================================================== *)
(** * Python floats *)
(* ================================================================== *)

(** A Python [float] is an IEEE 754 binary64 number, and [+], [-] and [*]
    with a float operand give the double nearest to the exact result, a tie
    going to the double whose last bit is 0.  An [int] operand is converted
    to the nearest double first, as Python does; so is a rational that is
    not a double, as [float] does with the numeral it reads.  Above the
    largest double Python gives [inf] (and refuses to convert an [int]),
    which no [Q] holds: there [round] keeps the value rounded to 53 bits,
    which compares with every double as [inf] does. *)
Module PyFloat.

(** [2 ** k] *)
Definition pow2 (k : Z) : Q :=
  match k with
  | Z0 => 1
  | Zpos p => inject_Z (Z.pow 2 (Zpos p))
  | Zneg p => 1 # (Pos.pow 2 p)
  end.

(** The exponent of the leading bit of [q], not zero:
    [2 ** ilog2 q <= |q| < 2 ** (ilog2 q + 1)]. *)
Definition ilog2 (q : Q) : Z :=
  let e := (Z.log2 (Z.abs (Qnum q)) - Z.log2 (Zpos (Qden q)))%Z in
  if Qle_bool (pow2 e) (Qabs q) then e else (e - 1)%Z.

(** The double nearest to [q]: 53 significant bits, the last place never
    below [2 ** -1074]. *)
Definition round (q : Q) : Q :=
  if Qeq_bool q 0 then 0%Q
  else
    let ulp := pow2 (Z.max (ilog2 q - 52) (-1074)) in
    let m := inject_Z (PyNum.round_half_even (Qabs q / ulp)) in
    if PyNum.ltb q 0 then (- (m * ulp))%Q else (m * ulp)%Q.

(** [a + b], [a - b] and [a * b] *)
Definition add (a b : Q) : Q := round (round a + round b).

Definition sub (a b : Q) : Q := round (round a - round b).

Definition mul (a b : Q) : Q := round (round a * round b).

#[global] Arguments round : simpl never.
#[global] Arguments add : simpl never.
#[global] Arguments sub : simpl never.
#[global] Arguments mul : simpl never.

End PyFloat.

Example float_add_rounds : Qeq_bool (PyFloat.add 299.8 0.2) 300 = true.
Proof. vm_compute. reflexivity. Qed.

Example float_add_tie : Qeq_bool (PyFloat.add 9007199254740992 1)
                                 9007199254740992 = true.
Proof. vm_compute. reflexivity. Qed.

Example format_2f_12_3 : PyNum.format_2f 12.3%Q = "12.30".
Proof. reflexivity. Qed.

Example format_2f_neg : PyNum.format_2f (-0.125)%Q = "-0.12".
Proof. reflexivity. Qed.

Example format_2f_up : PyNum.format_2f 6000%Q = "6000.00".
Proof. reflexivity. Qed.

Example split_ws_ex :
  PyStr.split_ws "  X:1.50  Y:2.00 " = ["X:1.50"; "Y:2.00"].
Proof. reflexivity. Qed.

Example split1_ex :
  PyStr.split1 " Count " "X:1 Count 0 Count 1" = ["X:1"; "0 Count 1"].
Proof. reflexivity. Qed.

(* ================================================================== *)
(** * JSON values, as [json.loads] returns them *)
(* ================================================================== *)

Inductive json : Type :=
| JNull
| JBool (b : bool)
| JNum (q : Q)
| JStr (s : string)
| JArr (items : list json)
| JObj (fields : list (string * json)).

(** The items of a decoded object: a Python dict, its keys distinct. *)
Fixpoint assoc {A : Type} (k : string) (kvs : list (string * A)) : option A :=
  match kvs with
  | [] => None
  | (k', v) :: rest => if String.eqb k k' then Some v else assoc k rest
  end.

Module Json.

(** [bool(j)] *)
Definition truthy (j : json) : bool :=
  match j with
  | JNull => false
  | JBool b => b
  | JNum q => negb (Qeq_bool q 0)
  | JStr s => negb (String.eqb s EmptyString)
  | JArr items => match items with [] => false | _ => true end
  | JObj fields => match fields with [] => false | _ => true end
  end.

(** [a == b]; [True == 1] holds in Python. *)
Fixpoint eqb (a b : json) : bool :=
  match a, b with
  | JNull, JNull => true
  | JBool x, JBool y => Bool.eqb x y
  | JBool x, JNum q => Qeq_bool (if x then 1 else 0) q
  | JNum q, JBool x => Qeq_bool q (if x then 1 else 0)
  | JNum p, JNum q => Qeq_bool p q
  | JStr s, JStr t => String.eqb s t
  | JArr l, JArr m =>
      (fix all2 (l m : list json) : bool :=
         match l, m with
         | [], [] => true
         | x :: l', y :: m' => eqb x y && all2 l' m'
         | _, _ => false
         end) l m
  | JObj f, JObj g =>
      (List.length f =? List.length g)%nat &&
      (fix incl (f : list (string * json)) : bool :=
         match f with
         | [] => true
         | (k, v) :: f' =>
             match assoc k g with
             | Some w => eqb v w
             | None => false
             end && incl f'
         end) f
  | _, _ => false
  end.

End Json.

(* ================================================================== *)
(** * Exceptions *)
(* ================================================================== *)

(** The classes of [utils/exceptions.py] that the controller raises, and
    the classes of the Python runtime and of [requests] it can meet. *)
Inductive exn_class : Type :=
| JubileeControllerError
| JubileeStateError
| JubileeConfigurationError
| JubileeCommunicationError
| JubileeHomingError
| RequestException
| TypeError
| KeyError
| IndexError
| ValueError.

(** The text of an exception.  [MsgRuntime] is a text chosen by the Python
    runtime or by [requests]; [MsgWrap p m] is [f"{p}{e}"] for an exception
    [e] of text [m]; [MsgAxisLimit] is
    [f"{kind} move exceeds {axis} axis limit ({lo}-{hi} mm)"]. *)
Inductive message : Type :=
| Msg (text : string)
| MsgRuntime
| MsgWrap (prefix : string) (inner : message)
| MsgAxisLimit (kind axis : string) (lo hi : Q).

(** An exception: its class, its text and its [__cause__]
    ([raise ... from e]). *)
Inductive exn : Type :=
| Exn (cls : exn_class) (msg : message) (cause : option exn).

Definition exn_cls (e : exn) : exn_class := let 'Exn c _ _ := e in c.
Definition exn_msg (e : exn) : message := let 'Exn _ m _ := e in m.
Definition exn_cause (e : exn) : option exn := let 'Exn _ _ c := e in c.

Definition exn_class_eqb (a b : exn_class) : bool :=
  match a, b with
  | JubileeControllerError, JubileeControllerError
  | JubileeStateError, JubileeStateError
  | JubileeConfigurationError, JubileeConfigurationError
  | JubileeCommunicationError, JubileeCommunicationError
  | JubileeHomingError, JubileeHomingError
  | RequestException, RequestException
  | TypeError, TypeError
  | KeyError, KeyError
  | IndexError, IndexError
  | ValueError, ValueError => true
  | _, _ => false
  end.

Inductive result (A : Type) : Type :=
| Return (a : A)
| Raise (e : exn).
Arguments Return {A} a.
Arguments Raise {A} e.

(* ================================================================== *)
(** * The controller object and the network *)
(* ================================================================== *)

(** One entry of [tool_parking_positions]. *)
Record parking : Type := {
  x_park : Q;
  y_clear : Q;
  y_park : Q;
  z_park : Q
}.

(** The attributes of a [JubileeController].  [session] is [true] when
    [self.session] is not [None]. *)
Record controller : Type := {
  simulated : bool;
  crash_detection : bool;
  session : bool;
  _absolute_positioning : bool;
  _axis_limits : option (list (option (Q * Q)));
  axes_homed : list json;
  tool_parking_positions : gmap Z parking
}.

(** The HTTP requests the controller makes. *)
Inductive http_request : Type :=
| Post_machine_code (data : string)
| Get_rr_model_seqs
| Get_rr_gcode (gcode : string)
| Get_rr_reply.

(** What a request comes to: a response of the given text, or a
    [requests.RequestException]; and the time it took. *)
Inductive http_outcome : Type :=
| Response (text : string)
| RequestFailed.

Record event : Type := {
  outcome : http_outcome;
  latency : Q
}.

Record world : Type := {
  pending : list event;
  clock : Q;
  sent : list http_request
}.

Record state : Type := {
  self : controller;
  net : world
}.

(** The commands posted to [/machine/code], oldest first: every command a
    connected controller sends is posted there first. *)
Definition posted (w : world) : list string :=
  omap (fun r => match r with Post_machine_code c => Some c | _ => None end)
       (sent w).

(* ================================================================== *)
(** * The monad of methods *)
(* ================================================================== *)

Definition M (A : Type) : Type := state -> result A * state.

Definition ret {A : Type} (a : A) : M A := fun st => (Return a, st).

Definition raise {A : Type} (e : exn) : M A := fun st => (Raise e, st).

Definition bind {A B : Type} (m : M A) (k : A -> M B) : M B :=
  fun st =>
    match m st with
    | (Return a, st') => k a st'
    | (Raise e, st') => (Raise e, st')
    end.

(** [try: m except Exception as e: h e] *)
Definition try_except {A : Type} (m : M A) (h : exn -> M A) : M A :=
  fun st =>
    match m st with
    | (Return a, st') => (Return a, st')
    | (Raise e, st') => h e st'
    end.

Definition lift {A : Type} (r : result A) : M A := fun st => (r, st).

Definition get_self : M controller := fun st => (Return (self st), st).

Definition set_self (f : controller -> controller) : M unit :=
  fun st => (Return tt, {| self := f (self st); net := net st |}).

Declare Scope py_scope.
Delimit Scope py_scope with py.
Notation "x <- m ;; k" := (bind m (fun x => k))
  (at level 100, m at next level, right associativity) : py_scope.
Notation "m ;; k" := (bind m (fun _ => k))
  (at level 100, right associativity) : py_scope.
Open Scope py_scope.

(** ** Subscripts on decoded JSON *)

Definition runtime_error (c : exn_class) : exn := Exn c MsgRuntime None.

Module JsonOps.

(** [j[k]] for a string key. *)
Definition getitem_key (j : json) (k : string) : result json :=
  match j with
  | JObj fields =>
      match assoc k fields with
      | Some v => Return v
      | None => Raise (runtime_error KeyError)
      end
  | _ => Raise (runtime_error TypeError)
  end.

(** [j[i]] for a non-negative int. *)
Definition getitem_index (j : json) (i : nat) : result json :=
  match j with
  | JArr items =>
      match nth_error items i with
      | Some v => Return v
      | None => Raise (runtime_error IndexError)
      end
  | JStr s =>
      match String.get i s with
      | Some ch => Return (JStr (String ch EmptyString))
      | None => Raise (runtime_error IndexError)
      end
  | JObj _ => Raise (runtime_error KeyError)
  | _ => Raise (runtime_error TypeError)
  end.

(** [all(j[:4])]: a list is sliced and its items tested; a string is
    sliced into characters, each a non-empty string; anything else cannot
    be sliced. *)
Definition all_first4 (j : json) : result bool :=
  match j with
  | JArr items => Return (forallb Json.truthy (firstn 4 items))
  | JStr _ => Return true
  | _ => Raise (runtime_error TypeError)
  end.

End JsonOps.

(** ** The network and the clock *)

Definition with_net (st : state) (w : world) : state :=
  {| self := self st; net := w |}.

(** [self.session.post(...)] and [self.session.get(...)]: the request is
    logged and the next outcome of the script is consumed. *)
Definition http (req : http_request) : M string :=
  fun st =>
    let w := net st in
    match pending w with
    | [] =>
        (Raise (runtime_error RequestException),
         with_net st {| pending := []; clock := clock w;
                        sent := sent w ++ [req] |})
    | ev :: rest =>
        let st' := with_net st {| pending := rest;
                                  clock := (clock w + latency ev)%Q;
                                  sent := sent w ++ [req] |} in
        match outcome ev with
        | Response text => (Return text, st')
        | RequestFailed => (Raise (runtime_error RequestException), st')
        end
    end.

(** [time.time()] *)
Definition time_time : M Q :=
  fun st => (Return (PyFloat.round (clock (net st))), st).

(** [time.sleep(d)] *)
Definition time_sleep (d : Q) : M unit :=
  fun st =>
    (Return tt,
     with_net st {| pending := pending (net st);
                    clock := (clock (net st) + d)%Q;
                    sent := sent (net st) |}).

(** The number of outcomes left in the script. *)
Definition script_length : M nat :=
  fun st => (Return (List.length (pending (net st))), st).

(** ** Attribute updates *)

Definition with_axes_homed (v : list json) (c : controller) : controller :=
  {| simulated := simulated c;
     crash_detection := crash_detection c;
     session := session c;
     _absolute_positioning := _absolute_positioning c;
     _axis_limits := _axis_limits c;
     axes_homed := v;
     tool_parking_positions := tool_parking_positions c |}.

Definition with_absolute_positioning (b : bool) (c : controller) : controller :=
  {| simulated := simulated c;
     crash_detection := crash_detection c;
     session := session c;
     _absolute_positioning := b;
     _axis_limits := _axis_limits c;
     axes_homed := axes_homed c;
     tool_parking_positions := tool_parking_positions c |}.

(** [self.axes_homed[i] = v] *)
Definition setitem_axes_homed (i : nat) (v : json) : M unit :=
  c <- get_self ;;
  if (i <? List.length (axes_homed c))%nat
  then set_self (with_axes_homed (<[i := v]> (axes_homed c)))
  else raise (runtime_error IndexError).

(** The default of [response_wait]. *)
Definition response_wait_default : Q := 60.

(** The default of the feed rate [s] and of [speed]. *)
Definition speed_default : option Q := Some 6000%Q.

Definition json_true4 : json :=
  JArr [JBool true; JBool true; JBool true; JBool true].

Definition nl : string := String "010"%char EmptyString.

(** [_delay_time] *)
Definition _delay_time (n : Z) : Q :=
  if (n =? 0)%Z then 0
  else if (n <? 10)%Z then 0.1
  else if (n <? 20)%Z then 0.2
  else if (n <? 30)%Z then 0.3
  else 1.

(** The query of the homed flags. *)
Definition M409_homed : string := "M409 K" ++ PyStr.quoted "move.axes[].homed".

Definition tool_lock_cmd : string :=
  "M98 P" ++ PyStr.quoted "0:/macros/tool_manager/tool_lock.g".

Definition tool_unlock_cmd : string :=
  "M98 P" ++ PyStr.quoted "0:/macros/tool_manager/tool_unlock.g".

(* ================================================================== *)
(** * The methods of [JubileeController] *)
(* ================================================================== *)

Section Controller.

(** [json.loads]: [None] when the text is not JSON. *)
Variable json_loads : string -> option json.

(** [float(s)] on a string: [None] when it raises [ValueError]. *)
Variable py_float : string -> option Q.

(** [str(x)] of a number or of [None], as an f-string prints it. *)
Variable py_str : option Q -> string.

Definition loads (text : string) : M json :=
  match json_loads text with
  | Some j => ret j
  | None => raise (runtime_error ValueError)
  end.

(** [self.session.get(".../rr_model?key=seqs").json()["result"]["reply"]] *)
Definition seqs_reply : M json :=
  text <- http Get_rr_model_seqs ;;
  j <- loads text ;;
  r <- lift (JsonOps.getitem_key j "result") ;;
  lift (JsonOps.getitem_key r "reply").

(** The [while True] loop of [gcode].  Every round makes a request, so a
    round started on an exhausted script raises; [fuel] bounds the rounds
    and is taken larger than the script (see [poll_reply_fuel]). *)
Fixpoint poll_reply (fuel : nat) (reply_count : json) (tic response_wait : Q)
  : M string :=
  match fuel with
  | O => raise (runtime_error RequestException)
  | S fuel' =>
      new_count <- seqs_reply ;;
      if negb (Json.eqb new_count reply_count) then
        response <- http Get_rr_reply ;;
        c <- get_self ;;
        if crash_detection c && PyStr.contains "crash detected" response
        then raise (Exn JubileeStateError
                        (Msg "Crash detected during G-code execution!") None)
        else ret response
      else
        t <- time_time ;;
        if PyNum.ltb response_wait (PyFloat.sub t tic)
        then raise (Exn JubileeCommunicationError
                        (Msg "Timeout waiting for G-code reply.") None)
        else
          t' <- time_time ;;
          time_sleep (_delay_time
                        (PyNum.trunc (PyFloat.mul (PyFloat.sub t' tic) 10))) ;;
          poll_reply fuel' reply_count tic response_wait
  end.

(** The first [try] of [gcode]: the reply of [/machine/code] unless it
    holds "rejected"; [None] when the code falls through to the second
    [try]. *)
Definition gcode_primary (cmd : string) : M (option string) :=
  try_except
    (response <- http (Post_machine_code cmd) ;;
     if negb (PyStr.contains "rejected" response)
     then ret (Some response)
     else ret None)
    (fun e =>
       if exn_class_eqb (exn_cls e) RequestException
       then ret None
       else raise e).

(** The second [try] of [gcode]. *)
Definition gcode_fallback (cmd : string) (response_wait : Q) : M string :=
  try_except
    (reply_count <- seqs_reply ;;
     http (Get_rr_gcode cmd) ;;
     tic <- time_time ;;
     n <- script_length ;;
     poll_reply (S n) reply_count tic response_wait)
    (fun e =>
       raise (Exn JubileeCommunicationError
                  (MsgWrap "G-code communication failed: " (exn_msg e))
                  (Some e))).

(** [gcode(cmd, timeout, response_wait)].  [timeout] is only handed to
    [requests]: a request that times out is a request that fails. *)
Definition gcode (cmd : string) (response_wait : Q) : M string :=
  c <- get_self ;;
  if simulated c then
    if PyStr.startswith cmd "M409"
    then ret ("{" ++ PyStr.quoted "result" ++ ": [true, true, true, true]}")%string
    else if PyStr.startswith cmd "M114"
    then ret "X:0.00 Y:0.00 Z:0.00 U:0.00 Count 0 0 0 0"
    else if PyStr.startswith cmd "M119"
    then ret ("X: open" ++ nl ++ "Y: open" ++ nl ++ "Z: open" ++ nl
              ++ "U: open")%string
    else ret ""
  else if negb (session c) then
    raise (Exn JubileeCommunicationError
               (Msg "Not connected: call connect() before sending G-code commands.")
               None)
  else
    primary <- gcode_primary cmd ;;
    match primary with
    | Some response => ret response
    | None => gcode_fallback cmd response_wait
    end.

(** Calls with the default [response_wait]. *)
Definition send (cmd : string) : M string := gcode cmd response_wait_default.

(** ** Homing *)

Definition _home_axis (letter : string) (i : nat) : M unit :=
  c <- get_self ;;
  if simulated c then setitem_axes_homed i (JBool true)
  else
    try_except
      (send ("G28 " ++ letter)%string ;;
       setitem_axes_homed i (JBool true))
      (fun e =>
         raise (Exn JubileeHomingError
                    (Msg ("Failed to home " ++ letter ++ " axis.")%string)
                    (Some e))).

Definition _home_x : M unit := _home_axis "X" 0.
Definition _home_y : M unit := _home_axis "Y" 1.
Definition _home_u : M unit := _home_axis "U" 3.
Definition _home_z : M unit := _home_axis "Z" 2.

Definition _set_absolute_positioning : M unit :=
  c <- get_self ;;
  if simulated c then set_self (with_absolute_positioning true)
  else send "G90" ;; set_self (with_absolute_positioning true).

Definition _set_relative_positioning : M unit :=
  c <- get_self ;;
  if simulated c then set_self (with_absolute_positioning false)
  else send "G91" ;; set_self (with_absolute_positioning false).

Definition home_xyu : M unit :=
  c <- get_self ;;
  if simulated c then
    set_self (with_axes_homed
                [JBool true; JBool true; JBool true; JBool true])
  else
    try_except
      (_home_u ;;
       _home_y ;;
       _home_x ;;
       _set_absolute_positioning ;;
       reply <- send M409_homed ;;
       j <- loads reply ;;
       homed_status <- lift (JsonOps.getitem_key j "result") ;;
       z <- lift (JsonOps.getitem_index homed_status 2) ;;
       set_self (with_axes_homed [JBool true; JBool true; z; JBool true]))
      (fun e =>
         raise (Exn JubileeHomingError
                    (Msg "Failed to home XYU axes.") (Some e))).

(** ** The homing gate: the decorator [machine_homed] *)

Definition machine_homed {A : Type} (func : M A) : M A :=
  c <- get_self ;;
  if simulated c then func
  else
    axes_homed <-
      try_except
        (reply <- send M409_homed ;;
         j <- loads reply ;;
         lift (JsonOps.getitem_key j "result"))
        (fun e =>
           raise (Exn JubileeStateError
                      (Msg "Unable to check homing state.") (Some e))) ;;
    ok <- lift (JsonOps.all_first4 axes_homed) ;;
    if negb ok
    then raise (Exn JubileeStateError
                    (Msg "Error: The machine must be homed (X, Y, Z, U) before this operation.")
                    None)
    else func.

(** ** Motion *)

(** [[f"{axis}{value:.2f}" for axis, value in axes.items()
      if value is not None]] *)
Fixpoint cmd_parts_of (axes : list (string * option Q)) : list string :=
  match axes with
  | [] => []
  | (axis, Some value) :: rest =>
      (axis ++ PyNum.format_2f value)%string :: cmd_parts_of rest
  | (_, None) :: rest => cmd_parts_of rest
  end.

(** [if param:] *)
Definition param_given (param : option string) : list string :=
  match param with
  | Some p => if String.eqb p EmptyString then [] else [p]
  | None => []
  end.

(** The text of the move command of [_move_xyzu]. *)
Definition move_cmd (x y z u s : option Q) (param : option string) : string :=
  let axes := [("X", x); ("Y", y); ("Z", z); ("U", u); ("F", s)] in
  let cmd_parts := cmd_parts_of axes ++ param_given param in
  ("G0 " ++ PyStr.join " " cmd_parts)%string.

(** The text the simulated branch of [_move_xyzu] hands to [gcode]. *)
Definition simulated_move_cmd (x y z u s : option Q) : string :=
  ("G0 X" ++ py_str x ++ " Y" ++ py_str y ++ " Z" ++ py_str z
   ++ " U" ++ py_str u ++ " F" ++ py_str s)%string.

(** The body of [_move_xyzu], which the decorator guards. *)
Definition _move_xyzu_body (x y z u s : option Q) (param : option string)
           (wait : bool) : M unit :=
  c <- get_self ;;
  if simulated c then
    send (simulated_move_cmd x y z u s) ;;
    if wait then send "M400" ;; ret tt else ret tt
  else
    send (move_cmd x y z u s param) ;;
    if wait then send "M400" ;; ret tt else ret tt.

Definition _move_xyzu (x y z u s : option Q) (param : option string)
           (wait : bool) : M unit :=
  machine_homed (_move_xyzu_body x y z u s param wait).

(** The [for ... else] loop of [get_position]: [tries] attempts left. *)
Fixpoint position_reply (tries : nat) : M string :=
  match tries with
  | O =>
      raise (Exn JubileeCommunicationError
                 (Msg "Failed to get valid position response after max retries.")
                 None)
  | S tries' =>
      response <- send "M114" ;;
      if PyStr.contains "Count" response then ret response
      else time_sleep 0.05 ;; position_reply tries'
  end.

(** One round of the loop over [response.split()]. *)
Definition parse_element (positions : gmap string (option Q))
           (element : string) : gmap string (option Q) :=
  if PyStr.contains ":" element then
    match PyStr.split1 ":" element with
    | [axis; pos_str] => <[axis := py_float pos_str]> positions
    | _ => positions
    end
  else positions.

(** The parsing part of [get_position].  A key bound to [None] is a key
    whose value is Python's [None]. *)
Definition parse_position (response : string) : gmap string (option Q) :=
  let response := hd EmptyString (PyStr.split1 " Count " response) in
  fold_left parse_element (PyStr.split_ws response) ∅.

Definition get_position : M (gmap string (option Q)) :=
  c <- get_self ;;
  if simulated c then
    ret (<["X" := Some 0%Q]> (<["Y" := Some 0%Q]>
          (<["Z" := Some 0%Q]> (<["U" := Some 0%Q]> ∅))))
  else
    response <- position_reply 50 ;;
    ret (parse_position response).

(** [float(pos[axis]) + value] *)
Definition shifted (pos : gmap string (option Q)) (axis : string) (value : Q)
  : result Q :=
  match pos !! axis with
  | None => Raise (runtime_error KeyError)
  | Some None => Raise (runtime_error TypeError)
  | Some (Some p) => Return (PyFloat.add p value)
  end.

(** The loop of [_check_axis_limits] over [target.items()]. *)
Fixpoint check_targets (limits : list (string * option (Q * Q)))
         (pos : gmap string (option Q)) (relative : bool)
         (target : list (string * option Q)) : result unit :=
  match target with
  | [] => Return tt
  | (axis, value) :: rest =>
      match value, assoc axis limits with
      | Some v, Some (Some (lo, hi)) =>
          match (if relative then shifted pos axis v else Return v) with
          | Raise e => Raise e
          | Return test_value =>
              if negb (PyNum.between lo test_value hi) then
                let kind := if relative then "Relative" else "Absolute" in
                Raise (Exn JubileeStateError
                           (MsgAxisLimit kind axis lo hi) None)
              else check_targets limits pos relative rest
          end
      | _, _ => check_targets limits pos relative rest
      end
  end.

(** [dict(zip(("X", "Y", "Z"), self._axis_limits[:3]))] *)
Definition limits_of (axis_limits : list (option (Q * Q)))
  : list (string * option (Q * Q)) :=
  combine ["X"; "Y"; "Z"] (firstn 3 axis_limits).

(** [any(self._axis_limits)]: a tuple is true, [None] is not. *)
Definition any_limit (axis_limits : list (option (Q * Q))) : bool :=
  existsb (fun l => match l with Some _ => true | None => false end)
          axis_limits.

Definition _check_axis_limits (target : list (string * option Q))
           (relative : bool) : M unit :=
  c <- get_self ;;
  if simulated c then ret tt
  else
    match _axis_limits c with
    | None => raise (runtime_error TypeError)
    | Some axis_limits =>
        if negb (any_limit axis_limits) then
          raise (Exn JubileeConfigurationError
                     (Msg "Axis limits are not configured.") None)
        else
          let limits := limits_of axis_limits in
          pos <- (if relative then get_position else ret ∅) ;;
          lift (check_targets limits pos relative target)
    end.

(** [except ...: raise] *)
Definition reraise {A : Type} (m : M A) : M A :=
  try_except m (fun e => raise e).

Definition move_to (x y z u s : option Q) (param : option string)
           (wait : bool) : M unit :=
  c <- get_self ;;
  let body :=
    _set_absolute_positioning ;;
    _check_axis_limits [("X", x); ("Y", y); ("Z", z)] false ;;
    _move_xyzu x y z u s param wait in
  if simulated c then body else reraise body.

Definition move (dx dy dz du s : option Q) (param : option string)
           (wait : bool) : M unit :=
  c <- get_self ;;
  let body :=
    _set_relative_positioning ;;
    _check_axis_limits [("X", dx); ("Y", dy); ("Z", dz)] true ;;
    _move_xyzu dx dy dz du s param wait in
  if simulated c then body else reraise body.

(** ** Tool lock and unlock; the tool-exchange sequences *)

Definition tool_lock_macro : M unit :=
  c <- get_self ;;
  if simulated c then ret tt
  else send tool_lock_cmd ;; ret tt.

Definition tool_unlock_macro : M unit :=
  c <- get_self ;;
  if simulated c then ret tt
  else send tool_unlock_cmd ;; ret tt.

Definition tool_lock : M unit := tool_lock_macro.
Definition tool_unlock : M unit := tool_unlock_macro.

Definition no_parking (index : Z) : exn :=
  Exn JubileeStateError
      (Msg ("No parking position defined for tool "
            ++ PyStr.str_of_int index ++ ".")%string)
      None.

Definition pickup_tool_sequence (index : Z) (z_override : option Q)
           (speed : option Q) : M unit :=
  c <- get_self ;;
  if simulated c then ret tt
  else
    match tool_parking_positions c !! index with
    | None => raise (no_parking index)
    | Some pos =>
        let z := match z_override with
                 | Some v => v
                 | None => pos.(z_park)
                 end in
        move_to (Some pos.(x_park)) (Some pos.(y_clear)) (Some z) None
                speed None true ;;
        move_to (Some pos.(x_park)) (Some pos.(y_park)) (Some z) None
                speed None true ;;
        tool_lock ;;
        move_to (Some pos.(x_park)) (Some pos.(y_clear)) (Some z) None
                speed None true
    end.

Definition park_tool_sequence (index : Z) (z_override : option Q)
           (speed : option Q) : M unit :=
  c <- get_self ;;
  if simulated c then ret tt
  else
    match tool_parking_positions c !! index with
    | None => raise (no_parking index)
    | Some pos =>
        let z := match z_override with
                 | Some v => v
                 | None => pos.(z_park)
                 end in
        move_to (Some pos.(x_park)) (Some pos.(y_clear)) (Some z) None
                speed None true ;;
        move_to (Some pos.(x_park)) (Some pos.(y_park)) (Some z) None
                speed None true ;;
        tool_unlock ;;
        move_to (Some pos.(x_park)) (Some pos.(y_clear)) (Some z) None
                speed None true
    end.

End Controller.

(** The table [tool_parking_positions] set by [__init__]. *)
Definition default_parking : gmap Z parking :=
  <[0%Z := {| x_park := 277; y_clear := 280; y_park := 342; z_park := 150 |}]>
  (<[1%Z := {| x_park := 191; y_clear := 280; y_park := 342; z_park := 150 |}]>
  (<[2%Z := {| x_park := 105; y_clear := 280; y_park := 342; z_park := 150 |}]>
  (<[3%Z := {| x_park := 19; y_clear := 280; y_park := 342; z_park := 150 |}]>
   ∅))).

(* ================================================================== *)
(** * Decoders for the examples

    [json.loads], [float] and [str] belong to Python, and the theorems below
    hold for any of them.  The examples run the controller on decoders for
    the part of the syntax the board uses: plain decimal numerals, and JSON
    without string escapes and exponents. *)
(* ================================================================== *)

Module Decoders.

Definition is_digit (c : ascii) : bool :=
  let n := nat_of_ascii c in (48 <=? n)%nat && (n <=? 57)%nat.

(** The value of a run of digits read after [acc]; [None] on any other
    character. *)
Fixpoint digits_value (acc : Z) (s : string) : option Z :=
  match s with
  | EmptyString => Some acc
  | String c s' =>
      if is_digit c
      then digits_value (10 * acc + Z.of_nat (nat_of_ascii c - 48)) s'
      else None
  end.

(** An unsigned numeral [ddd] or [ddd.ddd], at least one digit in all. *)
Definition unsigned_value (s : string) : option Q :=
  match PyStr.split1 "." s with
  | [whole] =>
      if String.eqb whole EmptyString then None
      else match digits_value 0 whole with
           | Some n => Some (n # 1)
           | None => None
           end
  | [whole; frac] =>
      if String.eqb (whole ++ frac) EmptyString then None
      else match digits_value 0 (whole ++ frac) with
           | Some n => Some (n # Pos.pow 10 (Pos.of_nat (String.length frac)))
           | None => None
           end
  | _ => None
  end.

Definition decimal_float (s : string) : option Q :=
  match s with
  | String "-" s' =>
      match unsigned_value s' with
      | Some q => Some (- q)%Q
      | None => None
      end
  | String "+" s' => unsigned_value s'
  | _ => unsigned_value s
  end.

Fixpoint skip_ws (s : string) : string :=
  match s with
  | String c s' => if PyStr.isspace c then skip_ws s' else s
  | EmptyString => s
  end.

(** The characters of a numeral at the head of [s], and the rest. *)
Fixpoint span_number (s : string) : string * string :=
  match s with
  | String c s' =>
      if is_digit c || Ascii.eqb c "-" || Ascii.eqb c "."
      then let '(n, r) := span_number s' in (String c n, r)
      else (EmptyString, s)
  | EmptyString => (EmptyString, EmptyString)
  end.

(** The characters up to the closing quote, and the rest after it. *)
Fixpoint span_string (s : string) : option (string * string) :=
  match s with
  | String c s' =>
      if Ascii.eqb c "034" then Some (EmptyString, s')
      else match span_string s' with
           | Some (t, r) => Some (String c t, r)
           | None => None
           end
  | EmptyString => None
  end.

Fixpoint parse_value (fuel : nat) (s : string) : option (json * string) :=
  match fuel with
  | O => None
  | S fuel' =>
      let s := skip_ws s in
      if String.prefix "null" s then Some (JNull, PyStr.drop 4 s)
      else if String.prefix "true" s then Some (JBool true, PyStr.drop 4 s)
      else if String.prefix "false" s then Some (JBool false, PyStr.drop 5 s)
      else
        match s with
        | String "[" r =>
            match skip_ws r with
            | String "]" r' => Some (JArr [], r')
            | _ =>
                match parse_items fuel' r with
                | Some (items, r') => Some (JArr items, r')
                | None => None
                end
            end
        | String "{" r =>
            match skip_ws r with
            | String "}" r' => Some (JObj [], r')
            | _ =>
                match parse_fields fuel' r with
                | Some (fields, r') => Some (JObj fields, r')
                | None => None
                end
            end
        | String "034" r =>
            match span_string r with
            | Some (t, r') => Some (JStr t, r')
            | None => None
            end
        | _ =>
            let '(n, r) := span_number s in
            match decimal_float n with
            | Some q => Some (JNum q, r)
            | None => None
            end
        end
  end
with parse_items (fuel : nat) (s : string) : option (list json * string) :=
  match fuel with
  | O => None
  | S fuel' =>
      match parse_value fuel' s with
      | Some (v, r) =>
          match skip_ws r with
          | String "," r' =>
              match parse_items fuel' r' with
              | Some (vs, r'') => Some (v :: vs, r'')
              | None => None
              end
          | String "]" r' => Some ([v], r')
          | _ => None
          end
      | None => None
      end
  end
with parse_fields (fuel : nat) (s : string)
     : option (list (string * json) * string) :=
  match fuel with
  | O => None
  | S fuel' =>
      match skip_ws s with
      | String "034" r =>
          match span_string r with
          | Some (k, r1) =>
              match skip_ws r1 with
              | String ":" r2 =>
                  match parse_value fuel' r2 with
                  | Some (v, r3) =>
                      match skip_ws r3 with
                      | String "," r4 =>
                          match parse_fields fuel' r4 with
                          | Some (kvs, r5) => Some ((k, v) :: kvs, r5)
                          | None => None
                          end
                      | String "}" r4 => Some ([(k, v)], r4)
                      | _ => None
                      end
                  | None => None
                  end
              | _ => None
              end
          | None => None
          end
      | _ => None
      end
  end.

Definition json_loads (s : string) : option json :=
  match parse_value (S (String.length s)) s with
  | Some (j, r) =>
      if String.eqb (skip_ws r) EmptyString then Some j else None
  | None => None
  end.

(** A printer of numbers for the simulated log line; only its being a
    function matters. *)
Definition py_str (x : option Q) : string :=
  match x with
  | Some q => PyNum.format_2f q
  | None => "None"
  end.

Definition json_bool_text (b : bool) : string :=
  if b then "true" else "false".

(** The reply to [M409 K"move.axes[].homed"] for the four flags. *)
Definition homed_reply (x y z u : bool) : string :=
  "{" ++ PyStr.quoted "result" ++ ":[" ++ json_bool_text x ++ ","
  ++ json_bool_text y ++ "," ++ json_bool_text z ++ ","
  ++ json_bool_text u ++ "]}".

(** The reply of [/rr_model?key=seqs] for a reply counter. *)
Definition seqs_text (n : Z) : string :=
  "{" ++ PyStr.quoted "result" ++ ":{" ++ PyStr.quoted "reply" ++ ":"
  ++ PyStr.str_of_int n ++ "}}".

(** A response that arrives at once. *)
Definition ok (text : string) : event :=
  {| outcome := Response text; latency := 0 |}.

(** A request that fails at once. *)
Definition down : event := {| outcome := RequestFailed; latency := 0 |}.

End Decoders.

Example json_loads_homed :
  Decoders.json_loads (Decoders.homed_reply true true false true)
  = Some (JObj [("result",
                 JArr [JBool true; JBool true; JBool false; JBool true])]).
Proof. reflexivity. Qed.

Example json_loads_seqs :
  Decoders.json_loads (Decoders.seqs_text 7)
  = Some (JObj [("result", JObj [("reply", JNum 7)])]).
Proof. reflexivity. Qed.

Example json_loads_simulated :
  Decoders.json_loads
    ("{" ++ PyStr.quoted "result" ++ ": [true, true, true, true]}")
  = Some (JObj [("result", json_true4)]).
Proof. reflexivity. Qed.

Example decimal_float_ex :
  Decoders.decimal_float "1.50" = Some 1.50%Q
  /\ Decoders.decimal_float "-2" = Some (- (2 # 1))%Q
  /\ Decoders.decimal_float "abc" = None
  /\ Decoders.decimal_float "" = None.
Proof. repeat split; reflexivity. Qed.

(* ================================================================== *)
(** * The monad: inversion and the commands a method posts *)
(* ================================================================== *)

Lemma bind_inv {A B : Type} (m : M A) (k : A -> M B) st r st' :
  bind m k st = (r, st') ->
  (exists a st1, m st = (Return a, st1) /\ k a st1 = (r, st'))
  \/ (exists e, m st = (Raise e, st') /\ r = Raise e).
Proof.
  unfold bind. destruct (m st) as [[a|e] st1]; intros H.
  - left. eauto.
  - right. inversion H; subst. eauto.
Qed.

Lemma try_except_inv {A : Type} (m : M A) (h : exn -> M A) st r st' :
  try_except m h st = (r, st') ->
  (exists a, m st = (Return a, st') /\ r = Return a)
  \/ (exists e st1, m st = (Raise e, st1) /\ h e st1 = (r, st')).
Proof.
  unfold try_except. destruct (m st) as [[a|e] st1]; intros H.
  - left. inversion H; subst. eauto.
  - right. eauto.
Qed.

Lemma bind_return_inv {A B : Type} (m : M A) (k : A -> M B) st b st' :
  bind m k st = (Return b, st') ->
  exists a st1, m st = (Return a, st1) /\ k a st1 = (Return b, st').
Proof.
  intros H. destruct (bind_inv _ _ _ _ _ H) as [H1 | (e & _ & Hr)];
    [exact H1 | discriminate Hr].
Qed.


Lemma reraise_id {A : Type} (m : M A) st : reraise m st = m st.
Proof.
  unfold reraise, try_except, raise. destruct (m st) as [[a|e] st1]; reflexivity.
Qed.

Lemma posted_snoc w req :
  omap (fun r => match r with Post_machine_code c => Some c | _ => None end)
       (sent w ++ [req])
  = posted w ++ match req with Post_machine_code c => [c] | _ => [] end.
Proof.
  unfold posted. rewrite omap_app. destruct req; reflexivity.
Qed.

(** A method is quiet when it posts no command and leaves the controller
    as it was. *)
Definition quiet {A : Type} (m : M A) : Prop :=
  forall st r st',
    m st = (r, st') ->
    self st' = self st /\ posted (net st') = posted (net st).

Lemma quiet_ret {A : Type} (a : A) : quiet (ret a).
Proof. intros st r st' H. inversion H; subst. auto. Qed.

Lemma quiet_raise {A : Type} (e : exn) : quiet (@raise A e).
Proof. intros st r st' H. inversion H; subst. auto. Qed.

Lemma quiet_lift {A : Type} (x : result A) : quiet (lift x).
Proof. intros st r st' H. inversion H; subst. auto. Qed.

Lemma quiet_get_self : quiet get_self.
Proof. intros st r st' H. inversion H; subst. auto. Qed.

Lemma quiet_time_time : quiet time_time.
Proof. intros st r st' H. inversion H; subst. auto. Qed.

Lemma quiet_script_length : quiet script_length.
Proof. intros st r st' H. inversion H; subst. auto. Qed.

Lemma quiet_time_sleep d : quiet (time_sleep d).
Proof. intros st r st' H. inversion H; subst. auto. Qed.

Lemma quiet_bind {A B : Type} (m : M A) (k : A -> M B) :
  quiet m -> (forall a, quiet (k a)) -> quiet (bind m k).
Proof.
  intros Hm Hk st r st' H.
  destruct (bind_inv _ _ _ _ _ H) as [(a & st1 & H1 & H2) | (e & H1 & _)].
  - destruct (Hm _ _ _ H1) as [E1 E2]. destruct (Hk a _ _ _ H2) as [E3 E4].
    split; congruence.
  - exact (Hm _ _ _ H1).
Qed.

Lemma quiet_try_except {A : Type} (m : M A) (h : exn -> M A) :
  quiet m -> (forall e, quiet (h e)) -> quiet (try_except m h).
Proof.
  intros Hm Hh st r st' H.
  destruct (try_except_inv _ _ _ _ _ H) as [(a & H1 & _) | (e & st1 & H1 & H2)].
  - exact (Hm _ _ _ H1).
  - destruct (Hm _ _ _ H1) as [E1 E2]. destruct (Hh e _ _ _ H2) as [E3 E4].
    split; congruence.
Qed.

(** What one request does to the log of posted commands. *)
Lemma http_posted req st r st' :
  http req st = (r, st') ->
  self st' = self st
  /\ posted (net st')
     = posted (net st) ++ match req with Post_machine_code c => [c] | _ => [] end.
Proof.
  unfold http. destruct (pending (net st)) as [|ev rest].
  - intros H. inversion H; subst. split; [reflexivity|]. apply posted_snoc.
  - destruct (outcome ev); intros H; inversion H; subst;
      (split; [reflexivity | apply posted_snoc]).
Qed.

Lemma quiet_http req :
  (forall c, req <> Post_machine_code c) -> quiet (http req).
Proof.
  intros Hreq st r st' H. destruct (http_posted _ _ _ _ H) as [E1 E2].
  split; [exact E1|]. rewrite E2.
  destruct req; try apply app_nil_r. exfalso. eapply Hreq. reflexivity.
Qed.

Create HintDb quiet.
#[local] Hint Resolve quiet_ret quiet_raise quiet_lift quiet_get_self
  quiet_time_time quiet_script_length quiet_time_sleep : quiet.

Section Posting.

Variable json_loads : string -> option json.

Lemma quiet_loads text : quiet (loads json_loads text).
Proof. unfold loads. destruct (json_loads text); auto with quiet. Qed.

Lemma quiet_seqs_reply : quiet (seqs_reply json_loads).
Proof.
  unfold seqs_reply.
  apply quiet_bind; [apply quiet_http; discriminate|]. intros text.
  apply quiet_bind; [apply quiet_loads|]. intros j.
  apply quiet_bind; auto with quiet.
Qed.

Lemma quiet_poll_reply fuel reply_count tic response_wait :
  quiet (poll_reply json_loads fuel reply_count tic response_wait).
Proof.
  induction fuel as [|fuel IH]; simpl; [auto with quiet|].
  apply quiet_bind; [apply quiet_seqs_reply|]. intros new_count.
  destruct (negb (Json.eqb new_count reply_count)).
  - apply quiet_bind; [apply quiet_http; discriminate|]. intros response.
    apply quiet_bind; [auto with quiet|]. intros c.
    destruct (crash_detection c && PyStr.contains "crash detected" response);
      auto with quiet.
  - apply quiet_bind; [auto with quiet|]. intros t.
    destruct (PyNum.ltb response_wait (PyFloat.sub t tic));
      [auto with quiet|].
    apply quiet_bind; [auto with quiet|]. intros t'.
    apply quiet_bind; [auto with quiet|]. intros _. exact IH.
Qed.

Lemma quiet_gcode_fallback cmd response_wait :
  quiet (gcode_fallback json_loads cmd response_wait).
Proof.
  unfold gcode_fallback. apply quiet_try_except; [|auto with quiet].
  apply quiet_bind; [apply quiet_seqs_reply|]. intros reply_count.
  apply quiet_bind; [apply quiet_http; discriminate|]. intros _.
  apply quiet_bind; [auto with quiet|]. intros tic.
  apply quiet_bind; [auto with quiet|]. intros n.
  apply quiet_poll_reply.
Qed.

(** A controller that talks to the board. *)
Definition live (c : controller) : Prop :=
  simulated c = false /\ session c = true.

(** Every command a live controller sends is posted once, whatever the
    board answers, and sending changes no attribute. *)
Lemma gcode_posted cmd response_wait st r st' :
  live (self st) ->
  gcode json_loads cmd response_wait st = (r, st') ->
  self st' = self st /\ posted (net st') = posted (net st) ++ [cmd].
Proof.
  intros [Hsim Hses] H. unfold gcode in H.
  apply bind_inv in H. destruct H as [(c & st1 & H1 & H2) | (e & H1 & _)];
    [|discriminate H1].
  inversion H1; subst c st1; clear H1.
  rewrite Hsim, Hses in H2. simpl in H2.
  apply bind_inv in H2.
  assert (Hprim : forall r1 st1,
             gcode_primary cmd st = (r1, st1) ->
             self st1 = self st /\ posted (net st1) = posted (net st) ++ [cmd]).
  { intros r1 st1 Hp. unfold gcode_primary in Hp.
    apply try_except_inv in Hp.
    destruct Hp as [(a & Hp & _) | (e & st2 & Hp & Hh)].
    - apply bind_inv in Hp.
      destruct Hp as [(t & st2 & Hp1 & Hp2) | (e & Hp1 & Hp2)];
        [|discriminate Hp2].
      apply http_posted in Hp1.
      destruct (negb (PyStr.contains "rejected" t)); inversion Hp2; subst;
        exact Hp1.
    - apply bind_inv in Hp.
      destruct Hp as [(t & st3 & Hp1 & Hp2) | (e' & Hp1 & Hp2)].
      + destruct (negb (PyStr.contains "rejected" t)); discriminate Hp2.
      + apply http_posted in Hp1.
        destruct (exn_class_eqb (exn_cls e) RequestException);
          inversion Hh; subst; exact Hp1. }
  destruct H2 as [(p & st1 & H1 & H2) | (e & H1 & _)].
  - destruct (Hprim _ _ H1) as [E1 E2]. destruct p as [response|].
    + inversion H2; subst. auto.
    + destruct (quiet_gcode_fallback _ _ _ _ _ H2) as [E3 E4].
      split; congruence.
  - exact (Hprim _ _ H1).
Qed.

End Posting.

(* ================================================================== *)
(** * The polling loop ends *)
(* ================================================================== *)

Lemma bind_ext_run {A B : Type} (m : M A) (k1 k2 : A -> M B) st :
  (forall a st1, m st = (Return a, st1) -> k1 a st1 = k2 a st1) ->
  bind m k1 st = bind m k2 st.
Proof.
  intros H. unfold bind. destruct (m st) as [[a|e] st1]; [|reflexivity].
  apply H. reflexivity.
Qed.

Lemma http_return_consumes req st text st1 :
  http req st = (Return text, st1) ->
  List.length (pending (net st)) = S (List.length (pending (net st1))).
Proof.
  unfold http. destruct (pending (net st)) as [|ev rest]; [discriminate|].
  destruct (outcome ev); [|discriminate].
  intros H. inversion H; subst. reflexivity.
Qed.

Lemma seqs_reply_return_consumes json_loads st count st1 :
  seqs_reply json_loads st = (Return count, st1) ->
  List.length (pending (net st)) = S (List.length (pending (net st1))).
Proof.
  unfold seqs_reply. intros H.
  apply bind_return_inv in H. destruct H as (text & st2 & H1 & H).
  apply bind_return_inv in H. destruct H as (j & st3 & H2 & H).
  apply bind_return_inv in H. destruct H as (r & st4 & H3 & H4).
  unfold loads in H2. destruct (json_loads text); [|discriminate H2].
  inversion H2; subst st3. inversion H3; subst st4. inversion H4; subst st1.
  exact (http_return_consumes _ _ _ _ H1).
Qed.

(** Fuel beyond the length of the script changes nothing: the loop has
    ended before it is used. *)
Lemma poll_reply_fuel json_loads fuel extra reply_count tic response_wait st :
  (List.length (pending (net st)) < fuel)%nat ->
  poll_reply json_loads (fuel + extra) reply_count tic response_wait st
  = poll_reply json_loads fuel reply_count tic response_wait st.
Proof.
  revert st. induction fuel as [|fuel IH]; intros st Hlen; [lia|].
  cbn [Nat.add poll_reply]. apply bind_ext_run. intros count st1 Hs.
  apply seqs_reply_return_consumes in Hs.
  destruct (negb (Json.eqb count reply_count)); [reflexivity|].
  apply bind_ext_run. intros t st2 Ht. inversion Ht; subst st2 t.
  destruct (PyNum.ltb response_wait
                      (PyFloat.sub (PyFloat.round (clock (net st1))) tic));
    [reflexivity|].
  apply bind_ext_run. intros t' st2 Ht'. inversion Ht'; subst st2 t'.
  apply bind_ext_run. intros [] st3 Hsl. inversion Hsl; subst st3.
  apply IH. simpl. lia.
Qed.

(* ================================================================== *)
(** * The commands of a compound method *)
(* ================================================================== *)

(** The attributes no method below assigns. *)
Definition same_config (c c' : controller) : Prop :=
  simulated c' = simulated c
  /\ crash_detection c' = crash_detection c
  /\ session c' = session c
  /\ _axis_limits c' = _axis_limits c
  /\ tool_parking_positions c' = tool_parking_positions c.

Lemma same_config_refl c : same_config c c.
Proof. repeat split. Qed.

Lemma same_config_trans c1 c2 c3 :
  same_config c1 c2 -> same_config c2 c3 -> same_config c1 c3.
Proof.
  intros (A1 & A2 & A3 & A4 & A5) (B1 & B2 & B3 & B4 & B5).
  repeat split; congruence.
Qed.

Lemma same_config_live c c' : same_config c c' -> live c -> live c'.
Proof. intros (A1 & _ & A3 & _) [L1 L2]. split; congruence. Qed.

(** [emits c0 m full]: run from a live controller configured as [c0], the
    method [m] keeps the configuration and posts a prefix of [full], all of
    it when it returns. *)
Definition emits (c0 : controller) {A : Type} (m : M A) (full : list string)
  : Prop :=
  forall st r st',
    live (self st) -> same_config c0 (self st) ->
    m st = (r, st') ->
    same_config c0 (self st')
    /\ exists out,
        posted (net st') = posted (net st) ++ out
        /\ out `prefix_of` full
        /\ (forall a, r = Return a -> out = full).

Section Emits.

Variable json_loads : string -> option json.
Variable c0 : controller.

Lemma emits_quiet {A : Type} (m : M A) : quiet m -> emits c0 m [].
Proof.
  intros Hq st r st' _ Hc H. destruct (Hq _ _ _ H) as [E1 E2].
  rewrite E1. split; [exact Hc|]. exists []. rewrite app_nil_r.
  repeat split; auto.
Qed.

Lemma emits_ret {A : Type} (a : A) : emits c0 (ret a) [].
Proof. apply emits_quiet, quiet_ret. Qed.

Lemma emits_raise {A : Type} (e : exn) full : emits c0 (@raise A e) full.
Proof.
  intros st r st' _ Hc H. inversion H; subst. split; [exact Hc|].
  exists []. rewrite app_nil_r. repeat split.
  - apply prefix_nil.
  - intros a Ha. discriminate Ha.
Qed.

Lemma emits_bind {A B : Type} (m : M A) (k : A -> M B) l1 l2 :
  emits c0 m l1 -> (forall a, emits c0 (k a) l2) ->
  emits c0 (bind m k) (l1 ++ l2).
Proof.
  intros Hm Hk st r st' Hl Hc H.
  destruct (bind_inv _ _ _ _ _ H) as [(a & st1 & H1 & H2) | (e & H1 & Hr)].
  - destruct (Hm _ _ _ Hl Hc H1) as (Hc1 & out1 & P1 & _ & F1).
    assert (Hl1 : live (self st1)).
    { eapply same_config_live; [|exact Hl].
      destruct Hc as (A1 & A2 & A3 & A4 & A5).
      destruct Hc1 as (B1 & B2 & B3 & B4 & B5). repeat split; congruence. }
    destruct (Hk a _ _ _ Hl1 Hc1 H2) as (Hc2 & out2 & P2 & Q2 & F2).
    split; [exact Hc2|]. exists (l1 ++ out2).
    rewrite (F1 a eq_refl) in P1. rewrite P2, P1, app_assoc.
    repeat split.
    + apply prefix_app, Q2.
    + intros b Hb. rewrite (F2 b Hb). reflexivity.
  - destruct (Hm _ _ _ Hl Hc H1) as (Hc1 & out1 & P1 & Q1 & _).
    split; [exact Hc1|]. exists out1. repeat split; [exact P1| |].
    + apply prefix_app_r, Q1.
    + intros b Hb. subst r. discriminate Hb.
Qed.

(** Reading [self] to choose a branch. *)
Lemma emits_self {A : Type} (k : controller -> M A) full :
  (forall c, live c -> same_config c0 c -> emits c0 (k c) full) ->
  emits c0 (bind get_self k) full.
Proof.
  intros Hk st r st' Hl Hc H. unfold bind, get_self in H.
  exact (Hk (self st) Hl Hc _ _ _ Hl Hc H).
Qed.

(** A handler that raises again does not add to what was posted. *)
Lemma emits_try_except {A : Type} (m : M A) (h : exn -> M A) full :
  emits c0 m full -> (forall e, exists e', h e = raise e') ->
  emits c0 (try_except m h) full.
Proof.
  intros Hm Hh st r st' Hl Hc H.
  destruct (try_except_inv _ _ _ _ _ H) as [(a & H1 & Hr) | (e & st1 & H1 & H2)].
  - subst r. exact (Hm _ _ _ Hl Hc H1).
  - destruct (Hh e) as [e' He']. rewrite He' in H2. inversion H2; subst.
    destruct (Hm _ _ _ Hl Hc H1) as (Hc1 & out1 & P1 & Q1 & _).
    split; [exact Hc1|]. exists out1. repeat split; auto.
    intros a Ha. discriminate Ha.
Qed.

Lemma emits_send cmd : emits c0 (send json_loads cmd) [cmd].
Proof.
  intros st r st' Hl Hc H. destruct (gcode_posted _ _ _ _ _ _ Hl H) as [E1 E2].
  rewrite E1. split; [exact Hc|]. exists [cmd]. repeat split; auto.
Qed.

Lemma emits_set_self (f : controller -> controller) :
  (forall c, same_config c (f c)) -> emits c0 (set_self f) [].
Proof.
  intros Hf st r st' _ Hc H. inversion H; subst. simpl.
  split; [eapply same_config_trans; [exact Hc | apply Hf]|].
  exists []. rewrite app_nil_r. repeat split; auto.
Qed.

Lemma same_config_axes_homed v c : same_config c (with_axes_homed v c).
Proof. repeat split. Qed.

Lemma same_config_absolute b c : same_config c (with_absolute_positioning b c).
Proof. repeat split. Qed.

Lemma emits_setitem_axes_homed i v : emits c0 (setitem_axes_homed i v) [].
Proof.
  unfold setitem_axes_homed. apply emits_self. intros c _ _.
  destruct (i <? List.length (axes_homed c))%nat.
  - apply emits_set_self. intros c'. apply same_config_axes_homed.
  - apply emits_raise.
Qed.

End Emits.

(* ================================================================== *)
(** * What each method posts *)
(* ================================================================== *)

(** The commands of [home_xyu], in the order it sends them. *)
Definition home_xyu_commands : list string :=
  ["G28 U"; "G28 Y"; "G28 X"; "G90"; M409_homed].

Definition wait_commands (wait : bool) : list string :=
  if wait then ["M400"] else [].

(** The commands of one [move_to]. *)
Definition move_to_commands (x y z u s : option Q) (param : option string)
           (wait : bool) : list string :=
  "G90" :: M409_homed :: move_cmd x y z u s param :: wait_commands wait.

(** The [z] both tool sequences travel at. *)
Definition travel_z (pos : parking) (z_override : option Q) : Q :=
  match z_override with
  | Some v => v
  | None => pos.(z_park)
  end.

(** The approach (and retract) move and the engage move of a tool
    sequence. *)
Definition approach_commands (pos : parking) (z : Q) (speed : option Q)
  : list string :=
  move_to_commands (Some pos.(x_park)) (Some pos.(y_clear)) (Some z) None
                   speed None true.

Definition engage_commands (pos : parking) (z : Q) (speed : option Q)
  : list string :=
  move_to_commands (Some pos.(x_park)) (Some pos.(y_park)) (Some z) None
                   speed None true.

(** The commands of a tool sequence whose third step sends [macro]. *)
Definition sequence_commands (macro : string) (pos : parking) (z : Q)
           (speed : option Q) : list string :=
  approach_commands pos z speed ++ engage_commands pos z speed
  ++ [macro] ++ approach_commands pos z speed.

Section Traces.

Variable json_loads : string -> option json.
Variable py_float : string -> option Q.
Variable py_str : option Q -> string.
Variable c0 : controller.

Ltac on_live :=
  apply emits_self;
  let c := fresh "c" in
  let Hs := fresh "Hs" in
  let Hc := fresh "Hc" in
  intros c [Hs _] Hc; rewrite Hs.

Lemma emits_loads text : emits c0 (loads json_loads text) [].
Proof. apply emits_quiet, quiet_loads. Qed.

Lemma emits_lift {A : Type} (x : result A) : emits c0 (lift x) [].
Proof. apply emits_quiet, quiet_lift. Qed.

Lemma emits_home_axis letter i :
  emits c0 (_home_axis json_loads letter i) [("G28 " ++ letter)%string].
Proof.
  unfold _home_axis. on_live.
  apply emits_try_except; [|intros e; eexists; reflexivity].
  apply (emits_bind c0 _ _ [_] []); [apply emits_send|].
  intros _. apply emits_setitem_axes_homed.
Qed.

Lemma emits_set_absolute_positioning :
  emits c0 (_set_absolute_positioning json_loads) ["G90"].
Proof.
  unfold _set_absolute_positioning. on_live.
  apply (emits_bind c0 _ _ [_] []); [apply emits_send|].
  intros _. apply emits_set_self. intros c'. apply same_config_absolute.
Qed.

Lemma emits_home_xyu : emits c0 (home_xyu json_loads) home_xyu_commands.
Proof.
  unfold home_xyu. on_live.
  apply emits_try_except; [|intros e; eexists; reflexivity].
  apply (emits_bind c0 _ _ ["G28 U"] (_ :: _)); [apply emits_home_axis|]. intros _.
  apply (emits_bind c0 _ _ ["G28 Y"] (_ :: _)); [apply emits_home_axis|]. intros _.
  apply (emits_bind c0 _ _ ["G28 X"] (_ :: _)); [apply emits_home_axis|]. intros _.
  apply (emits_bind c0 _ _ ["G90"] [_]);
    [apply emits_set_absolute_positioning|]. intros _.
  apply (emits_bind c0 _ _ [_] []); [apply emits_send|]. intros reply.
  apply (emits_bind c0 _ _ [] []); [apply emits_loads|]. intros j.
  apply (emits_bind c0 _ _ [] []); [apply emits_lift|]. intros status.
  apply (emits_bind c0 _ _ [] []); [apply emits_lift|]. intros z.
  apply emits_set_self. intros c'. apply same_config_axes_homed.
Qed.

Lemma emits_machine_homed {A : Type} (func : M A) full :
  emits c0 func full ->
  emits c0 (machine_homed json_loads func) (M409_homed :: full).
Proof.
  intros Hf. unfold machine_homed. on_live.
  apply (emits_bind c0 _ _ [_] full).
  - apply emits_try_except; [|intros e; eexists; reflexivity].
    apply (emits_bind c0 _ _ [_] []); [apply emits_send|]. intros reply.
    apply (emits_bind c0 _ _ [] []); [apply emits_loads|]. intros j.
    apply emits_lift.
  - intros flags. apply (emits_bind c0 _ _ [] full); [apply emits_lift|].
    intros ok. destruct (negb ok); [apply emits_raise | exact Hf].
Qed.

Lemma emits_wait (wait : bool) :
  emits c0 (if wait then send json_loads "M400" ;; @ret unit tt
            else @ret unit tt)
        (wait_commands wait).
Proof.
  destruct wait; simpl; [|apply emits_ret].
  apply (emits_bind c0 _ _ [_] []); [apply emits_send|].
  intros _. apply emits_ret.
Qed.

Lemma emits_move_xyzu x y z u s param wait :
  emits c0 (_move_xyzu json_loads py_str x y z u s param wait)
        (M409_homed :: move_cmd x y z u s param :: wait_commands wait).
Proof.
  unfold _move_xyzu, _move_xyzu_body. apply emits_machine_homed. on_live.
  apply (emits_bind c0 _ _ [_] (wait_commands wait)); [apply emits_send|].
  intros _. apply emits_wait.
Qed.

(** The check of an absolute target sends nothing. *)
Lemma quiet_check_axis_limits_absolute target :
  quiet (_check_axis_limits json_loads py_float target false).
Proof.
  unfold _check_axis_limits. apply quiet_bind; [apply quiet_get_self|].
  intros c. destruct (simulated c); [apply quiet_ret|].
  destruct (_axis_limits c) as [lims|]; [|apply quiet_raise].
  destruct (negb (any_limit lims)); [apply quiet_raise|].
  apply quiet_bind; [apply quiet_ret|]. intros pos. apply quiet_lift.
Qed.

Lemma emits_move_to x y z u s param wait :
  emits c0 (move_to json_loads py_float py_str x y z u s param wait)
        (move_to_commands x y z u s param wait).
Proof.
  unfold move_to. on_live.
  apply emits_try_except; [|intros e; eexists; reflexivity].
  apply (emits_bind c0 _ _ ["G90"] (_ :: _));
    [apply emits_set_absolute_positioning|]. intros _.
  apply (emits_bind c0 _ _ [] (_ :: _));
    [apply emits_quiet, quiet_check_axis_limits_absolute|]. intros _.
  apply emits_move_xyzu.
Qed.

Lemma emits_tool_lock : emits c0 (tool_lock json_loads) [tool_lock_cmd].
Proof.
  unfold tool_lock, tool_lock_macro. on_live.
  apply (emits_bind c0 _ _ [_] []); [apply emits_send|].
  intros _. apply emits_ret.
Qed.

Lemma emits_tool_unlock : emits c0 (tool_unlock json_loads) [tool_unlock_cmd].
Proof.
  unfold tool_unlock, tool_unlock_macro. on_live.
  apply (emits_bind c0 _ _ [_] []); [apply emits_send|].
  intros _. apply emits_ret.
Qed.

Lemma emits_pickup_tool_sequence index z_override speed pos :
  tool_parking_positions c0 !! index = Some pos ->
  emits c0 (pickup_tool_sequence json_loads py_float py_str
                                 index z_override speed)
        (sequence_commands tool_lock_cmd pos (travel_z pos z_override) speed).
Proof.
  intros Hpos. unfold pickup_tool_sequence.
  apply emits_self. intros c [Hs _] (_ & _ & _ & _ & Ht). rewrite Hs, Ht, Hpos.
  unfold sequence_commands.
  apply emits_bind; [apply emits_move_to|]. intros _.
  apply emits_bind; [apply emits_move_to|]. intros _.
  apply emits_bind; [apply emits_tool_lock|]. intros _.
  apply emits_move_to.
Qed.

Lemma emits_park_tool_sequence index z_override speed pos :
  tool_parking_positions c0 !! index = Some pos ->
  emits c0 (park_tool_sequence json_loads py_float py_str
                               index z_override speed)
        (sequence_commands tool_unlock_cmd pos (travel_z pos z_override) speed).
Proof.
  intros Hpos. unfold park_tool_sequence.
  apply emits_self. intros c [Hs _] (_ & _ & _ & _ & Ht). rewrite Hs, Ht, Hpos.
  unfold sequence_commands.
  apply emits_bind; [apply emits_move_to|]. intros _.
  apply emits_bind; [apply emits_move_to|]. intros _.
  apply emits_bind; [apply emits_tool_unlock|]. intros _.
  apply emits_move_to.
Qed.

End Traces.

(* ================================================================== *)
(** * A bench for the examples *)
(* ================================================================== *)

Module Bench.

Definition T : json := JBool true.
Definition F : json := JBool false.

(** A connected controller as [__init__] and [connect] leave it, its four
    axes configured with limits and the cache reporting all homed. *)
Definition lab : controller :=
  {| simulated := false;
     crash_detection := false;
     session := true;
     _absolute_positioning := true;
     _axis_limits := Some [Some (0, 300); Some (0, 350); Some (0, 300);
                           Some (0, 200)]%Q;
     axes_homed := [T; T; T; T];
     tool_parking_positions := default_parking |}.

(** The same with crash detection on. *)
Definition lab_crash : controller :=
  {| simulated := false;
     crash_detection := true;
     session := true;
     _absolute_positioning := true;
     _axis_limits := _axis_limits lab;
     axes_homed := [T; T; T; T];
     tool_parking_positions := default_parking |}.


(** The controller [c] facing a board that will answer by [script]. *)
Definition boot (c : controller) (script : list event) : state :=
  {| self := c; net := {| pending := script; clock := 0; sent := [] |} |}.

Definition ok := Decoders.ok.
Definition homed := Decoders.homed_reply.

Definition gcode := gcode Decoders.json_loads.
Definition home_xyu := home_xyu Decoders.json_loads.
Definition get_position :=
  get_position Decoders.json_loads Decoders.decimal_float.
Definition move_to :=
  move_to Decoders.json_loads Decoders.decimal_float Decoders.py_str.
Definition move :=
  move Decoders.json_loads Decoders.decimal_float Decoders.py_str.
Definition pickup_tool_sequence :=
  pickup_tool_sequence Decoders.json_loads Decoders.decimal_float
                       Decoders.py_str.
Definition park_tool_sequence :=
  park_tool_sequence Decoders.json_loads Decoders.decimal_float
                     Decoders.py_str.

(** The replies to one successful [move_to] with [wait=True]. *)
Definition move_ok : list event :=
  [ok ""; ok (homed true true true true); ok ""; ok ""].

End Bench.

(* ================================================================== *)
(** * The transport: what [gcode] raises *)
(* ================================================================== *)

Lemma http_raises req st e st' :
  http req st = (Raise e, st') -> e = runtime_error RequestException.
Proof.
  unfold http. destruct (pending (net st)) as [|ev rest].
  - intros H. inversion H. reflexivity.
  - destruct (outcome ev); intros H; inversion H. reflexivity.
Qed.

(** The first [try] swallows every failure of the request. *)
Lemma gcode_primary_returns cmd st e st' :
  gcode_primary cmd st <> (Raise e, st').
Proof.
  intros H. unfold gcode_primary in H. apply try_except_inv in H.
  destruct H as [(a & _ & Hr) | (e0 & st1 & H1 & H2)]; [discriminate Hr|].
  apply bind_inv in H1. destruct H1 as [(t & st2 & _ & H1) | (e1 & H1 & Hr)].
  - destruct (negb (PyStr.contains "rejected" t)); discriminate H1.
  - inversion Hr; subst e1. apply http_raises in H1. subst e0.
    simpl in H2. discriminate H2.
Qed.

(** Whatever is raised inside the second [try] leaves [gcode] as a
    [JubileeCommunicationError] whose cause is the exception raised. *)
Lemma gcode_raises json_loads cmd response_wait st e st' :
  live (self st) ->
  gcode json_loads cmd response_wait st = (Raise e, st') ->
  exists cause,
    e = Exn JubileeCommunicationError
            (MsgWrap "G-code communication failed: " (exn_msg cause))
            (Some cause).
Proof.
  intros [Hsim Hses] H. unfold gcode in H.
  apply bind_inv in H. destruct H as [(c & st1 & H1 & H2) | (e0 & H1 & _)];
    [|discriminate H1].
  inversion H1; subst c st1; clear H1. rewrite Hsim, Hses in H2. simpl in H2.
  apply bind_inv in H2. destruct H2 as [(p & st1 & H1 & H2) | (e0 & H1 & _)].
  - destruct p as [response|]; [discriminate H2|].
    unfold gcode_fallback in H2. apply try_except_inv in H2.
    destruct H2 as [(a & _ & Hr) | (e0 & st2 & _ & H2)]; [discriminate Hr|].
    inversion H2; subst. eauto.
  - exfalso. exact (gcode_primary_returns _ _ _ _ H1).
Qed.

(** C4 (code defect).  With crash detection on, the command is rejected on
    [/machine/code], the reply counter moves from 1 to 2 and the reply
    fetched over the fallback path holds "crash detected": [gcode] raises
    the crash error inside its second [try], whose handler turns it into a
    [JubileeCommunicationError].  The caller receives a communication
    error; the crash error is only its cause. *)
Theorem crash_reply_is_wrapped :
  let crash :=
    Exn JubileeStateError (Msg "Crash detected during G-code execution!") None in
  let script :=
    [Decoders.ok "rejected"; Decoders.ok (Decoders.seqs_text 1);
     Decoders.ok ""; Decoders.ok (Decoders.seqs_text 2);
     Decoders.ok "Error: crash detected"] in
  let run := Bench.gcode "G0 X1" 60 (Bench.boot Bench.lab_crash script) in
  fst run
  = Raise (Exn JubileeCommunicationError
               (MsgWrap "G-code communication failed: "
                        (Msg "Crash detected during G-code execution!"))
               (Some crash))
  /\ sent (net (snd run))
     = [Post_machine_code "G0 X1"; Get_rr_model_seqs; Get_rr_gcode "G0 X1";
        Get_rr_model_seqs; Get_rr_reply]
  /\ exn_cls crash <> JubileeCommunicationError.
Proof.
  split; [vm_compute; reflexivity|].
  split; [vm_compute; reflexivity|]. discriminate.
Qed.

(* ================================================================== *)
(** * Tool indices without a parking position *)
(* ================================================================== *)

Lemma default_parking_outside (index : Z) :
  (index < 0 \/ 3 < index)%Z -> default_parking !! index = None.
Proof.
  intros H. unfold default_parking.
  rewrite !lookup_insert_ne by lia. apply lookup_empty.
Qed.

(** C10.  On a connected controller, a tool index with no entry in
    [tool_parking_positions] makes [pickup_tool_sequence] and
    [park_tool_sequence] raise a [JubileeStateError] whose text names the
    index, in the state they were called in: nothing is sent and no
    attribute changes.  In the table of [__init__] the indices without an
    entry are those outside 0..3. *)
Theorem unknown_tool_index_rejected :
  (forall index : Z,
      (index < 0 \/ 3 < index)%Z -> default_parking !! index = None)
  /\ forall json_loads py_float py_str st index z_override speed,
      live (self st) ->
      tool_parking_positions (self st) !! index = None ->
      pickup_tool_sequence json_loads py_float py_str index z_override speed st
      = (Raise (no_parking index), st)
      /\ park_tool_sequence json_loads py_float py_str index z_override speed st
         = (Raise (no_parking index), st)
      /\ no_parking index
         = Exn JubileeStateError
               (Msg ("No parking position defined for tool "
                     ++ PyStr.str_of_int index ++ "."))
               None.
Proof.
  split; [exact default_parking_outside|].
  intros json_loads py_float py_str st index z_override speed [Hsim _] Hidx.
  unfold pickup_tool_sequence, park_tool_sequence, bind, get_self.
  rewrite Hsim, Hidx. repeat split.
Qed.

Lemma unknown_tool_index_rejected_witness :
  let st := Bench.boot Bench.lab Bench.move_ok in
  Bench.pickup_tool_sequence 7 None speed_default st
  = (Raise (no_parking 7), st)
  /\ Bench.park_tool_sequence 7 None speed_default st
     = (Raise (no_parking 7), st)
  /\ no_parking 7
     = Exn JubileeStateError
           (Msg "No parking position defined for tool 7.") None.
Proof.
  intros st.
  destruct unknown_tool_index_rejected as [Hout Hrej].
  destruct (Hrej Decoders.json_loads Decoders.decimal_float Decoders.py_str
                 st 7%Z None speed_default) as (H1 & H2 & H3).
  - split; reflexivity.
  - apply Hout. right. lia.
  - split; [exact H1|]. split; [exact H2 | exact H3].
Defined.

(* ================================================================== *)
(** * Methods that assign no attribute *)
(* ================================================================== *)

(** [keeps_self m]: run from a live controller, [m] leaves every attribute
    as it was. *)
Definition keeps_self {A : Type} (m : M A) : Prop :=
  forall st r st', live (self st) -> m st = (r, st') -> self st' = self st.

Lemma keeps_self_quiet {A : Type} (m : M A) : quiet m -> keeps_self m.
Proof. intros Hq st r st' _ H. exact (proj1 (Hq _ _ _ H)). Qed.

Lemma keeps_self_bind {A B : Type} (m : M A) (k : A -> M B) :
  keeps_self m -> (forall a, keeps_self (k a)) -> keeps_self (bind m k).
Proof.
  intros Hm Hk st r st' Hl H.
  destruct (bind_inv _ _ _ _ _ H) as [(a & st1 & H1 & H2) | (e & H1 & _)].
  - pose proof (Hm _ _ _ Hl H1) as E1.
    assert (Hl1 : live (self st1)) by (rewrite E1; exact Hl).
    rewrite (Hk a _ _ _ Hl1 H2). exact E1.
  - exact (Hm _ _ _ Hl H1).
Qed.

Section KeepsSelf.

Variable json_loads : string -> option json.
Variable py_float : string -> option Q.

Lemma keeps_self_send cmd : keeps_self (send json_loads cmd).
Proof.
  intros st r st' Hl H. exact (proj1 (gcode_posted _ _ _ _ _ _ Hl H)).
Qed.

Lemma keeps_self_position_reply tries :
  keeps_self (position_reply json_loads tries).
Proof.
  induction tries as [|tries IH]; simpl.
  - apply keeps_self_quiet, quiet_raise.
  - apply keeps_self_bind; [apply keeps_self_send|]. intros response.
    destruct (PyStr.contains "Count" response).
    + apply keeps_self_quiet, quiet_ret.
    + apply keeps_self_bind; [apply keeps_self_quiet, quiet_time_sleep|].
      intros _. exact IH.
Qed.

Lemma keeps_self_get_position :
  keeps_self (get_position json_loads py_float).
Proof.
  unfold get_position. apply keeps_self_bind;
    [apply keeps_self_quiet, quiet_get_self|].
  intros c. destruct (simulated c); [apply keeps_self_quiet, quiet_ret|].
  apply keeps_self_bind; [apply keeps_self_position_reply|].
  intros response. apply keeps_self_quiet, quiet_ret.
Qed.

Lemma keeps_self_check_axis_limits target relative :
  keeps_self (_check_axis_limits json_loads py_float target relative).
Proof.
  unfold _check_axis_limits. apply keeps_self_bind;
    [apply keeps_self_quiet, quiet_get_self|].
  intros c. destruct (simulated c); [apply keeps_self_quiet, quiet_ret|].
  destruct (_axis_limits c) as [lims|]; [|apply keeps_self_quiet, quiet_raise].
  destruct (negb (any_limit lims)); [apply keeps_self_quiet, quiet_raise|].
  apply keeps_self_bind.
  - destruct relative; [apply keeps_self_get_position|].
    apply keeps_self_quiet, quiet_ret.
  - intros pos. apply keeps_self_quiet, quiet_lift.
Qed.

(** Setting the positioning mode keeps the controller live. *)
Lemma set_absolute_positioning_live st r st' :
  live (self st) ->
  _set_absolute_positioning json_loads st = (r, st') -> live (self st').
Proof.
  intros Hl H.
  destruct (emits_set_absolute_positioning json_loads (self st) st r st'
              Hl (same_config_refl _) H) as [Hc _].
  exact (same_config_live _ _ Hc Hl).
Qed.

Lemma set_relative_positioning_live st r st' :
  live (self st) ->
  _set_relative_positioning json_loads st = (r, st') -> live (self st').
Proof.
  intros Hl H. pose proof Hl as [Hsim Hses].
  unfold _set_relative_positioning, bind, get_self in H. rewrite Hsim in H.
  destruct (send json_loads "G91" st) as [[a|e] st1] eqn:Hs.
  - pose proof (keeps_self_send _ _ _ _ Hl Hs) as E.
    inversion H; subst. simpl. rewrite E. exact Hl.
  - pose proof (keeps_self_send _ _ _ _ Hl Hs) as E.
    inversion H; subst. rewrite E. exact Hl.
Qed.

End KeepsSelf.

(* ================================================================== *)
(** * The homing gate *)
(* ================================================================== *)

(** The error of the gate. *)
Definition not_homed : exn :=
  Exn JubileeStateError
      (Msg "Error: The machine must be homed (X, Y, Z, U) before this operation.")
      None.

Definition homing_check_failed (cause : exn) : exn :=
  Exn JubileeStateError (Msg "Unable to check homing state.") (Some cause).

(** The gate, step by step, from the outcome of its query. *)
Lemma machine_homed_run {A : Type} json_loads (func : M A) st r1 st1 :
  live (self st) ->
  send json_loads M409_homed st = (r1, st1) ->
  machine_homed json_loads func st
  = match r1 with
    | Raise e => (Raise (homing_check_failed e), st1)
    | Return reply =>
        match json_loads reply with
        | None => (Raise (homing_check_failed (runtime_error ValueError)), st1)
        | Some j =>
            match JsonOps.getitem_key j "result" with
            | Raise e => (Raise (homing_check_failed e), st1)
            | Return flags =>
                match JsonOps.all_first4 flags with
                | Raise e => (Raise e, st1)
                | Return true => func st1
                | Return false => (Raise not_homed, st1)
                end
            end
        end
    end.
Proof.
  intros [Hsim _] Hs.
  unfold machine_homed, bind, try_except, get_self. rewrite Hsim.
  unfold bind. rewrite Hs. destruct r1 as [reply|e]; [|reflexivity].
  unfold loads. destruct (json_loads reply) as [j|]; [|reflexivity].
  unfold ret, lift.
  destruct (JsonOps.getitem_key j "result") as [flags|e]; [|reflexivity].
  destruct (JsonOps.all_first4 flags) as [[|]|e]; reflexivity.
Qed.

(** What the gate does in front of [body], entered in [st] and ending in
    [res]: it sends the query of the homed flags; when the reply decodes to
    a list, a false item among its first four raises [not_homed] and sends
    nothing more, and otherwise [body] runs. *)
Definition gate_outcome (json_loads : string -> option json) (body : M unit)
           (st : state) (res : result unit * state) : Prop :=
  exists r1 st1,
    send json_loads M409_homed st = (r1, st1)
    /\ posted (net st1) = posted (net st) ++ [M409_homed]
    /\ forall reply j flags,
        r1 = Return reply ->
        json_loads reply = Some j ->
        JsonOps.getitem_key j "result" = Return (JArr flags) ->
        (forallb Json.truthy (firstn 4 flags) = false ->
         res = (Raise not_homed, st1))
        /\ (forallb Json.truthy (firstn 4 flags) = true -> res = body st1).

Lemma gate_outcome_intro json_loads (body : M unit) st :
  live (self st) ->
  gate_outcome json_loads body st (machine_homed json_loads body st).
Proof.
  intros Hl. destruct (send json_loads M409_homed st) as [r1 st1] eqn:Hs.
  exists r1, st1. split; [exact Hs|].
  split; [exact (proj2 (gcode_posted _ _ _ _ _ _ Hl Hs))|].
  intros reply j flags Hr Hj Hf. subst r1.
  rewrite (machine_homed_run _ _ _ _ _ Hl Hs), Hj, Hf. simpl.
  split; intros Hall; rewrite Hall; reflexivity.
Qed.

(** The guarded body raises nothing but what [gcode] raises. *)
Lemma move_xyzu_body_raises json_loads py_str x y z u s param wait st e st' :
  live (self st) ->
  _move_xyzu_body json_loads py_str x y z u s param wait st = (Raise e, st') ->
  exn_cls e = JubileeCommunicationError.
Proof.
  intros Hl H. pose proof Hl as [Hsim _].
  unfold _move_xyzu_body, bind at 1, get_self in H. rewrite Hsim in H.
  apply bind_inv in H. destruct H as [(a & st1 & H1 & H2) | (e0 & H1 & Hr)].
  - assert (Hl1 : live (self st1))
      by (rewrite (keeps_self_send _ _ _ _ _ Hl H1); exact Hl).
    destruct wait; [|discriminate H2].
    apply bind_inv in H2. destruct H2 as [(b & st2 & _ & H2) | (e0 & H2 & Hr)];
      [discriminate H2|].
    inversion Hr; subst e0.
    destruct (gcode_raises _ _ _ _ _ _ Hl1 H2) as [cause ->]. reflexivity.
  - inversion Hr; subst e0.
    destruct (gcode_raises _ _ _ _ _ _ Hl H1) as [cause ->]. reflexivity.
Qed.

(** C1, as the spec states it, fails on this controller.  The cache reports
    all four axes homed, and [move_to] still sends the query of the homed
    flags; the board answers that X is not homed and the call raises the
    error of the gate instead of moving. *)
Lemma homing_gate_ignores_cache :
  let script := [Bench.ok ""; Bench.ok (Bench.homed false true true true);
                 Bench.ok ""; Bench.ok ""] in
  let run := Bench.move_to (Some 10%Q) None None None speed_default None true
                           (Bench.boot Bench.lab script) in
  forallb Json.truthy (firstn 4 (axes_homed Bench.lab)) = true
  /\ fst run = Raise not_homed
  /\ posted (net (snd run)) = ["G90"; M409_homed].
Proof. repeat split; vm_compute; reflexivity. Qed.

(** C1, amended.  On a connected controller, a [move_to] or a [move] that
    has set its positioning mode and passed its limit check enters the
    gate, which never reads the cached flags: it always sends the query
    [M409 K"move.axes[].homed"].  When the reply decodes to a list, the call
    raises the [JubileeStateError] of the gate if and only if one of the
    first four items of that list is false, and sends nothing after the
    query; when they are all true the move itself runs, and whatever it
    raises is a communication error, never the error of the gate. *)
Theorem homing_gate_queries_the_board :
  forall json_loads py_float py_str x y z u s param wait,
    let body := _move_xyzu_body json_loads py_str x y z u s param wait in
    (forall st st1 st2,
        live (self st) ->
        _set_absolute_positioning json_loads st = (Return tt, st1) ->
        _check_axis_limits json_loads py_float
                           [("X", x); ("Y", y); ("Z", z)] false st1
        = (Return tt, st2) ->
        gate_outcome json_loads body st2
          (move_to json_loads py_float py_str x y z u s param wait st))
    /\ (forall st st1 st2,
           live (self st) ->
           _set_relative_positioning json_loads st = (Return tt, st1) ->
           _check_axis_limits json_loads py_float
                              [("X", x); ("Y", y); ("Z", z)] true st1
           = (Return tt, st2) ->
           gate_outcome json_loads body st2
             (move json_loads py_float py_str x y z u s param wait st))
    /\ (forall st e st',
           live (self st) -> body st = (Raise e, st') ->
           exn_cls e = JubileeCommunicationError
           /\ exn_cls not_homed = JubileeStateError).
Proof.
  intros json_loads py_float py_str x y z u s param wait body.
  split; [|split].
  - intros st st1 st2 Hl H1 H2. pose proof Hl as [Hsim _].
    assert (Hl1 : live (self st1))
      by exact (set_absolute_positioning_live _ _ _ _ Hl H1).
    assert (Hl2 : live (self st2))
      by (rewrite (keeps_self_check_axis_limits _ _ _ _ _ _ _ Hl1 H2);
          exact Hl1).
    unfold move_to, bind at 1, get_self. rewrite Hsim, reraise_id.
    unfold bind at 1. rewrite H1. unfold bind at 1. rewrite H2.
    apply gate_outcome_intro, Hl2.
  - intros st st1 st2 Hl H1 H2. pose proof Hl as [Hsim _].
    assert (Hl1 : live (self st1))
      by exact (set_relative_positioning_live _ _ _ _ Hl H1).
    assert (Hl2 : live (self st2))
      by (rewrite (keeps_self_check_axis_limits _ _ _ _ _ _ _ Hl1 H2);
          exact Hl1).
    unfold move, bind at 1, get_self. rewrite Hsim, reraise_id.
    unfold bind at 1. rewrite H1. unfold bind at 1. rewrite H2.
    apply gate_outcome_intro, Hl2.
  - intros st e st' Hl H. split; [|reflexivity].
    exact (move_xyzu_body_raises _ _ _ _ _ _ _ _ _ _ _ _ Hl H).
Qed.

(** The amended C1 on the bench: the cache says homed, the board says X is
    not, and the [move_to] is refused after the query. *)
Lemma homing_gate_queries_the_board_witness :
  let script := [Bench.ok ""; Bench.ok (Bench.homed false true true true);
                 Bench.ok ""; Bench.ok ""] in
  let st := Bench.boot Bench.lab script in
  let st1 := snd (_set_absolute_positioning Decoders.json_loads st) in
  let st2 := snd (_check_axis_limits
                    Decoders.json_loads Decoders.decimal_float
                    [("X", Some 10%Q); ("Y", None); ("Z", None)] false st1) in
  gate_outcome Decoders.json_loads
    (_move_xyzu_body Decoders.json_loads Decoders.py_str
                     (Some 10%Q) None None None speed_default None true)
    st2
    (Bench.move_to (Some 10%Q) None None None speed_default None true st).
Proof.
  intros script st st1 st2.
  apply (proj1 (homing_gate_queries_the_board
                  Decoders.json_loads Decoders.decimal_float
                  Decoders.py_str (Some 10%Q) None None None
                  speed_default None true) st st1 st2).
  - split; reflexivity.
  - vm_compute. reflexivity.
  - vm_compute. reflexivity.
Defined.

(* ================================================================== *)
(** * Runs that return *)
(* ================================================================== *)

(** A method that returns has posted all its commands. *)
Lemma emits_return {A : Type} c0 (m : M A) full st a st' :
  emits c0 m full ->
  live (self st) -> same_config c0 (self st) ->
  m st = (Return a, st') ->
  live (self st') /\ same_config c0 (self st')
  /\ posted (net st') = posted (net st) ++ full.
Proof.
  intros Hm Hl Hc H. destruct (Hm _ _ _ Hl Hc H) as (Hc' & out & P & _ & F).
  rewrite (F a eq_refl) in P. split; [|split; [exact Hc' | exact P]].
  destruct Hc as (A1 & _ & A3 & _), Hc' as (B1 & _ & B3 & _), Hl as [L1 L2].
  split; congruence.
Qed.

(* ================================================================== *)
(** * The homing sequence *)
(* ================================================================== *)



(* ================================================================== *)
(** * The axis-limit check *)
(* ================================================================== *)

(** [lo <= v <= hi], both ends included. *)
Definition in_range (lo v hi : Q) : Prop := (lo <= v)%Q /\ (v <= hi)%Q.

Lemma between_in_range lo v hi :
  PyNum.between lo v hi = true <-> in_range lo v hi.
Proof.
  unfold PyNum.between, in_range. rewrite andb_true_iff, !Qle_bool_iff.
  reflexivity.
Qed.

(** The value the check compares with the limits of [axis]. *)
Definition test_value (pos : gmap string (option Q)) (relative : bool)
           (axis : string) (v : Q) : result Q :=
  if relative then shifted pos axis v else Return v.

Definition kind_of (relative : bool) : string :=
  if relative then "Relative" else "Absolute".

(** A requested coordinate that the check compares: it is not null and
    its axis has limits. *)
Definition checked (limits : list (string * option (Q * Q)))
           (target : list (string * option Q))
           (axis : string) (v lo hi : Q) : Prop :=
  In (axis, Some v) target /\ assoc axis limits = Some (Some (lo, hi)).

Section CheckTargets.

Variable limits : list (string * option (Q * Q)).
Variable pos : gmap string (option Q).
Variable relative : bool.

(** The check passes when every compared value is in range. *)
Lemma check_targets_pass target :
  (forall axis v lo hi,
      checked limits target axis v lo hi ->
      exists t, test_value pos relative axis v = Return t /\ in_range lo t hi) ->
  check_targets limits pos relative target = Return tt.
Proof.
  induction target as [|[axis value] rest IH]; intros Hall; [reflexivity|].
  assert (Hrest : check_targets limits pos relative rest = Return tt).
  { apply IH. intros a v lo hi [Hin Has]. apply Hall. split; [right|]; assumption. }
  simpl. destruct value as [v|]; [|exact Hrest].
  destruct (assoc axis limits) as [[[lo hi]|]|] eqn:Has; try exact Hrest.
  destruct (Hall axis v lo hi) as (t & Ht & Hr).
  { split; [left; reflexivity | exact Has]. }
  unfold test_value in Ht. rewrite Ht.
  apply between_in_range in Hr. rewrite Hr. simpl. exact Hrest.
Qed.

(** When every compared value can be computed and one of them is out of
    range, the check raises the limit error of such an axis. *)
Lemma check_targets_fail target :
  (forall axis v lo hi,
      checked limits target axis v lo hi ->
      exists t, test_value pos relative axis v = Return t) ->
  (exists axis v lo hi t,
      checked limits target axis v lo hi
      /\ test_value pos relative axis v = Return t /\ ~ in_range lo t hi) ->
  exists axis v lo hi t,
    check_targets limits pos relative target
    = Raise (Exn JubileeStateError
                 (MsgAxisLimit (kind_of relative) axis lo hi) None)
    /\ checked limits target axis v lo hi
    /\ test_value pos relative axis v = Return t /\ ~ in_range lo t hi.
Proof.
  induction target as [|[axis value] rest IH]; intros Hdef Hbad.
  - destruct Hbad as (a & v & lo & hi & t & [[] _] & _).
  - assert (Hdef' : forall a v lo hi,
               checked limits rest a v lo hi ->
               exists t, test_value pos relative a v = Return t).
    { intros a v lo hi [Hin Has]. apply (Hdef a v lo hi).
      split; [right|]; assumption. }
    assert (Hskip : check_targets limits pos relative ((axis, value) :: rest)
                    = check_targets limits pos relative rest ->
                    (exists a v lo hi t,
                        checked limits rest a v lo hi
                        /\ test_value pos relative a v = Return t
                        /\ ~ in_range lo t hi) ->
                    exists a v lo hi t,
                      check_targets limits pos relative ((axis, value) :: rest)
                      = Raise (Exn JubileeStateError
                                   (MsgAxisLimit (kind_of relative) a lo hi) None)
                      /\ checked limits ((axis, value) :: rest) a v lo hi
                      /\ test_value pos relative a v = Return t
                      /\ ~ in_range lo t hi).
    { intros Heq Hbad'.
      destruct (IH Hdef' Hbad') as (a & v & lo & hi & t & E & [Hin Has] & Ht & Hr).
      exists a, v, lo, hi, t. rewrite Heq.
      repeat split; try assumption. right. exact Hin. }
    destruct value as [v|].
    + destruct (assoc axis limits) as [[[lo hi]|]|] eqn:Has.
      * destruct (Hdef axis v lo hi) as [t Ht].
        { split; [left; reflexivity | exact Has]. }
        destruct (PyNum.between lo t hi) eqn:Hb.
        -- apply Hskip.
           ++ simpl. rewrite Has. unfold test_value in Ht. rewrite Ht, Hb.
              reflexivity.
           ++ destruct Hbad as (a & v' & lo' & hi' & t' & [Hin Has'] & Ht' & Hr').
              destruct Hin as [Heq | Hin].
              ** inversion Heq; subst a v'. rewrite Has in Has'.
                 inversion Has'; subst lo' hi'. rewrite Ht in Ht'.
                 inversion Ht'; subst t'. exfalso. apply Hr'.
                 apply between_in_range. exact Hb.
              ** exists a, v', lo', hi', t'. repeat split; assumption.
        -- exists axis, v, lo, hi, t. split.
           ++ simpl. rewrite Has. unfold test_value in Ht. rewrite Ht, Hb.
              destruct relative; reflexivity.
           ++ split; [split; [left; reflexivity | exact Has]|].
              split; [exact Ht|]. intros Hr. apply between_in_range in Hr.
              rewrite Hr in Hb. discriminate Hb.
      * apply Hskip; [simpl; rewrite Has; reflexivity|].
        destruct Hbad as (a & v' & lo' & hi' & t' & [Hin Has'] & Ht' & Hr').
        destruct Hin as [Heq | Hin].
        -- inversion Heq; subst a v'. rewrite Has in Has'. discriminate Has'.
        -- exists a, v', lo', hi', t'. repeat split; assumption.
      * apply Hskip; [simpl; rewrite Has; reflexivity|].
        destruct Hbad as (a & v' & lo' & hi' & t' & [Hin Has'] & Ht' & Hr').
        destruct Hin as [Heq | Hin].
        -- inversion Heq; subst a v'. rewrite Has in Has'. discriminate Has'.
        -- exists a, v', lo', hi', t'. repeat split; assumption.
    + apply Hskip; [reflexivity|].
      destruct Hbad as (a & v' & lo' & hi' & t' & [Hin Has'] & Ht' & Hr').
      destruct Hin as [Heq | Hin]; [discriminate Heq|].
      exists a, v', lo', hi', t'. repeat split; assumption.
Qed.

End CheckTargets.

(** [_check_axis_limits] on a live controller with limits, once the position
    it needs is known. *)
Lemma check_axis_limits_absolute_run json_loads py_float target st lims :
  live (self st) ->
  _axis_limits (self st) = Some lims -> any_limit lims = true ->
  _check_axis_limits json_loads py_float target false st
  = (check_targets (limits_of lims) ∅ false target, st).
Proof.
  intros [Hsim _] Hlim Hany.
  unfold _check_axis_limits, bind, get_self. rewrite Hsim, Hlim, Hany.
  reflexivity.
Qed.

Lemma check_axis_limits_relative_run json_loads py_float target st lims pos st' :
  live (self st) ->
  _axis_limits (self st) = Some lims -> any_limit lims = true ->
  get_position json_loads py_float st = (Return pos, st') ->
  _check_axis_limits json_loads py_float target true st
  = (check_targets (limits_of lims) pos true target, st').
Proof.
  intros [Hsim _] Hlim Hany Hpos.
  unfold _check_axis_limits, bind, get_self. rewrite Hsim, Hlim, Hany.
  simpl. rewrite Hpos. reflexivity.
Qed.

(** C2, as the spec states it, fails on this controller.  An absolute move
    to X=500 with X limited to [0, 300] is refused, but [G90] has already
    gone over the wire; and a move to U=500 with U limited to [0, 200] is
    not refused: the move command is sent. *)
Lemma limit_refusal_follows_G90 :
  let st := Bench.boot Bench.lab Bench.move_ok in
  let refused :=
    Bench.move_to (Some 500%Q) None None None speed_default None false st in
  let sent_u :=
    Bench.move_to None None None (Some 500%Q) speed_default None false st in
  fst refused
  = Raise (Exn JubileeStateError (MsgAxisLimit "Absolute" "X" 0 300) None)
  /\ sent (net (snd refused)) = [Post_machine_code "G90"]
  /\ nth_error (default [] (_axis_limits Bench.lab)) 3 = Some (Some (0, 200)%Q)
  /\ fst sent_u = Return tt
  /\ posted (net (snd sent_u)) = ["G90"; M409_homed; "G0 U500.00 F6000.00"].
Proof. repeat split; vm_compute; reflexivity. Qed.

(** C2, amended.  On a connected controller with axis limits, once [G90]
    has been sent, an absolute [move_to] compares each non-null target of X,
    Y and Z that has a limit with that limit, both ends included.  If one
    of them is out of range the call raises the limit error of such an
    axis and sends nothing after [G90]: no move command reaches the wire.
    If they are all in range the check passes and the call goes on to the
    homing gate and the move.  The U target, a null target and an axis
    without a limit are not compared. *)
Theorem absolute_limit_check :
  forall json_loads py_float py_str x y z u s param wait st st1 lims,
    let target := [("X", x); ("Y", y); ("Z", z)] in
    live (self st) ->
    _axis_limits (self st) = Some lims -> any_limit lims = true ->
    _set_absolute_positioning json_loads st = (Return tt, st1) ->
    ((exists axis v lo hi,
         checked (limits_of lims) target axis v lo hi /\ ~ in_range lo v hi) ->
     exists axis v lo hi,
       move_to json_loads py_float py_str x y z u s param wait st
       = (Raise (Exn JubileeStateError (MsgAxisLimit "Absolute" axis lo hi) None),
          st1)
       /\ posted (net st1) = posted (net st) ++ ["G90"]
       /\ checked (limits_of lims) target axis v lo hi /\ ~ in_range lo v hi)
    /\ ((forall axis v lo hi,
            checked (limits_of lims) target axis v lo hi -> in_range lo v hi) ->
        move_to json_loads py_float py_str x y z u s param wait st
        = _move_xyzu json_loads py_str x y z u s param wait st1).
Proof.
  intros json_loads py_float py_str x y z u s param wait st st1 lims target
         Hl Hlim Hany Hset.
  pose proof Hl as [Hsim _].
  destruct (emits_return (self st) _ _ _ _ _
              (emits_set_absolute_positioning json_loads (self st))
              Hl (same_config_refl _) Hset) as (Hl1 & Hc1 & P1).
  assert (Hlim1 : _axis_limits (self st1) = Some lims).
  { destruct Hc1 as (_ & _ & _ & E & _). rewrite E. exact Hlim. }
  assert (Hrun : move_to json_loads py_float py_str x y z u s param wait st
                 = match check_targets (limits_of lims) ∅ false target with
                   | Return _ => _move_xyzu json_loads py_str x y z u s param
                                            wait st1
                   | Raise e => (Raise e, st1)
                   end).
  { unfold move_to, bind at 1, get_self. rewrite Hsim, reraise_id.
    unfold bind at 1. rewrite Hset. unfold bind at 1.
    rewrite (check_axis_limits_absolute_run _ _ _ _ _ Hl1 Hlim1 Hany).
    fold target. destruct (check_targets (limits_of lims) ∅ false target);
      reflexivity. }
  split.
  - intros (axis & v & lo & hi & Hch & Hout).
    destruct (check_targets_fail (limits_of lims) ∅ false target)
      as (a & v' & lo' & hi' & t & E & Hch' & Ht & Hr).
    + intros a v' lo' hi' _. exists v'. reflexivity.
    + exists axis, v, lo, hi, v. repeat split; try apply Hch; assumption.
    + simpl in Ht. inversion Ht; subst t.
      exists a, v', lo', hi'. rewrite Hrun, E.
      repeat split; try apply Hch'; assumption.
  - intros Hin. rewrite Hrun.
    rewrite (check_targets_pass (limits_of lims) ∅ false target); [reflexivity|].
    intros a v lo hi Hch. exists v. split; [reflexivity|].
    exact (Hin a v lo hi Hch).
Qed.

(** The amended C2 on the bench: X=500 against [0, 300] is refused after
    [G90] alone, and X=300, at the upper end, passes the check. *)
Lemma absolute_limit_check_witness :
  let st := Bench.boot Bench.lab Bench.move_ok in
  let st1 := snd (_set_absolute_positioning Decoders.json_loads st) in
  (exists axis v lo hi,
      Bench.move_to (Some 500%Q) None None None speed_default None false st
      = (Raise (Exn JubileeStateError (MsgAxisLimit "Absolute" axis lo hi) None),
         st1)
      /\ posted (net st1) = posted (net st) ++ ["G90"]
      /\ checked (limits_of [Some (0, 300); Some (0, 350); Some (0, 300);
                             Some (0, 200)]%Q)
                 [("X", Some 500%Q); ("Y", None); ("Z", None)] axis v lo hi
      /\ ~ in_range lo v hi)
  /\ Bench.move_to (Some 300%Q) None None None speed_default None false st
     = _move_xyzu Decoders.json_loads Decoders.py_str
                  (Some 300%Q) None None None speed_default None false st1.
Proof.
  intros st st1. split.
  - apply (proj1 (absolute_limit_check
                    Decoders.json_loads Decoders.decimal_float Decoders.py_str
                    (Some 500%Q) None None None speed_default None false
                    st st1 _ (conj eq_refl eq_refl) eq_refl eq_refl
                    ltac:(vm_compute; reflexivity))).
    exists "X", 500%Q, 0%Q, 300%Q. split.
    + split; [left; reflexivity | reflexivity].
    + intros [_ H]. revert H. unfold Qle. simpl. lia.
  - apply (proj2 (absolute_limit_check
                    Decoders.json_loads Decoders.decimal_float Decoders.py_str
                    (Some 300%Q) None None None speed_default None false
                    st st1 _ (conj eq_refl eq_refl) eq_refl eq_refl
                    ltac:(vm_compute; reflexivity))).
    intros axis v lo hi [Hin Has].
    destruct Hin as [Hin | [Hin | [Hin | []]]]; inversion Hin; subst.
    vm_compute in Has. inversion Has; subst.
    split; unfold Qle; simpl; lia.
Defined.




(* ================================================================== *)
(** * The tool-exchange sequences *)
(* ================================================================== *)







(** A failing lock or unlock macro has still been posted. *)
Lemma tool_macro_posted json_loads (cmd : string) st r st' :
  live (self st) ->
  (c <- get_self ;;
   if simulated c then ret tt else send json_loads cmd ;; ret tt) st = (r, st') ->
  posted (net st') = posted (net st) ++ [cmd].
Proof.
  intros Hl H. pose proof Hl as [Hsim _].
  unfold bind at 1, get_self in H. rewrite Hsim in H.
  apply bind_inv in H. destruct H as [(a & st1 & H1 & H2) | (e & H1 & _)].
  - inversion H2; subst. exact (proj2 (gcode_posted _ _ _ _ _ _ Hl H1)).
  - exact (proj2 (gcode_posted _ _ _ _ _ _ Hl H1)).
Qed.







(* ================================================================== *)
(** * The text of a move command *)
(* ================================================================== *)


Lemma prefix_empty (s : string) : String.prefix EmptyString s = true.
Proof. destruct s; reflexivity. Qed.

Lemma prefix_app (p s : string) : String.prefix p (p ++ s) = true.
Proof.
  induction p as [|x p IH]; simpl; [apply prefix_empty|].
  destruct (ascii_dec x x) as [_|Hne]; [exact IH | contradiction].
Qed.












Lemma contains_prefix (sub s : string) :
  String.prefix sub s = true -> PyStr.contains sub s = true.
Proof. intros H. destruct s; cbn [PyStr.contains]; rewrite H; reflexivity. Qed.

Lemma contains_cons (sub : string) (c : ascii) (s : string) :
  PyStr.contains sub s = true -> PyStr.contains sub (String c s) = true.
Proof. intros H. cbn [PyStr.contains]. rewrite H. apply orb_true_r. Qed.







(* ================================================================== *)
(** * The position reply *)
(* ================================================================== *)

Lemma contains_false_cons (sub : string) (c : ascii) (s : string) :
  PyStr.contains sub (String c s) = false ->
  String.prefix sub (String c s) = false /\ PyStr.contains sub s = false.
Proof.
  cbn [PyStr.contains]. intros H. apply orb_false_iff in H. exact H.
Qed.

(** Without an occurrence of the separator there is one part. *)
Lemma split1_absent (sep s : string) :
  PyStr.contains sep s = false -> PyStr.split1 sep s = [s].
Proof.
  induction s as [|c s IH]; intros H.
  - cbn [PyStr.contains] in H. apply orb_false_iff in H. destruct H as [H _].
    cbn [PyStr.split1]. rewrite H. reflexivity.
  - apply contains_false_cons in H. destruct H as [Hp Hc].
    cbn [PyStr.split1]. rewrite Hp, (IH Hc). reflexivity.
Qed.

(** [axis:value] splits at its first colon. *)
Lemma split1_colon (axis v : string) :
  PyStr.contains ":" axis = false ->
  PyStr.split1 ":" (axis ++ ":" ++ v) = [axis; v].
Proof.
  induction axis as [|c axis IH]; intros H.
  - change (PyStr.split1 ":" (String ":" v) = [EmptyString; v]).
    cbn [PyStr.split1 String.prefix].
    destruct (ascii_dec ":" ":") as [_|Hne]; [|contradiction].
    rewrite prefix_empty. reflexivity.
  - apply contains_false_cons in H. destruct H as [Hp Hc].
    change (PyStr.split1 ":" (String c (axis ++ ":" ++ v))
            = [String c axis; v]).
    cbn [PyStr.split1 String.prefix]. cbn [String.prefix] in Hp.
    destruct (ascii_dec ":" c) as [_|_].
    + rewrite prefix_empty in Hp. discriminate Hp.
    + rewrite (IH Hc). reflexivity.
Qed.

Lemma contains_colon (axis v : string) :
  PyStr.contains ":" (axis ++ ":" ++ v) = true.
Proof.
  induction axis as [|c axis IH].
  - apply contains_prefix. apply (prefix_app ":" v).
  - change (PyStr.contains ":" (String c (axis ++ ":" ++ v)) = true).
    apply contains_cons, IH.
Qed.

(** The text before the separator of the counts, when the word does not
    occur earlier. *)
Lemma split1_count (pre post : string) :
  PyStr.contains " Count" pre = false ->
  PyStr.split1 " Count " (pre ++ " Count " ++ post) = [pre; post].
Proof.
  induction pre as [|c pre IH]; intros H.
  - change (PyStr.split1 " Count " (" Count " ++ post) = [EmptyString; post]).
    destruct post; reflexivity.
  - apply contains_false_cons in H. destruct H as [Hp Hc].
    change (PyStr.split1 " Count " (String c (pre ++ " Count " ++ post))
            = [String c pre; post]).
    cbn [PyStr.split1].
    assert (Hno : String.prefix " Count " (String c (pre ++ " Count " ++ post))
                  = false).
    { cbn [String.prefix] in Hp |- *.
      destruct (ascii_dec " " c) as [_|_]; [|reflexivity].
      destruct pre as [|c1 [|c2 [|c3 [|c4 [|c5 pre]]]]];
        lazy beta iota delta [String.append];
        cbn [String.prefix] in Hp |- *;
        repeat match goal with
               | |- context [ascii_dec ?a ?b] =>
                   destruct (ascii_dec a b) as [?|?]; try discriminate;
                   try reflexivity
               | H : context [ascii_dec ?a ?b] |- _ =>
                   destruct (ascii_dec a b) as [?|?]; try discriminate;
                   try contradiction
               end;
        try reflexivity.
      rewrite prefix_empty in Hp. discriminate Hp. }
    rewrite Hno, (IH Hc). reflexivity.
Qed.

Lemma parse_element_pair py_float (m : gmap string (option Q)) (axis v : string) :
  PyStr.contains ":" axis = false ->
  parse_element py_float m (axis ++ ":" ++ v) = <[axis := py_float v]> m.
Proof.
  intros H. unfold parse_element.
  rewrite contains_colon, (split1_colon axis v H). reflexivity.
Qed.

Lemma parse_element_other py_float (m : gmap string (option Q)) (t : string) :
  PyStr.contains ":" t = false -> parse_element py_float m t = m.
Proof. intros H. unfold parse_element. rewrite H. reflexivity. Qed.

(** [get_position] when the first reply to [M114] holds the word. *)
Lemma get_position_first_reply json_loads py_float st reply st1 :
  live (self st) ->
  send json_loads "M114" st = (Return reply, st1) ->
  PyStr.contains "Count" reply = true ->
  get_position json_loads py_float st
  = (Return (parse_position py_float reply), st1).
Proof.
  intros [Hsim _] Hs Hc. unfold get_position, bind at 1, get_self.
  rewrite Hsim. unfold bind at 1. cbn [position_reply]. unfold bind at 1.
  rewrite Hs, Hc. reflexivity.
Qed.

(** C9, as the spec states it, fails on this parser.  A token whose value
    is not a number does not leave its axis out of the mapping: the axis is
    a key of the mapping, bound to [None]; an axis that has no token is
    not a key. *)
Lemma failed_value_is_a_key :
  let m := parse_position Decoders.decimal_float
                          "X:abc Y:2.00 Count 0 0 0 0" in
  Decoders.decimal_float "abc" = None
  /\ m !! "X" = Some None
  /\ m !! "Y" = Some (Some 2.00%Q)
  /\ m !! "Z" = None.
Proof. repeat split; vm_compute; reflexivity. Qed.

(** C9, amended.  [get_position] keeps the text of the reply before the
    first [" Count "] (the whole reply when there is none), splits it at
    white space, and reads the tokens in order: a token [axis:value] binds
    [axis] to [float(value)], a later token replacing an earlier one, and a
    token without a colon is skipped.  A value that [float] refuses raises
    nothing: its axis is bound to [None] in the mapping.  The reply
    ["X:1.50 Y:2.00 Z:0.00 U:0.00 Count 0 0 0 0"] gives
    [{X: 1.50, Y: 2.00, Z: 0.00, U: 0.00}]. *)
Theorem position_reply_parsing :
  forall py_float : string -> option Q,
    (forall pre post,
        PyStr.contains " Count" pre = false ->
        parse_position py_float (pre ++ " Count " ++ post)
        = fold_left (parse_element py_float) (PyStr.split_ws pre) ∅)
    /\ (forall response,
           PyStr.contains " Count " response = false ->
           parse_position py_float response
           = fold_left (parse_element py_float) (PyStr.split_ws response) ∅)
    /\ (forall (m : gmap string (option Q)) axis v,
           PyStr.contains ":" axis = false ->
           parse_element py_float m (axis ++ ":" ++ v)
           = <[axis := py_float v]> m)
    /\ (forall (m : gmap string (option Q)) axis v,
           PyStr.contains ":" axis = false ->
           py_float v = None ->
           parse_element py_float m (axis ++ ":" ++ v) !! axis = Some None)
    /\ (forall (m : gmap string (option Q)) t,
           PyStr.contains ":" t = false -> parse_element py_float m t = m)
    /\ (py_float "1.50" = Some 1.50%Q ->
        py_float "2.00" = Some 2.00%Q ->
        py_float "0.00" = Some 0.00%Q ->
        parse_position py_float "X:1.50 Y:2.00 Z:0.00 U:0.00 Count 0 0 0 0"
        = <["X" := Some 1.50%Q]>
            (<["Y" := Some 2.00%Q]>
               (<["Z" := Some 0.00%Q]> (<["U" := Some 0.00%Q]> ∅))))
    /\ (forall json_loads st reply st1,
           live (self st) ->
           send json_loads "M114" st = (Return reply, st1) ->
           PyStr.contains "Count" reply = true ->
           get_position json_loads py_float st
           = (Return (parse_position py_float reply), st1)).
Proof.
  intros py_float.
  split; [|split; [|split; [|split; [|split; [|split]]]]].
  - intros pre post H. unfold parse_position.
    rewrite (split1_count pre post H). reflexivity.
  - intros response H. unfold parse_position.
    rewrite (split1_absent _ _ H). reflexivity.
  - intros m axis v H. apply parse_element_pair, H.
  - intros m axis v H Hv. rewrite (parse_element_pair _ _ _ _ H), Hv.
    apply lookup_insert_eq.
  - intros m t H. apply parse_element_other, H.
  - intros H1 H2 H0.
    change (parse_position py_float
              "X:1.50 Y:2.00 Z:0.00 U:0.00 Count 0 0 0 0")
      with (fold_left (parse_element py_float)
              ["X" ++ ":" ++ "1.50"; "Y" ++ ":" ++ "2.00";
               "Z" ++ ":" ++ "0.00"; "U" ++ ":" ++ "0.00"]%string ∅).
    cbn [fold_left].
    rewrite !parse_element_pair by reflexivity. rewrite H1, H2, H0.
    apply map_eq. intros k.
    repeat (rewrite lookup_insert; case_decide; subst; try congruence);
      try reflexivity.
  - intros json_loads st reply st1 Hl Hs Hc.
    exact (get_position_first_reply _ _ _ _ _ Hl Hs Hc).
Qed.

(** The amended C9 on the bench, with the decoder of decimal numerals. *)
Lemma position_reply_parsing_witness :
  let reply := "X:1.50 Y:2.00 Z:0.00 U:0.00 Count 0 0 0 0" in
  let st := Bench.boot Bench.lab [Bench.ok reply] in
  parse_position Decoders.decimal_float reply
  = <["X" := Some 1.50%Q]>
      (<["Y" := Some 2.00%Q]>
         (<["Z" := Some 0.00%Q]> (<["U" := Some 0.00%Q]> ∅)))
  /\ fst (Bench.get_position st)
     = Return (parse_position Decoders.decimal_float reply)
  /\ parse_element Decoders.decimal_float ∅ ("X" ++ ":" ++ "abc") !! "X"
     = Some None.
Proof.
  intros reply st.
  destruct (position_reply_parsing Decoders.decimal_float)
    as (_ & _ & _ & Hnone & _ & Hex & Hget).
  split; [exact (Hex eq_refl eq_refl eq_refl)|]. split.
  - unfold Bench.get_position.
    rewrite (Hget Decoders.json_loads st reply
                  (snd (send Decoders.json_loads "M114" st))
                  (conj eq_refl eq_refl)
                  ltac:(vm_compute; reflexivity) eq_refl).
    reflexivity.
  - exact (Hnone ∅ "X" "abc" eq_refl eq_refl).
Defined.

(* ================================================================== *)
(** * More of the controller: connection, state stack, macros, dwell *)
(* ================================================================== *)

Definition with_session (b : bool) (c : controller) : controller :=
  {| simulated := simulated c;
     crash_detection := crash_detection c;
     session := b;
     _absolute_positioning := _absolute_positioning c;
     _axis_limits := _axis_limits c;
     axes_homed := axes_homed c;
     tool_parking_positions := tool_parking_positions c |}.

(** [disconnect].  Closing the HTTP session sends nothing, and a failure
    to close is only logged; then [self.session = None]. *)
Definition disconnect : M unit :=
  c <- get_self ;;
  if simulated c then ret tt
  else if negb (session c) then ret tt
  else set_self (with_session false).

(** [__exit__] *)
Definition __exit__ : M unit := disconnect.

Definition pickup_tool_macro_cmd (index : Z) : string :=
  "M98 P" ++ PyStr.quoted ("0:/macros/tool_manager/pickup_tool/pickup_tool"
                           ++ PyStr.str_of_int index ++ ".g").

Definition park_tool_macro_cmd (index : Z) : string :=
  "M98 P" ++ PyStr.quoted ("0:/macros/tool_manager/park_tool/park_tool"
                           ++ PyStr.str_of_int index ++ ".g").

Definition bad_macro_index : exn :=
  Exn JubileeStateError (Msg "Tool index must be between 0 and 3.") None.

Section ControllerMore.

Variable json_loads : string -> option json.
Variable py_float : string -> option Q.
Variable py_str : option Q -> string.

Definition push_machine_state : M unit :=
  c <- get_self ;;
  if simulated c then ret tt
  else
    try_except
      (send json_loads "M120" ;; ret tt)
      (fun e =>
         raise (Exn JubileeStateError
                    (Msg "Failed to push machine state.") (Some e))).

Definition pop_machine_state : M unit :=
  c <- get_self ;;
  if simulated c then ret tt
  else
    try_except
      (send json_loads "M121" ;; ret tt)
      (fun e =>
         raise (Exn JubileeStateError
                    (Msg "Failed to pop machine state.") (Some e))).

(** The body of [home_all]: what the decorator [safe_homing] runs once the
    user has confirmed that the deck is clear. *)
Definition home_all_body : M unit :=
  c <- get_self ;;
  if simulated c then
    set_self (with_axes_homed
                [JBool true; JBool true; JBool true; JBool true])
  else
    try_except
      (home_xyu json_loads ;;
       _home_z json_loads ;;
       set_self (with_axes_homed
                   [JBool true; JBool true; JBool true; JBool true]))
      (fun e =>
         raise (Exn JubileeHomingError
                    (Msg "Failed to home all axes.") (Some e))).

(** [dwell(t, millis)]; [f"G4 {param}{t}"] prints [t] as [str] does. *)
Definition dwell_cmd (t : Q) (millis : bool) : string :=
  ("G4 " ++ (if millis then "P" else "S") ++ py_str (Some t))%string.

Definition dwell (t : Q) (millis : bool) : M unit :=
  c <- get_self ;;
  if simulated c then ret tt
  else send json_loads (dwell_cmd t millis) ;; ret tt.

Definition pickup_tool_macro (index : Z) : M unit :=
  c <- get_self ;;
  if simulated c then ret tt
  else if negb ((0 <=? index)%Z && (index <=? 3)%Z) then raise bad_macro_index
  else send json_loads (pickup_tool_macro_cmd index) ;; ret tt.

Definition park_tool_macro (index : Z) : M unit :=
  c <- get_self ;;
  if simulated c then ret tt
  else if negb ((0 <=? index)%Z && (index <=? 3)%Z) then raise bad_macro_index
  else send json_loads (park_tool_macro_cmd index) ;; ret tt.

End ControllerMore.

(* ================================================================== *)
(** * Properties of the transport *)
(* ================================================================== *)

(** One request against a script that is not exhausted. *)
Lemma http_run req st ev rest :
  pending (net st) = ev :: rest ->
  http req st
  = (match outcome ev with
     | Response text => Return text
     | RequestFailed => Raise (runtime_error RequestException)
     end,
     with_net st {| pending := rest;
                    clock := (clock (net st) + latency ev)%Q;
                    sent := sent (net st) ++ [req] |}).
Proof.
  intros H. unfold http. cbv zeta. rewrite H.
  destruct (outcome ev); reflexivity.
Qed.

(** X1.  The pause between two polls of the reply counter is 0 only when
    the elapsed tenths are 0, never exceeds one second, and does not
    decrease as the elapsed time grows. *)
Theorem delay_time_backoff :
  (forall n, (0 <= _delay_time n)%Q /\ (_delay_time n <= 1)%Q)
  /\ (forall n m, (0 <= n <= m)%Z -> (_delay_time n <= _delay_time m)%Q)
  /\ (forall n, _delay_time n = 0%Q <-> n = 0%Z).
Proof.
  split; [|split].
  - intros n. unfold _delay_time.
    destruct (n =? 0)%Z; [split; unfold Qle; simpl; lia|].
    destruct (n <? 10)%Z; [split; unfold Qle; simpl; lia|].
    destruct (n <? 20)%Z; [split; unfold Qle; simpl; lia|].
    destruct (n <? 30)%Z; split; unfold Qle; simpl; lia.
  - intros n m [Hn Hnm]. unfold _delay_time.
    destruct (Z.eqb_spec n 0), (Z.eqb_spec m 0),
      (Z.ltb_spec n 10), (Z.ltb_spec m 10),
      (Z.ltb_spec n 20), (Z.ltb_spec m 20),
      (Z.ltb_spec n 30), (Z.ltb_spec m 30);
      try lia; unfold Qle; simpl; lia.
  - intros n. unfold _delay_time. destruct (Z.eqb_spec n 0) as [->|Hne].
    + split; reflexivity.
    + split; [|contradiction].
      destruct (n <? 10)%Z; [discriminate|].
      destruct (n <? 20)%Z; [discriminate|].
      destruct (n <? 30)%Z; discriminate.
Qed.

Lemma delay_time_backoff_witness :
  (_delay_time 5 <= _delay_time 25)%Q.
Proof.
  apply (proj1 (proj2 delay_time_backoff) 5%Z 25%Z). lia.
Defined.

Definition not_connected : exn :=
  Exn JubileeCommunicationError
      (Msg "Not connected: call connect() before sending G-code commands.")
      None.

(** X2.  On a connected controller [gcode] posts the command to
    [/machine/code] exactly once, whatever the board answers, and assigns
    no attribute; what it raises is always a [JubileeCommunicationError]
    that carries its cause; and a reply to the post that does not hold
    "rejected" is returned as it is, after that one request. *)
Theorem gcode_contract :
  forall json_loads cmd response_wait st,
    live (self st) ->
    (forall r st',
        gcode json_loads cmd response_wait st = (r, st') ->
        self st' = self st
        /\ posted (net st') = posted (net st) ++ [cmd]
        /\ (forall e, r = Raise e ->
                      exn_cls e = JubileeCommunicationError
                      /\ exists cause, exn_cause e = Some cause))
    /\ (forall text lat rest,
           pending (net st) = {| outcome := Response text; latency := lat |}
                              :: rest ->
           PyStr.contains "rejected" text = false ->
           exists st',
             gcode json_loads cmd response_wait st = (Return text, st')
             /\ sent (net st') = sent (net st) ++ [Post_machine_code cmd]
             /\ pending (net st') = rest).
Proof.
  intros json_loads cmd response_wait st Hl. split.
  - intros r st' H. destruct (gcode_posted _ _ _ _ _ _ Hl H) as [E1 E2].
    split; [exact E1|]. split; [exact E2|].
    intros e ->. destruct (gcode_raises _ _ _ _ _ _ Hl H) as [cause ->].
    split; [reflexivity | exists cause; reflexivity].
  - intros text lat rest Hp Hrej. destruct Hl as [Hsim Hses].
    unfold gcode, bind at 1, get_self. rewrite Hsim, Hses. simpl.
    unfold bind at 1, gcode_primary, try_except, bind.
    rewrite (http_run _ _ _ _ Hp). simpl. rewrite Hrej. simpl.
    eexists. split; [reflexivity|]. split; reflexivity.
Qed.

Lemma gcode_contract_witness :
  exists st',
    Bench.gcode "M400" 60
                (Bench.boot Bench.lab [Bench.ok "ok"; Bench.ok "unused"])
    = (Return "ok", st')
    /\ sent (net st') = [Post_machine_code "M400"]
    /\ pending (net st') = [Bench.ok "unused"].
Proof.
  destruct (proj2 (gcode_contract Decoders.json_loads "M400" 60
                     (Bench.boot Bench.lab [Bench.ok "ok"; Bench.ok "unused"])
                     (conj eq_refl eq_refl))
                  "ok" 0%Q [Bench.ok "unused"] eq_refl eq_refl)
    as (st' & H1 & H2 & H3).
  exists st'. split; [exact H1|]. split; [exact H2 | exact H3].
Defined.

(** The counter a reply of [/rr_model?key=seqs] decodes to. *)
Definition reply_counter (json_loads : string -> option json) (text : string)
  : result json :=
  match json_loads text with
  | None => Raise (runtime_error ValueError)
  | Some j =>
      match JsonOps.getitem_key j "result" with
      | Raise e => Raise e
      | Return r => JsonOps.getitem_key r "reply"
      end
  end.

(** X3.  The fallback protocol.  When the post fails or its reply holds
    "rejected", [gcode] reads the reply counter, submits the command to
    [/rr_gcode] and polls the counter; if the first poll shows another
    value it fetches [/rr_reply] and returns its text, five requests in
    all, in that order.  With crash detection off the text is returned
    whatever it holds. *)
Theorem gcode_fallback_protocol :
  forall json_loads cmd response_wait st ev0 l1 t1 ev2 l3 t3 l4 text rest
         c1 c3 t2,
    live (self st) ->
    crash_detection (self st) = false ->
    pending (net st)
    = ev0 :: {| outcome := Response t1; latency := l1 |} :: ev2
      :: {| outcome := Response t3; latency := l3 |}
      :: {| outcome := Response text; latency := l4 |} :: rest ->
    (outcome ev0 = RequestFailed
     \/ exists t0, outcome ev0 = Response t0
                   /\ PyStr.contains "rejected" t0 = true) ->
    outcome ev2 = Response t2 ->
    reply_counter json_loads t1 = Return c1 ->
    reply_counter json_loads t3 = Return c3 ->
    Json.eqb c3 c1 = false ->
    exists st',
      gcode json_loads cmd response_wait st = (Return text, st')
      /\ sent (net st')
         = sent (net st)
           ++ [Post_machine_code cmd; Get_rr_model_seqs; Get_rr_gcode cmd;
               Get_rr_model_seqs; Get_rr_reply]
      /\ pending (net st') = rest
      /\ self st' = self st.
Proof.
  intros json_loads cmd response_wait st ev0 l1 t1 ev2 l3 t3 l4 text rest
         c1 c3 t2 [Hsim Hses] Hcrash Hp H0 H2 Hc1 Hc3 Hne.
  unfold reply_counter in Hc1, Hc3.
  destruct (json_loads t1) as [j1|] eqn:Hj1; [|discriminate Hc1].
  destruct (JsonOps.getitem_key j1 "result") as [r1|] eqn:Hr1;
    [|discriminate Hc1].
  destruct (json_loads t3) as [j3|] eqn:Hj3; [|discriminate Hc3].
  destruct (JsonOps.getitem_key j3 "result") as [r3|] eqn:Hr3;
    [|discriminate Hc3].
  set (st1 := with_net st
                {| pending := {| outcome := Response t1; latency := l1 |}
                              :: ev2
                              :: {| outcome := Response t3; latency := l3 |}
                              :: {| outcome := Response text; latency := l4 |}
                              :: rest;
                   clock := (clock (net st) + latency ev0)%Q;
                   sent := sent (net st) ++ [Post_machine_code cmd] |}).
  assert (Hprim : gcode_primary cmd st = (Return None, st1)).
  { unfold gcode_primary, try_except, bind. rewrite (http_run _ _ _ _ Hp).
    destruct H0 as [H0 | (t0 & H0 & Hrej)]; rewrite H0; simpl.
    - reflexivity.
    - rewrite Hrej. reflexivity. }
  unfold gcode, bind at 1, get_self. rewrite Hsim, Hses. simpl.
  unfold bind at 1. rewrite Hprim.
  unfold gcode_fallback, try_except, seqs_reply, bind, http, loads, lift, ret,
    time_time, script_length, st1.
  repeat (unfold seqs_reply, bind, http, loads, lift, ret, get_self;
          cbn -[Qplus Qminus Qmult];
          first [rewrite Hj1 | rewrite Hr1 | rewrite Hc1 | rewrite H2
                | rewrite Hj3 | rewrite Hr3 | rewrite Hc3 | rewrite Hne
                | rewrite Hcrash]).
  cbn -[Qplus Qminus Qmult].
  eexists. split; [reflexivity|]. cbn. rewrite <- !app_assoc.
  repeat split.
Qed.

Lemma gcode_fallback_protocol_witness :
  exists st',
    Bench.gcode "G28 U" 60
      (Bench.boot Bench.lab
         [Decoders.down; Bench.ok (Decoders.seqs_text 4); Bench.ok "";
          Bench.ok (Decoders.seqs_text 5); Bench.ok "crash detected"])
    = (Return "crash detected", st')
    /\ sent (net st')
       = [Post_machine_code "G28 U"; Get_rr_model_seqs; Get_rr_gcode "G28 U";
          Get_rr_model_seqs; Get_rr_reply]
    /\ pending (net st') = []
    /\ self st' = Bench.lab.
Proof.
  apply (gcode_fallback_protocol
           Decoders.json_loads "G28 U" 60
           (Bench.boot Bench.lab
              [Decoders.down; Bench.ok (Decoders.seqs_text 4); Bench.ok "";
               Bench.ok (Decoders.seqs_text 5); Bench.ok "crash detected"])
           Decoders.down 0%Q (Decoders.seqs_text 4) (Bench.ok "")
           0%Q (Decoders.seqs_text 5) 0%Q "crash detected" []
           (JNum 4) (JNum 5) "").
  - split; reflexivity.
  - reflexivity.
  - reflexivity.
  - left. reflexivity.
  - reflexivity.
  - reflexivity.
  - reflexivity.
  - reflexivity.
Defined.

(* ================================================================== *)
(** * Disconnected and disconnecting *)
(* ================================================================== *)

(** A controller that is not simulated and has no session. *)
Definition offline_hardware (c : controller) : Prop :=
  simulated c = false /\ session c = false.

(** X4.  Without a session nothing is ever sent: [gcode], [move_to],
    [move], [get_position], [home_xyu] and both tool sequences raise in the
    state they were called in.  What [gcode] and the moves raise is the
    "Not connected" communication error; [home_xyu] reports it as the cause
    of the cause of its homing error. *)
Theorem without_session_nothing_is_sent :
  forall json_loads py_float py_str st,
    offline_hardware (self st) ->
    (forall cmd response_wait,
        gcode json_loads cmd response_wait st = (Raise not_connected, st))
    /\ (forall x y z u s param wait,
           move_to json_loads py_float py_str x y z u s param wait st
           = (Raise not_connected, st))
    /\ (forall dx dy dz du s param wait,
           move json_loads py_float py_str dx dy dz du s param wait st
           = (Raise not_connected, st))
    /\ get_position json_loads py_float st = (Raise not_connected, st)
    /\ home_xyu json_loads st
       = (Raise (Exn JubileeHomingError (Msg "Failed to home XYU axes.")
                     (Some (Exn JubileeHomingError
                                (Msg "Failed to home U axis.")
                                (Some not_connected)))), st)
    /\ (forall index z_override speed,
           exists e,
             pickup_tool_sequence json_loads py_float py_str
                                  index z_override speed st = (Raise e, st)
             /\ park_tool_sequence json_loads py_float py_str
                                   index z_override speed st = (Raise e, st)).
Proof.
  intros json_loads py_float py_str st [Hsim Hses].
  assert (Hg : forall cmd response_wait,
             gcode json_loads cmd response_wait st = (Raise not_connected, st)).
  { intros cmd rw. unfold gcode, bind, get_self. rewrite Hsim, Hses.
    reflexivity. }
  assert (Hmove : forall x y z u s param wait,
             move_to json_loads py_float py_str x y z u s param wait st
             = (Raise not_connected, st)).
  { intros. unfold move_to, bind at 1, get_self. rewrite Hsim, reraise_id.
    unfold bind at 1, _set_absolute_positioning, bind at 1, get_self.
    rewrite Hsim. unfold bind at 1, send. rewrite Hg. reflexivity. }
  split; [exact Hg|]. split; [exact Hmove|]. split; [|split; [|split]].
  - intros. unfold move, bind at 1, get_self. rewrite Hsim, reraise_id.
    unfold bind at 1, _set_relative_positioning, bind at 1, get_self.
    rewrite Hsim. unfold bind at 1, send. rewrite Hg. reflexivity.
  - unfold get_position, bind at 1, get_self. rewrite Hsim.
    unfold bind at 1. cbn [position_reply]. unfold bind at 1, send.
    rewrite Hg. reflexivity.
  - unfold home_xyu, bind at 1, get_self. rewrite Hsim.
    unfold try_except at 1, bind at 1, _home_u, _home_axis, bind at 1,
      get_self. rewrite Hsim.
    unfold try_except at 1, bind at 1, send. rewrite Hg. reflexivity.
  - intros index z_override speed.
    destruct (tool_parking_positions (self st) !! index) as [pos|] eqn:Hpos.
    + exists not_connected. split.
      * unfold pickup_tool_sequence, bind at 1, get_self.
        rewrite Hsim, Hpos. unfold bind at 1. rewrite Hmove. reflexivity.
      * unfold park_tool_sequence, bind at 1, get_self.
        rewrite Hsim, Hpos. unfold bind at 1. rewrite Hmove. reflexivity.
    + exists (no_parking index). split.
      * unfold pickup_tool_sequence, bind at 1, get_self.
        rewrite Hsim, Hpos. reflexivity.
      * unfold park_tool_sequence, bind at 1, get_self.
        rewrite Hsim, Hpos. reflexivity.
Qed.

Lemma without_session_nothing_is_sent_witness :
  let st := Bench.boot (with_session false Bench.lab) Bench.move_ok in
  Bench.move_to (Some 10%Q) None None None speed_default None true st
  = (Raise not_connected, st).
Proof.
  intros st.
  exact (proj1 (proj2 (without_session_nothing_is_sent
                         Decoders.json_loads Decoders.decimal_float
                         Decoders.py_str st (conj eq_refl eq_refl)))
               (Some 10%Q) None None None speed_default None true).
Defined.

(** X5.  [disconnect] sends nothing, drops the session and leaves every
    other attribute; a second [disconnect] changes nothing more; and after
    it the controller is without a session, so that every later command is
    refused before it reaches the wire. *)
Theorem disconnect_closes_the_session :
  forall st,
    live (self st) ->
    exists st1,
      disconnect st = (Return tt, st1)
      /\ net st1 = net st
      /\ self st1 = with_session false (self st)
      /\ offline_hardware (self st1)
      /\ disconnect st1 = (Return tt, st1)
      /\ __exit__ st = disconnect st
      /\ forall json_loads cmd response_wait,
          gcode json_loads cmd response_wait st1 = (Raise not_connected, st1).
Proof.
  intros st [Hsim Hses].
  exists {| self := with_session false (self st); net := net st |}.
  assert (Hd : disconnect st
               = (Return tt,
                  {| self := with_session false (self st); net := net st |})).
  { unfold disconnect, bind, get_self, set_self. rewrite Hsim, Hses.
    reflexivity. }
  split; [exact Hd|]. split; [reflexivity|]. split; [reflexivity|].
  split; [split; [exact Hsim | reflexivity]|].
  split; [unfold disconnect, bind, get_self; simpl; rewrite Hsim; reflexivity|].
  split; [reflexivity|].
  intros json_loads cmd rw. unfold gcode, bind, get_self. simpl.
  rewrite Hsim. reflexivity.
Qed.

Lemma disconnect_closes_the_session_witness :
  exists st1,
    disconnect (Bench.boot Bench.lab Bench.move_ok) = (Return tt, st1)
    /\ sent (net st1) = []
    /\ Bench.gcode "G90" 60 st1 = (Raise not_connected, st1).
Proof.
  destruct (disconnect_closes_the_session
              (Bench.boot Bench.lab Bench.move_ok) (conj eq_refl eq_refl))
    as (st1 & H1 & H2 & _ & _ & _ & _ & H3).
  exists st1. split; [exact H1|]. split; [rewrite H2; reflexivity|].
  apply H3.
Defined.

(* ================================================================== *)
(** * The state stack, the macros and the dwell *)
(* ================================================================== *)

(** A method that sends one command and wraps a failure. *)
Lemma send_wrapped_posted json_loads (cmd : string) (wrap : exn -> exn)
      st r st' :
  live (self st) ->
  try_except (send json_loads cmd ;; ret tt) (fun e => raise (wrap e)) st
  = (r, st') ->
  self st' = self st
  /\ posted (net st') = posted (net st) ++ [cmd]
  /\ (forall e, r = Raise e ->
                exists cause,
                  e = wrap cause /\ exn_cls cause = JubileeCommunicationError).
Proof.
  intros Hl H. unfold try_except, bind in H.
  destruct (send json_loads cmd st) as [[a|e0] st1] eqn:Hs.
  - inversion H; subst. destruct (gcode_posted _ _ _ _ _ _ Hl Hs) as [E1 E2].
    repeat split; try assumption. intros e He. discriminate He.
  - inversion H; subst. destruct (gcode_posted _ _ _ _ _ _ Hl Hs) as [E1 E2].
    repeat split; try assumption. intros e He. inversion He; subst.
    exists e0. split; [reflexivity|].
    destruct (gcode_raises _ _ _ _ _ _ Hl Hs) as [cause ->]. reflexivity.
Qed.

(** X6.  On a connected controller [push_machine_state] posts [M120] and
    [pop_machine_state] posts [M121], once, and assign no attribute; a
    failure of the command is raised as a [JubileeStateError] whose cause is
    the communication error. *)
Theorem machine_state_stack :
  forall json_loads st r st',
    live (self st) ->
    (push_machine_state json_loads st = (r, st') ->
     self st' = self st
     /\ posted (net st') = posted (net st) ++ ["M120"]
     /\ (forall e, r = Raise e ->
                   exists cause,
                     e = Exn JubileeStateError
                             (Msg "Failed to push machine state.") (Some cause)
                     /\ exn_cls cause = JubileeCommunicationError))
    /\ (pop_machine_state json_loads st = (r, st') ->
        self st' = self st
        /\ posted (net st') = posted (net st) ++ ["M121"]
        /\ (forall e, r = Raise e ->
                      exists cause,
                        e = Exn JubileeStateError
                                (Msg "Failed to pop machine state.") (Some cause)
                        /\ exn_cls cause = JubileeCommunicationError)).
Proof.
  intros json_loads st r st' Hl. pose proof Hl as [Hsim _]. split; intros H.
  - unfold push_machine_state, bind at 1, get_self in H. rewrite Hsim in H.
    exact (send_wrapped_posted json_loads "M120"
             (fun e => Exn JubileeStateError
                           (Msg "Failed to push machine state.") (Some e))
             st r st' Hl H).
  - unfold pop_machine_state, bind at 1, get_self in H. rewrite Hsim in H.
    exact (send_wrapped_posted json_loads "M121"
             (fun e => Exn JubileeStateError
                           (Msg "Failed to pop machine state.") (Some e))
             st r st' Hl H).
Qed.

Lemma machine_state_stack_witness :
  let st := Bench.boot Bench.lab [Bench.ok ""] in
  posted (net (snd (push_machine_state Decoders.json_loads st))) = ["M120"]
  /\ posted (net (snd (pop_machine_state Decoders.json_loads st))) = ["M121"].
Proof.
  intros st. split.
  - exact (proj1 (proj2 (proj1 (machine_state_stack
                                  Decoders.json_loads st _ _
                                  (conj eq_refl eq_refl))
                               (surjective_pairing _)))).
  - exact (proj1 (proj2 (proj2 (machine_state_stack
                                  Decoders.json_loads st _ _
                                  (conj eq_refl eq_refl))
                               (surjective_pairing _)))).
Defined.

(** X7.  On a connected controller the per-index macros accept the
    indices 0 to 3 only: any other index raises a [JubileeStateError] in
    the state of the call, nothing sent; an index from 0 to 3 posts one
    [M98] command whose path names the index, whatever the parking table
    holds. *)
Theorem tool_macros_check_the_index :
  forall json_loads st index,
    live (self st) ->
    ((index < 0 \/ 3 < index)%Z ->
     pickup_tool_macro json_loads index st = (Raise bad_macro_index, st)
     /\ park_tool_macro json_loads index st = (Raise bad_macro_index, st))
    /\ ((0 <= index <= 3)%Z ->
        forall r st',
          (pickup_tool_macro json_loads index st = (r, st') ->
           posted (net st')
           = posted (net st)
             ++ ["M98 P" ++ PyStr.quoted
                   ("0:/macros/tool_manager/pickup_tool/pickup_tool"
                    ++ PyStr.str_of_int index ++ ".g")]%string)
          /\ (park_tool_macro json_loads index st = (r, st') ->
              posted (net st')
              = posted (net st)
                ++ ["M98 P" ++ PyStr.quoted
                      ("0:/macros/tool_manager/park_tool/park_tool"
                       ++ PyStr.str_of_int index ++ ".g")]%string)).
Proof.
  intros json_loads st index Hl. pose proof Hl as [Hsim _]. split.
  - intros Hout. unfold pickup_tool_macro, park_tool_macro, bind, get_self.
    rewrite Hsim.
    assert (E : ((0 <=? index)%Z && (index <=? 3)%Z) = false).
    { destruct (Z.leb_spec 0 index), (Z.leb_spec index 3); simpl; lia. }
    rewrite E. split; reflexivity.
  - intros Hin r st'.
    assert (E : ((0 <=? index)%Z && (index <=? 3)%Z) = true).
    { destruct (Z.leb_spec 0 index), (Z.leb_spec index 3); simpl; lia. }
    split; intros H.
    + unfold pickup_tool_macro, bind at 1, get_self in H.
      rewrite Hsim, E in H. simpl in H.
      exact (tool_macro_posted json_loads (pickup_tool_macro_cmd index) st r st'
               Hl ltac:(unfold bind at 1, get_self; rewrite Hsim; exact H)).
    + unfold park_tool_macro, bind at 1, get_self in H.
      rewrite Hsim, E in H. simpl in H.
      exact (tool_macro_posted json_loads (park_tool_macro_cmd index) st r st'
               Hl ltac:(unfold bind at 1, get_self; rewrite Hsim; exact H)).
Qed.

Lemma tool_macros_check_the_index_witness :
  let st := Bench.boot Bench.lab [Bench.ok ""] in
  pickup_tool_macro Decoders.json_loads 4 st = (Raise bad_macro_index, st)
  /\ posted (net (snd (park_tool_macro Decoders.json_loads 2 st)))
     = ["M98 P" ++ PyStr.quoted "0:/macros/tool_manager/park_tool/park_tool2.g"]%string.
Proof.
  intros st.
  destruct (tool_macros_check_the_index Decoders.json_loads st 4%Z
              (conj eq_refl eq_refl)) as [Hout _].
  destruct (tool_macros_check_the_index Decoders.json_loads st 2%Z
              (conj eq_refl eq_refl)) as [_ Hin].
  split.
  - apply Hout. right. lia.
  - exact (proj2 (Hin ltac:(lia) _ _) (surjective_pairing _)).
Defined.

(* ================================================================== *)
(** * Simulation mode *)
(* ================================================================== *)

(** What the simulated [gcode] answers. *)
Definition simulated_reply (cmd : string) : string :=
  if PyStr.startswith cmd "M409"
  then ("{" ++ PyStr.quoted "result" ++ ": [true, true, true, true]}")%string
  else if PyStr.startswith cmd "M114"
  then "X:0.00 Y:0.00 Z:0.00 U:0.00 Count 0 0 0 0"
  else if PyStr.startswith cmd "M119"
  then ("X: open" ++ nl ++ "Y: open" ++ nl ++ "Z: open" ++ nl ++ "U: open")%string
  else "".

Definition set_mode (absolute : bool) (st : state) : state :=
  {| self := with_absolute_positioning absolute (self st); net := net st |}.

Definition set_homed (flags : list json) (st : state) : state :=
  {| self := with_axes_homed flags (self st); net := net st |}.

Definition position_zero : gmap string (option Q) :=
  <["X" := Some 0%Q]> (<["Y" := Some 0%Q]>
    (<["Z" := Some 0%Q]> (<["U" := Some 0%Q]> ∅))).

Lemma simulated_gcode json_loads cmd response_wait st :
  simulated (self st) = true ->
  gcode json_loads cmd response_wait st = (Return (simulated_reply cmd), st).
Proof.
  intros Hsim. unfold gcode, bind, get_self, simulated_reply. rewrite Hsim.
  destruct (PyStr.startswith cmd "M409"); [reflexivity|].
  destruct (PyStr.startswith cmd "M114"); [reflexivity|].
  destruct (PyStr.startswith cmd "M119"); reflexivity.
Qed.

Lemma simulated_move_xyzu json_loads py_str x y z u s param wait st :
  simulated (self st) = true ->
  _move_xyzu json_loads py_str x y z u s param wait st = (Return tt, st).
Proof.
  intros Hsim.
  unfold _move_xyzu, machine_homed, bind at 1, get_self. rewrite Hsim.
  unfold _move_xyzu_body, bind at 1, get_self. rewrite Hsim.
  unfold bind at 1, send. rewrite (simulated_gcode _ _ _ _ Hsim).
  destruct wait; [|reflexivity].
  unfold bind at 1. rewrite (simulated_gcode _ _ _ _ Hsim). reflexivity.
Qed.

(** X8.  In simulation mode no method sends anything and none fails: a
    move returns whatever its target is, without a limit check and without
    the homing gate, recording only the positioning mode; [home_xyu] and
    the body of [home_all] mark the four axes homed, Z too; the tool
    sequences and the macros return for any index; [gcode] answers from a
    fixed table. *)
Theorem simulation_sends_nothing :
  forall json_loads py_float py_str st,
    simulated (self st) = true ->
    (forall cmd response_wait,
        gcode json_loads cmd response_wait st
        = (Return (simulated_reply cmd), st))
    /\ (forall x y z u s param wait,
           move_to json_loads py_float py_str x y z u s param wait st
           = (Return tt, set_mode true st))
    /\ (forall dx dy dz du s param wait,
           move json_loads py_float py_str dx dy dz du s param wait st
           = (Return tt, set_mode false st))
    /\ home_xyu json_loads st
       = (Return tt,
          set_homed [JBool true; JBool true; JBool true; JBool true] st)
    /\ home_all_body json_loads st
       = (Return tt,
          set_homed [JBool true; JBool true; JBool true; JBool true] st)
    /\ get_position json_loads py_float st = (Return position_zero, st)
    /\ (forall index z_override speed,
           pickup_tool_sequence json_loads py_float py_str
                                index z_override speed st = (Return tt, st)
           /\ park_tool_sequence json_loads py_float py_str
                                 index z_override speed st = (Return tt, st)
           /\ pickup_tool_macro json_loads index st = (Return tt, st)
           /\ park_tool_macro json_loads index st = (Return tt, st))
    /\ push_machine_state json_loads st = (Return tt, st)
    /\ pop_machine_state json_loads st = (Return tt, st)
    /\ (forall t millis, dwell json_loads py_str t millis st = (Return tt, st))
    /\ disconnect st = (Return tt, st).
Proof.
  intros json_loads py_float py_str st Hsim.
  assert (Hsim' : forall b, simulated (self (set_mode b st)) = true)
    by (intros b; exact Hsim).
  split; [intros; apply simulated_gcode, Hsim|].
  split.
  { intros. unfold move_to, bind at 1, get_self. rewrite Hsim.
    unfold bind at 1, _set_absolute_positioning, bind at 1, get_self, set_self.
    rewrite Hsim. fold (set_mode true st).
    unfold bind at 1, _check_axis_limits, bind at 1, get_self.
    rewrite (Hsim' true). unfold ret.
    apply simulated_move_xyzu, Hsim'. }
  split.
  { intros. unfold move, bind at 1, get_self. rewrite Hsim.
    unfold bind at 1, _set_relative_positioning, bind at 1, get_self, set_self.
    rewrite Hsim. fold (set_mode false st).
    unfold bind at 1, _check_axis_limits, bind at 1, get_self.
    rewrite (Hsim' false). unfold ret.
    apply simulated_move_xyzu, Hsim'. }
  split; [unfold home_xyu, bind, get_self; rewrite Hsim; reflexivity|].
  split; [unfold home_all_body, bind, get_self; rewrite Hsim; reflexivity|].
  split; [unfold get_position, bind, get_self; rewrite Hsim; reflexivity|].
  split.
  { intros index z_override speed.
    unfold pickup_tool_sequence, park_tool_sequence, pickup_tool_macro,
      park_tool_macro, bind, get_self. rewrite Hsim. repeat split. }
  split; [unfold push_machine_state, bind, get_self; rewrite Hsim; reflexivity|].
  split; [unfold pop_machine_state, bind, get_self; rewrite Hsim; reflexivity|].
  split; [intros; unfold dwell, bind, get_self; rewrite Hsim; reflexivity|].
  unfold disconnect, bind, get_self. rewrite Hsim. reflexivity.
Qed.

(** A simulated controller as [__init__] leaves it: no session, no limits,
    no axis homed. *)
Definition simulated_lab : controller :=
  {| simulated := true;
     crash_detection := false;
     session := false;
     _absolute_positioning := true;
     _axis_limits := None;
     axes_homed := [JBool false; JBool false; JBool false; JBool false];
     tool_parking_positions := default_parking |}.

Lemma simulation_sends_nothing_witness :
  let st := Bench.boot simulated_lab [] in
  Bench.move_to (Some 99999%Q) None None None speed_default None true st
  = (Return tt, set_mode true st)
  /\ Bench.pickup_tool_sequence 42 None speed_default st = (Return tt, st).
Proof.
  intros st.
  destruct (simulation_sends_nothing
              Decoders.json_loads Decoders.decimal_float Decoders.py_str st
              eq_refl)
    as (_ & Hmove & _ & _ & _ & _ & Hseq & _).
  split; [apply Hmove | apply Hseq].
Defined.

(** Two positions with the same keys and equal values. *)
Definition same_position (a b : gmap string (option Q)) : Prop :=
  forall k,
    match a !! k, b !! k with
    | Some (Some p), Some (Some q) => (p == q)%Q
    | Some None, Some None => True
    | None, None => True
    | _, _ => False
    end.

(** X9.  The simulated replies agree with the simulated getters: the
    position [get_position] reports in simulation is what its parser reads
    in the simulated reply to [M114], and the simulated reply to the query
    of the homed flags passes the test of the homing gate. *)
Theorem simulated_replies_are_consistent :
  forall json_loads py_float st zero,
    simulated (self st) = true ->
    py_float "0.00" = Some zero -> (zero == 0)%Q ->
    json_loads (simulated_reply M409_homed)
    = Some (JObj [("result", json_true4)]) ->
    (exists reply pos,
        send json_loads "M114" st = (Return reply, st)
        /\ PyStr.contains "Count" reply = true
        /\ get_position json_loads py_float st = (Return pos, st)
        /\ same_position (parse_position py_float reply) pos)
    /\ (exists reply j flags,
           send json_loads M409_homed st = (Return reply, st)
           /\ json_loads reply = Some j
           /\ JsonOps.getitem_key j "result" = Return flags
           /\ JsonOps.all_first4 flags = Return true).
Proof.
  intros json_loads py_float st zero Hsim Hzero Hz Hjson. split.
  - exists (simulated_reply "M114"), position_zero.
    split; [apply simulated_gcode, Hsim|]. split; [reflexivity|].
    split; [unfold get_position, bind, get_self; rewrite Hsim; reflexivity|].
    change (simulated_reply "M114")
      with "X:0.00 Y:0.00 Z:0.00 U:0.00 Count 0 0 0 0".
    change (parse_position py_float
              "X:0.00 Y:0.00 Z:0.00 U:0.00 Count 0 0 0 0")
      with (fold_left (parse_element py_float)
              ["X" ++ ":" ++ "0.00"; "Y" ++ ":" ++ "0.00";
               "Z" ++ ":" ++ "0.00"; "U" ++ ":" ++ "0.00"]%string ∅).
    cbn [fold_left]. rewrite !parse_element_pair by reflexivity.
    rewrite Hzero. intros k. unfold position_zero.
    repeat (rewrite !lookup_insert; repeat case_decide; subst;
            try congruence; try exact Hz).
    rewrite !lookup_empty. exact I.
  - exists (simulated_reply M409_homed), (JObj [("result", json_true4)]),
      json_true4.
    split; [apply simulated_gcode, Hsim|]. split; [exact Hjson|].
    split; reflexivity.
Qed.

Lemma simulated_replies_are_consistent_witness :
  let st := Bench.boot simulated_lab [] in
  exists reply pos,
    send Decoders.json_loads "M114" st = (Return reply, st)
    /\ PyStr.contains "Count" reply = true
    /\ Bench.get_position st = (Return pos, st)
    /\ same_position (parse_position Decoders.decimal_float reply) pos.
Proof.
  intros st.
  exact (proj1 (simulated_replies_are_consistent
                  Decoders.json_loads Decoders.decimal_float st (0 # 100)%Q
                  eq_refl eq_refl eq_refl eq_refl)).
Defined.

(* ================================================================== *)
(** * Homing one axis, homing all *)
(* ================================================================== *)

Lemma home_axis_run json_loads letter i st r st' :
  live (self st) ->
  _home_axis json_loads letter i st = (r, st') ->
  posted (net st') = posted (net st) ++ [("G28 " ++ letter)%string]
  /\ (r = Return tt ->
      (i < List.length (axes_homed (self st)))%nat
      /\ self st'
         = with_axes_homed (<[i := JBool true]> (axes_homed (self st)))
                           (self st))
  /\ (forall e, r = Raise e ->
                self st' = self st
                /\ exists cause,
                    e = Exn JubileeHomingError
                            (Msg ("Failed to home " ++ letter ++ " axis."))
                            (Some cause)).
Proof.
  intros Hl H. pose proof Hl as [Hsim _].
  unfold _home_axis, bind at 1, get_self in H. rewrite Hsim in H.
  unfold try_except, bind at 1 in H.
  destruct (send json_loads ("G28 " ++ letter) st) as [[a|e0] st1] eqn:Hs.
  - destruct (gcode_posted _ _ _ _ _ _ Hl Hs) as [E1 E2].
    unfold setitem_axes_homed, bind, get_self, set_self in H. rewrite E1 in H.
    destruct (i <? List.length (axes_homed (self st)))%nat eqn:Hi.
    + inversion H; subst. simpl. rewrite E1.
      split; [exact E2|].
      split; [intros _; split; [apply Nat.ltb_lt, Hi | reflexivity]|].
      intros e He. discriminate He.
    + inversion H; subst. simpl.
      split; [exact E2|].
      split; [intros He; discriminate He|].
      intros e He. inversion He; subst. split; [exact E1|]. eauto.
  - destruct (gcode_posted _ _ _ _ _ _ Hl Hs) as [E1 E2].
    inversion H; subst. simpl.
    split; [exact E2|].
    split; [intros He; discriminate He|].
    intros e He. inversion He; subst. split; [exact E1|]. eauto.
Qed.

(** X10.  On a connected controller each of [_home_x], [_home_y],
    [_home_z] and [_home_u] posts its [G28] command once.  When it returns,
    the cache differs from before in the flag of that axis only (X is item
    0, Y item 1, Z item 2, U item 3), which is true; when it raises, the
    error is a [JubileeHomingError] and the cache is as before: an axis
    whose homing failed is never marked homed. *)
Theorem home_axis_updates_its_flag :
  forall json_loads st r st' (axis : nat),
    live (self st) ->
    (axis < 4)%nat ->
    let method := nth axis [_home_x json_loads; _home_y json_loads;
                            _home_z json_loads; _home_u json_loads]
                      (_home_x json_loads) in
    let letter := nth axis ["X"; "Y"; "Z"; "U"] "X" in
    method st = (r, st') ->
    posted (net st') = posted (net st) ++ [("G28 " ++ letter)%string]
    /\ (r = Return tt ->
        axes_homed (self st') !! axis = Some (JBool true)
        /\ forall other, other <> axis ->
                         axes_homed (self st') !! other
                         = axes_homed (self st) !! other)
    /\ (forall e, r = Raise e ->
                  exn_cls e = JubileeHomingError
                  /\ axes_homed (self st') = axes_homed (self st)).
Proof.
  intros json_loads st r st' axis Hl Haxis method letter H.
  assert (Hm : method = _home_axis json_loads letter axis).
  { unfold method, letter.
    do 4 (destruct axis as [|axis]; [reflexivity|]). lia. }
  rewrite Hm in H.
  destruct (home_axis_run _ _ _ _ _ _ Hl H) as (P & Hret & Hraise).
  split; [exact P|]. split.
  - intros Hr. destruct (Hret Hr) as [Hlen ->]. simpl. split.
    + apply list_lookup_insert_eq. exact Hlen.
    + intros other Hne. apply list_lookup_insert_ne. auto.
  - intros e He. destruct (Hraise e He) as [-> (cause & ->)].
    split; reflexivity.
Qed.

Lemma home_axis_updates_its_flag_witness :
  let st := Bench.boot
              {| simulated := false; crash_detection := false;
                 session := true; _absolute_positioning := true;
                 _axis_limits := None;
                 axes_homed := [JBool false; JBool false; JBool false;
                                JBool false];
                 tool_parking_positions := default_parking |}
              [Bench.ok ""] in
  posted (net (snd (_home_u Decoders.json_loads st))) = ["G28 U"]
  /\ axes_homed (self (snd (_home_u Decoders.json_loads st)))
     = [JBool false; JBool false; JBool false; JBool true].
Proof.
  intros st.
  pose proof (home_axis_updates_its_flag
                Decoders.json_loads st
                (fst (_home_u Decoders.json_loads st))
                (snd (_home_u Decoders.json_loads st)) 3
                (conj eq_refl eq_refl) ltac:(lia)
                (surjective_pairing _)) as [P _].
  split; [exact P | vm_compute; reflexivity].
Defined.

Definition home_all_commands : list string := home_xyu_commands ++ ["G28 Z"].

Lemma emits_home_all_body json_loads c0 :
  emits c0 (home_all_body json_loads) home_all_commands.
Proof.
  unfold home_all_body. apply emits_self. intros c [Hs _] _. rewrite Hs.
  apply emits_try_except; [|intros e; eexists; reflexivity].
  unfold home_all_commands.
  apply emits_bind; [apply emits_home_xyu|]. intros _.
  apply (emits_bind c0 _ _ ["G28 Z"] []); [apply emits_home_axis|]. intros _.
  apply emits_set_self. intros c'. apply same_config_axes_homed.
Qed.

(** X11.  The body of [home_all], on a connected controller, posts a
    prefix of the commands of [home_xyu] followed by [G28 Z]: Z is homed
    last, and only after [home_xyu] has returned.  When it returns all six
    commands were posted and the four flags are true; whatever it raises is
    a [JubileeHomingError]. *)
Theorem home_all_homes_z_last :
  forall json_loads st r st',
    live (self st) ->
    home_all_body json_loads st = (r, st') ->
    (exists out,
        posted (net st') = posted (net st) ++ out
        /\ out `prefix_of` ["G28 U"; "G28 Y"; "G28 X"; "G90"; M409_homed;
                            "G28 Z"]
        /\ (r = Return tt ->
            out = ["G28 U"; "G28 Y"; "G28 X"; "G90"; M409_homed; "G28 Z"]))
    /\ (r = Return tt ->
        axes_homed (self st')
        = [JBool true; JBool true; JBool true; JBool true])
    /\ (forall e, r = Raise e ->
                  e = Exn JubileeHomingError (Msg "Failed to home all axes.")
                          (exn_cause e)
                  /\ exists cause, exn_cause e = Some cause).
Proof.
  intros json_loads st r st' Hl H.
  destruct (emits_home_all_body json_loads (self st) st r st' Hl
              (same_config_refl _) H) as (_ & out & P & Q & Fu).
  split.
  { exists out. split; [exact P|]. split; [exact Q|].
    intros ->. exact (Fu tt eq_refl). }
  pose proof Hl as [Hsim _].
  unfold home_all_body, bind at 1, get_self in H. rewrite Hsim in H.
  apply try_except_inv in H.
  destruct H as [(a & H & ->) | (e0 & st1 & _ & H)].
  - split; [|intros e He; discriminate He]. intros _.
    apply bind_return_inv in H. destruct H as (? & st1 & _ & H).
    apply bind_return_inv in H. destruct H as (? & st2 & _ & H).
    inversion H; subst. reflexivity.
  - inversion H; subst. split; [intros He; discriminate He|].
    intros e He. inversion He; subst. simpl. split; [reflexivity | eauto].
Qed.

Lemma home_all_homes_z_last_witness :
  let script := [Bench.ok ""; Bench.ok ""; Bench.ok ""; Bench.ok "";
                 Bench.ok (Bench.homed true true false true); Bench.ok ""] in
  let run := home_all_body Decoders.json_loads (Bench.boot Bench.lab script) in
  fst run = Return tt
  /\ posted (net (snd run))
     = ["G28 U"; "G28 Y"; "G28 X"; "G90"; M409_homed; "G28 Z"]
  /\ axes_homed (self (snd run))
     = [JBool true; JBool true; JBool true; JBool true].
Proof.
  intros script run.
  assert (Hret : fst run = Return tt) by (vm_compute; reflexivity).
  destruct (home_all_homes_z_last Decoders.json_loads
              (Bench.boot Bench.lab script) (fst run) (snd run)
              (conj eq_refl eq_refl) (surjective_pairing _))
    as ((out & P & _ & Fu) & Hflags & _).
  split; [exact Hret|]. split.
  - rewrite P, (Fu Hret). reflexivity.
  - exact (Hflags Hret).
Defined.

(* ================================================================== *)
(** * The limit check at its edges *)
(* ================================================================== *)

Definition limits_not_configured : exn :=
  Exn JubileeConfigurationError (Msg "Axis limits are not configured.") None.

(** X12.  On a connected controller whose list of axis limits holds no
    pair (it is empty, or all of its items are [None]), every [move_to] and
    every [move] that has sent its positioning-mode command raises
    [JubileeConfigurationError], whatever the target, null targets
    included; nothing more is sent, and a [move] does not even fetch the
    position. *)
Theorem moves_need_configured_limits :
  forall json_loads py_float py_str a b c d s param wait st st1 lims,
    live (self st) ->
    _axis_limits (self st) = Some lims -> any_limit lims = false ->
    (_set_absolute_positioning json_loads st = (Return tt, st1) ->
     move_to json_loads py_float py_str a b c d s param wait st
     = (Raise limits_not_configured, st1)
     /\ posted (net st1) = posted (net st) ++ ["G90"])
    /\ (_set_relative_positioning json_loads st = (Return tt, st1) ->
        move json_loads py_float py_str a b c d s param wait st
        = (Raise limits_not_configured, st1)
        /\ posted (net st1) = posted (net st) ++ ["G91"]).
Proof.
  intros json_loads py_float py_str a b c d s param wait st st1 lims
         Hl Hlim Hany.
  pose proof Hl as [Hsim _].
  assert (Hcheck : forall target relative st0,
             self st0 = with_absolute_positioning
                          (_absolute_positioning (self st0)) (self st) ->
             _check_axis_limits json_loads py_float target relative st0
             = (Raise limits_not_configured, st0)).
  { intros target relative st0 E. unfold _check_axis_limits, bind, get_self.
    rewrite E. simpl. rewrite Hsim, Hlim, Hany. reflexivity. }
  split; intros Hset.
  - assert (E : self st1 = with_absolute_positioning true (self st)
                /\ posted (net st1) = posted (net st) ++ ["G90"]).
    { unfold _set_absolute_positioning, bind, get_self in Hset.
      rewrite Hsim in Hset.
      destruct (send json_loads "G90" st) as [[t|e] st0] eqn:Hs;
        [|discriminate Hset].
      destruct (gcode_posted _ _ _ _ _ _ Hl Hs) as [E1 E2].
      inversion Hset; subst. simpl. rewrite E1. split; [reflexivity|exact E2]. }
    destruct E as [E P]. split; [|exact P].
    unfold move_to, bind at 1, get_self. rewrite Hsim, reraise_id.
    unfold bind at 1. rewrite Hset. unfold bind at 1.
    rewrite Hcheck; [reflexivity|]. rewrite E. reflexivity.
  - assert (E : self st1 = with_absolute_positioning false (self st)
                /\ posted (net st1) = posted (net st) ++ ["G91"]).
    { unfold _set_relative_positioning, bind, get_self in Hset.
      rewrite Hsim in Hset.
      destruct (send json_loads "G91" st) as [[t|e] st0] eqn:Hs;
        [|discriminate Hset].
      destruct (gcode_posted _ _ _ _ _ _ Hl Hs) as [E1 E2].
      inversion Hset; subst. simpl. rewrite E1. split; [reflexivity|exact E2]. }
    destruct E as [E P]. split; [|exact P].
    unfold move, bind at 1, get_self. rewrite Hsim, reraise_id.
    unfold bind at 1. rewrite Hset. unfold bind at 1.
    rewrite Hcheck; [reflexivity|]. rewrite E. reflexivity.
Qed.

(** A connected controller whose board reported no axis. *)
Definition lab_no_limits : controller :=
  {| simulated := false;
     crash_detection := false;
     session := true;
     _absolute_positioning := true;
     _axis_limits := Some [];
     axes_homed := [JBool true; JBool true; JBool true; JBool true];
     tool_parking_positions := default_parking |}.

Lemma moves_need_configured_limits_witness :
  let st := Bench.boot lab_no_limits Bench.move_ok in
  fst (Bench.move_to None None None None speed_default None false st)
  = Raise limits_not_configured
  /\ posted (net (snd (Bench.move_to None None None None speed_default None
                                     false st)))
     = ["G90"].
Proof.
  intros st.
  destruct (proj1 (moves_need_configured_limits
                     Decoders.json_loads Decoders.decimal_float Decoders.py_str
                     None None None None speed_default None false st
                     (snd (_set_absolute_positioning Decoders.json_loads st))
                     [] (conj eq_refl eq_refl) eq_refl eq_refl)
                  ltac:(vm_compute; reflexivity)) as [H P].
  unfold Bench.move_to. rewrite H. split; [reflexivity | exact P].
Defined.

(** X13.  A relative move of an axis that has a limit needs the position
    of that axis.  When the position reply has no token for X, [move] with
    a delta on X raises [KeyError]; when the value of that token is not a
    number, it raises [TypeError].  Neither is an error of the Jubilee
    classes, and the move command is not sent. *)
Theorem relative_move_needs_a_position :
  forall json_loads py_float py_str dx dy dz du s param wait st st1 st2
         lims pos lo hi,
    live (self st) ->
    _axis_limits (self st) = Some (Some (lo, hi) :: lims) ->
    _set_relative_positioning json_loads st = (Return tt, st1) ->
    get_position json_loads py_float st1 = (Return pos, st2) ->
    (pos !! "X" = None ->
     move json_loads py_float py_str (Some dx) dy dz du s param wait st
     = (Raise (runtime_error KeyError), st2))
    /\ (pos !! "X" = Some None ->
        move json_loads py_float py_str (Some dx) dy dz du s param wait st
        = (Raise (runtime_error TypeError), st2)).
Proof.
  intros json_loads py_float py_str dx dy dz du s param wait st st1 st2
         lims pos lo hi Hl Hlim Hset Hpos.
  pose proof Hl as [Hsim _].
  assert (Hl1 : live (self st1))
    by exact (set_relative_positioning_live _ _ _ _ Hl Hset).
  assert (Hlim1 : _axis_limits (self st1) = Some (Some (lo, hi) :: lims)).
  { unfold _set_relative_positioning, bind, get_self in Hset.
    rewrite Hsim in Hset.
    destruct (send json_loads "G91" st) as [[t|e] st0] eqn:Hs;
      [|discriminate Hset].
    pose proof (keeps_self_send _ _ _ _ _ Hl Hs) as E.
    inversion Hset; subst st1. simpl. rewrite E. exact Hlim. }
  assert (Hrun : move json_loads py_float py_str (Some dx) dy dz du s param
                      wait st
                 = match shifted pos "X" dx with
                   | Raise e => (Raise e, st2)
                   | Return t =>
                       match check_targets
                               (limits_of (Some (lo, hi) :: lims)) pos true
                               [("X", Some dx); ("Y", dy); ("Z", dz)] with
                       | Return _ =>
                           _move_xyzu json_loads py_str (Some dx) dy dz du s
                                      param wait st2
                       | Raise e => (Raise e, st2)
                       end
                   end).
  { unfold move, bind at 1, get_self. rewrite Hsim, reraise_id.
    unfold bind at 1. rewrite Hset. unfold bind at 1.
    rewrite (check_axis_limits_relative_run _ _ _ _ _ _ _ Hl1 Hlim1
               eq_refl Hpos).
    destruct (shifted pos "X" dx) as [t|e] eqn:Hsh.
    - reflexivity.
    - unfold limits_of. simpl. rewrite Hsh. reflexivity. }
  split; intros Hx; rewrite Hrun; unfold shifted; rewrite Hx; reflexivity.
Qed.

Lemma relative_move_needs_a_position_witness :
  let script := [Bench.ok ""; Bench.ok "Y:1.00 Z:2.00 Count 0 0"] in
  let st := Bench.boot Bench.lab script in
  fst (Bench.move (Some 1%Q) None None None speed_default None false st)
  = Raise (runtime_error KeyError)
  /\ posted (net (snd (Bench.move (Some 1%Q) None None None speed_default
                                  None false st)))
     = ["G91"; "M114"].
Proof.
  intros st0 st.
  pose proof (proj1 (relative_move_needs_a_position
                       Decoders.json_loads Decoders.decimal_float
                       Decoders.py_str 1%Q None None None speed_default None
                       false st
                       (snd (_set_relative_positioning Decoders.json_loads st))
                       (snd (Bench.get_position
                               (snd (_set_relative_positioning
                                       Decoders.json_loads st))))
                       _ (parse_position Decoders.decimal_float
                                         "Y:1.00 Z:2.00 Count 0 0")
                       0%Q 300%Q (conj eq_refl eq_refl) eq_refl
                       ltac:(vm_compute; reflexivity)
                       ltac:(vm_compute; reflexivity))
                    ltac:(vm_compute; reflexivity)) as H.
  unfold Bench.move. rewrite H. split; [reflexivity | vm_compute; reflexivity].
Defined.

(* ================================================================== *)
(** * Fetching the position *)
(* ================================================================== *)

Definition no_position_reply : exn :=
  Exn JubileeCommunicationError
      (Msg "Failed to get valid position response after max retries.") None.

Lemma position_reply_posted json_loads tries st r st' :
  live (self st) ->
  position_reply json_loads tries st = (r, st') ->
  exists k,
    (k <= tries)%nat
    /\ posted (net st') = posted (net st) ++ repeat "M114" k
    /\ self st' = self st
    /\ (forall reply, r = Return reply ->
                      (1 <= k)%nat /\ PyStr.contains "Count" reply = true)
    /\ (forall e, r = Raise e ->
                  exn_cls e = JubileeCommunicationError
                  /\ (exn_cause e = None -> k = tries)).
Proof.
  revert st. induction tries as [|tries IH]; intros st Hl H.
  - inversion H; subst. exists 0%nat. rewrite app_nil_r.
    split; [lia|]. split; [reflexivity|]. split; [reflexivity|]. split.
    + intros reply Hr. discriminate Hr.
    + intros e He. inversion He; subst. split; reflexivity.
  - cbn [position_reply] in H. unfold bind at 1 in H.
    destruct (send json_loads "M114" st) as [[reply|e0] st1] eqn:Hs.
    + destruct (gcode_posted _ _ _ _ _ _ Hl Hs) as [E1 E2].
      destruct (PyStr.contains "Count" reply) eqn:Hc.
      * inversion H; subst. exists 1%nat.
        split; [lia|]. split; [exact E2|]. split; [exact E1|].
        split; [intros reply' Hr; inversion Hr; subst; split; [lia|exact Hc]|].
        intros e He. discriminate He.
      * unfold bind at 1, time_sleep in H.
        match type of H with
        | position_reply _ _ ?s = _ => set (st2 := s) in H
        end.
        assert (Hl2 : live (self st2)) by (simpl; rewrite E1; exact Hl).
        destruct (IH st2 Hl2 H) as (k & Hk & P & Es & Hret & Hraise).
        exists (S k). split; [lia|].
        assert (Hp2 : posted (net st2) = posted (net st1)) by reflexivity.
        split; [rewrite P, Hp2, E2, <- app_assoc; reflexivity|].
        split; [rewrite Es; exact E1|].
        split; [intros reply' Hr; destruct (Hret reply' Hr); split; [lia|assumption]|].
        intros e He. destruct (Hraise e He) as [Hcls Hk']. split; [exact Hcls|].
        intros Hn. rewrite (Hk' Hn). reflexivity.
    + destruct (gcode_posted _ _ _ _ _ _ Hl Hs) as [E1 E2].
      inversion H; subst. exists 1%nat.
      split; [lia|]. split; [exact E2|]. split; [exact E1|].
      split; [intros reply Hr; discriminate Hr|].
      intros e He. inversion He; subst.
      destruct (gcode_raises _ _ _ _ _ _ Hl Hs) as [cause ->].
      split; [reflexivity|]. intros Hn. discriminate Hn.
Qed.

(** The polls of [get_position] that brought no position: each is an
    [M114] sent from the state the poll before left, answered by a reply
    without "Count", and followed by the pause of 0.05 s. *)
Inductive missed (json_loads : string -> option json)
  : state -> list string -> state -> Prop :=
| missed_none st : missed json_loads st [] st
| missed_more st reply st1 st2 replies st' :
    send json_loads "M114" st = (Return reply, st1) ->
    PyStr.contains "Count" reply = false ->
    time_sleep 0.05 st1 = (Return tt, st2) ->
    missed json_loads st2 replies st' ->
    missed json_loads st (reply :: replies) st'.

Lemma position_reply_trace json_loads tries st r st' :
  live (self st) ->
  position_reply json_loads tries st = (r, st') ->
  exists misses stk,
    missed json_loads st misses stk
    /\ live (self stk)
    /\ posted (net stk) = posted (net st) ++ repeat "M114" (length misses)
    /\ (length misses <= tries)%nat
    /\ match r with
       | Return reply =>
           (length misses < tries)%nat
           /\ send json_loads "M114" stk = (Return reply, st')
           /\ PyStr.contains "Count" reply = true
       | Raise e =>
           (length misses = tries /\ st' = stk /\ e = no_position_reply)
           \/ ((length misses < tries)%nat
               /\ send json_loads "M114" stk = (Raise e, st'))
       end.
Proof.
  revert st. induction tries as [|tries IH]; intros st Hl H.
  - inversion H; subst. exists [], st'.
    split; [constructor|]. split; [exact Hl|].
    split; [rewrite app_nil_r; reflexivity|]. split; [simpl; lia|].
    left. repeat split.
  - cbn [position_reply] in H. unfold bind at 1 in H.
    destruct (send json_loads "M114" st) as [[reply|e0] st1] eqn:Hs.
    + destruct (gcode_posted _ _ _ _ _ _ Hl Hs) as [E1 E2].
      destruct (PyStr.contains "Count" reply) eqn:Hc.
      * inversion H; subst. exists [], st.
        split; [constructor|]. split; [exact Hl|].
        split; [rewrite app_nil_r; reflexivity|]. split; [simpl; lia|].
        split; [simpl; lia|]. split; [exact Hs | exact Hc].
      * unfold bind at 1 in H.
        destruct (time_sleep 0.05 st1) as [rs st2] eqn:Hsl.
        assert (Es : rs = Return tt /\ self st2 = self st1
                     /\ posted (net st2) = posted (net st1)).
        { unfold time_sleep in Hsl. inversion Hsl; subst. repeat split. }
        destruct Es as (-> & Es2 & Ep2).
        assert (Hl2 : live (self st2)) by (rewrite Es2, E1; exact Hl).
        destruct (IH st2 Hl2 H) as (misses & stk & Hm & Hlk & P & Hlen & Hr).
        exists (reply :: misses), stk.
        split; [exact (missed_more _ _ _ _ _ _ _ Hs Hc Hsl Hm)|].
        split; [exact Hlk|].
        split; [rewrite P, Ep2, E2, <- app_assoc; reflexivity|].
        split; [simpl; lia|].
        destruct r as [reply'|e].
        -- destruct Hr as (A & B & C). split; [simpl; lia|]. split; assumption.
        -- destruct Hr as [(A & B & C) | (A & B)].
           ++ left. split; [simpl; lia|]. split; assumption.
           ++ right. split; [simpl; lia | exact B].
    + inversion H; subst. exists [], st.
      split; [constructor|]. split; [exact Hl|].
      split; [rewrite app_nil_r; reflexivity|]. split; [simpl; lia|].
      right. split; [simpl; lia | exact Hs].
Qed.

(** X14.  On a connected controller [get_position] sends [M114] at least
    once and at most 50 times, each from the state the poll before left,
    and assigns no attribute.  It stops at the first reply received that
    holds "Count", and what it returns is the parse of that reply.  If no
    reply holds it, the error raised after the 50th command is a
    [JubileeCommunicationError] without a cause; any other error is the one
    [gcode] raised for the last [M114], and has a cause. *)
Theorem get_position_retries :
  forall json_loads py_float st r st',
    live (self st) ->
    get_position json_loads py_float st = (r, st') ->
    exists k misses stk,
      (k <= 50)%nat
      /\ posted (net st') = posted (net st) ++ repeat "M114" k
      /\ self st' = self st
      /\ missed json_loads st misses stk
      /\ (forall pos, r = Return pos ->
                      (1 <= k)%nat /\ k = S (length misses)
                      /\ exists reply,
                          send json_loads "M114" stk = (Return reply, st')
                          /\ PyStr.contains "Count" reply = true
                          /\ pos = parse_position py_float reply)
      /\ (forall e, r = Raise e ->
                    exn_cls e = JubileeCommunicationError
                    /\ (exn_cause e = None ->
                        k = 50%nat /\ length misses = 50%nat /\ st' = stk)
                    /\ (exn_cause e <> None ->
                        k = S (length misses)
                        /\ send json_loads "M114" stk = (Raise e, st'))).
Proof.
  intros json_loads py_float st r st' Hl H. pose proof Hl as [Hsim _].
  unfold get_position, bind at 1, get_self in H. rewrite Hsim in H.
  unfold bind at 1 in H.
  destruct (position_reply json_loads 50 st) as [r0 st1] eqn:Hp.
  destruct (position_reply_trace _ _ _ _ _ Hl Hp)
    as (misses & stk & Hm & Hlk & P & Hlen & Hr).
  assert (Hself : forall a b c, missed json_loads a b c ->
                                live (self a) -> self c = self a).
  { induction 1 as [|a reply a1 a2 replies c Hs Hc Hsl _ IHm]; intros Hla;
      [reflexivity|].
    pose proof (proj1 (gcode_posted _ _ _ _ _ _ Hla Hs)) as E1.
    assert (E2 : self a2 = self a1)
      by (unfold time_sleep in Hsl; inversion Hsl; reflexivity).
    rewrite IHm; [congruence|]. rewrite E2, E1. exact Hla. }
  pose proof (Hself _ _ _ Hm Hl) as Ek.
  destruct r0 as [reply|e].
  - destruct Hr as (Hlt & Hs & Hc). inversion H; subst r st1. clear H.
    destruct (gcode_posted _ _ _ _ _ _ Hlk Hs) as [E1 E2].
    exists (S (length misses)), misses, stk.
    split; [lia|].
    split; [rewrite E2, P, <- app_assoc, <- repeat_cons; reflexivity|].
    split; [congruence|]. split; [exact Hm|]. split.
    + intros pos Hr. inversion Hr; subst pos.
      split; [lia|]. split; [reflexivity|].
      exists reply. split; [exact Hs|]. split; [exact Hc | reflexivity].
    + intros e He. discriminate He.
  - inversion H; subst r st1. clear H.
    destruct Hr as [(Hn & -> & ->) | (Hlt & Hs)].
    + exists 50%nat, misses, stk.
      split; [lia|]. split; [rewrite P, Hn; reflexivity|].
      split; [exact Ek|]. split; [exact Hm|]. split.
      * intros pos Hr. discriminate Hr.
      * intros e He. inversion He; subst e. split; [reflexivity|].
        split; [intros _; repeat split; exact Hn|].
        intros Hc. exfalso. apply Hc. reflexivity.
    + destruct (gcode_posted _ _ _ _ _ _ Hlk Hs) as [E1 E2].
      destruct (gcode_raises _ _ _ _ _ _ Hlk Hs) as [cause Hcause].
      exists (S (length misses)), misses, stk.
      split; [lia|].
      split; [rewrite E2, P, <- app_assoc, <- repeat_cons; reflexivity|].
      split; [congruence|]. split; [exact Hm|]. split.
      * intros pos Hr. discriminate Hr.
      * intros e0 He. inversion He; subst e0. split; [rewrite Hcause; reflexivity|].
        split; [rewrite Hcause; intros Hn; discriminate Hn|].
        intros _. split; [reflexivity | exact Hs].
Qed.

Lemma get_position_retries_witness :
  let script := [Bench.ok ""; Bench.ok "busy"; Bench.ok "X:1.00 Count 0"] in
  let run := Bench.get_position (Bench.boot Bench.lab script) in
  posted (net (snd run)) = ["M114"; "M114"; "M114"]
  /\ fst run = Return (parse_position Decoders.decimal_float "X:1.00 Count 0").
Proof.
  intros script run.
  assert (Hret : fst run = Return (parse_position Decoders.decimal_float
                                                  "X:1.00 Count 0"))
    by (vm_compute; reflexivity).
  destruct (get_position_retries
              Decoders.json_loads Decoders.decimal_float
              (Bench.boot Bench.lab script) (fst run) (snd run)
              (conj eq_refl eq_refl) (surjective_pairing _))
    as (k & misses & stk & _ & P & _ & Hm & Hpos & _).
  destruct (Hpos _ Hret) as (_ & Hk & _).
  assert (Hlen : length misses = 2%nat).
  { inversion Hm as [|a reply a1 a2 replies c Hs1 Hc1 Hsl1 Hm1]; subst.
    - exfalso. destruct (Hpos _ Hret) as (_ & _ & reply & Hs & Hc & _).
      vm_compute in Hs. inversion Hs; try (subst reply; discriminate Hc).
    - vm_compute in Hs1. inversion Hs1; subst reply a1. clear Hs1.
      vm_compute in Hsl1. inversion Hsl1; subst a2. clear Hsl1.
      inversion Hm1 as [|b reply2 b1 b2 replies2 c2 Hs2 Hc2 Hsl2 Hm2]; subst.
      + exfalso. destruct (Hpos _ Hret) as (_ & _ & reply & Hs & Hc & _).
        vm_compute in Hs. inversion Hs; try (subst reply; discriminate Hc).
      + vm_compute in Hs2. inversion Hs2; subst reply2 b1. clear Hs2.
        vm_compute in Hsl2. inversion Hsl2; subst b2. clear Hsl2.
        inversion Hm2 as [|d reply3 d1 d2 replies3 c3 Hs3 Hc3 Hsl3 Hm3]; subst;
          [reflexivity|].
        exfalso. vm_compute in Hs3.
        inversion Hs3; try (subst reply3; discriminate Hc3). }
  split; [|exact Hret]. rewrite P, Hk, Hlen. reflexivity.
Defined.

(* ================================================================== *)
(** * Positioning mode and the wait flag *)
(* ================================================================== *)

Lemma keeps_self_try_except {A : Type} (m : M A) (h : exn -> M A) :
  keeps_self m -> (forall e, exists e', h e = raise e') ->
  keeps_self (try_except m h).
Proof.
  intros Hm Hh st r st' Hl H.
  destruct (try_except_inv _ _ _ _ _ H) as [(a & H1 & _) | (e & st1 & H1 & H2)].
  - exact (Hm _ _ _ Hl H1).
  - destruct (Hh e) as [e' He']. rewrite He' in H2. inversion H2; subst.
    exact (Hm _ _ _ Hl H1).
Qed.

Lemma keeps_self_move_xyzu json_loads py_str x y z u s param wait :
  keeps_self (_move_xyzu json_loads py_str x y z u s param wait).
Proof.
  unfold _move_xyzu, machine_homed, _move_xyzu_body.
  apply keeps_self_bind; [apply keeps_self_quiet, quiet_get_self|]. intros c.
  assert (Hw : forall w : bool,
             keeps_self (if w then send json_loads "M400" ;; @ret unit tt
                         else @ret unit tt)).
  { intros [|]; [|apply keeps_self_quiet, quiet_ret].
    apply keeps_self_bind; [apply keeps_self_send|]. intros _.
    apply keeps_self_quiet, quiet_ret. }
  assert (Hbody : keeps_self
                    (c1 <- get_self ;;
                     if simulated c1
                     then send json_loads (simulated_move_cmd py_str x y z u s) ;;
                          (if wait then send json_loads "M400" ;; ret tt
                           else ret tt)
                     else send json_loads (move_cmd x y z u s param) ;;
                          (if wait then send json_loads "M400" ;; ret tt
                           else ret tt))).
  { apply keeps_self_bind; [apply keeps_self_quiet, quiet_get_self|].
    intros c1. destruct (simulated c1);
      (apply keeps_self_bind; [apply keeps_self_send | intros _; apply Hw]). }
  destruct (simulated c); [exact Hbody|].
  apply keeps_self_bind.
  - apply keeps_self_try_except; [|intros e; eexists; reflexivity].
    apply keeps_self_bind; [apply keeps_self_send|]. intros reply.
    apply keeps_self_bind; [apply keeps_self_quiet, quiet_loads|]. intros j.
    apply keeps_self_quiet, quiet_lift.
  - intros flags. apply keeps_self_bind; [apply keeps_self_quiet, quiet_lift|].
    intros ok. destruct (negb ok); [apply keeps_self_quiet, quiet_raise|].
    exact Hbody.
Qed.

Lemma get_position_posted json_loads py_float st r st' :
  live (self st) ->
  get_position json_loads py_float st = (r, st') ->
  exists out, posted (net st') = posted (net st) ++ out.
Proof.
  intros Hl H. pose proof Hl as [Hsim _].
  unfold get_position, bind at 1, get_self in H. rewrite Hsim in H.
  unfold bind at 1 in H.
  destruct (position_reply json_loads 50 st) as [[reply|e] st1] eqn:Hp;
    destruct (position_reply_posted _ _ _ _ _ Hl Hp) as (k & _ & P & _);
    inversion H; subst; eexists; exact P.
Qed.

(** X15.  On a connected controller a [move_to] posts a prefix of [G90],
    the query of the gate, the move command and, only with [wait], [M400],
    in that order, and all of them when it returns; without [wait] no
    [M400] is posted.  A [move_to] that returns leaves the controller in
    absolute mode and a [move] that returns leaves it in relative mode,
    [G91] being the first command it posts: each call sets its own mode,
    whatever mode the call before left. *)
Theorem moves_set_their_mode :
  forall json_loads py_float py_str x y z u s param wait st r st',
    live (self st) ->
    (move_to json_loads py_float py_str x y z u s param wait st = (r, st') ->
     (exists out,
         posted (net st') = posted (net st) ++ out
         /\ out `prefix_of`
                ("G90" :: M409_homed :: move_cmd x y z u s param
                       :: (if wait then ["M400"] else []))
         /\ (r = Return tt ->
             out = "G90" :: M409_homed :: move_cmd x y z u s param
                         :: (if wait then ["M400"] else []))
         /\ (wait = false -> ~ In "M400" out))
     /\ (r = Return tt -> _absolute_positioning (self st') = true))
    /\ (move json_loads py_float py_str x y z u s param wait st = (r, st') ->
        (exists more, posted (net st') = posted (net st) ++ "G91" :: more)
        /\ (r = Return tt -> _absolute_positioning (self st') = false)).
Proof.
  intros json_loads py_float py_str x y z u s param wait st r st' Hl.
  pose proof Hl as [Hsim _]. split; intros H.
  - split.
    + destruct (emits_move_to json_loads py_float py_str (self st)
                  x y z u s param wait st r st' Hl (same_config_refl _) H)
        as (_ & out & P & Q & Fu).
      exists out. split; [exact P|]. split; [exact Q|].
      split; [intros ->; exact (Fu tt eq_refl)|].
      intros -> Hin. destruct Q as [k Hk]. unfold move_to_commands in Hk.
      simpl in Hk.
      assert (Hin' : In "M400" ["G90"; M409_homed; move_cmd x y z u s param])
        by (rewrite Hk; apply in_or_app; left; exact Hin).
      destruct Hin' as [E | [E | [E | []]]]; discriminate E.
    + intros ->. unfold move_to, bind at 1, get_self in H.
      rewrite Hsim, reraise_id in H.
      apply bind_return_inv in H. destruct H as ([] & st1 & H1 & H).
      apply bind_return_inv in H. destruct H as ([] & st2 & H2 & H3).
      assert (Hl1 : live (self st1))
        by exact (set_absolute_positioning_live _ _ _ _ Hl H1).
      assert (E1 : _absolute_positioning (self st1) = true).
      { unfold _set_absolute_positioning, bind, get_self in H1.
        rewrite Hsim in H1.
        destruct (send json_loads "G90" st) as [[t|e] st0]; [|discriminate H1].
        inversion H1; subst. reflexivity. }
      pose proof (keeps_self_check_axis_limits _ _ _ _ _ _ _ Hl1 H2) as E2.
      assert (Hl2 : live (self st2)) by (rewrite E2; exact Hl1).
      rewrite (keeps_self_move_xyzu _ _ _ _ _ _ _ _ _ _ _ _ Hl2 H3), E2.
      exact E1.
  - unfold move, bind at 1, get_self in H. rewrite Hsim, reraise_id in H.
    unfold bind at 1 in H.
    destruct (_set_relative_positioning json_loads st) as [[[]|e1] st1] eqn:H1.
    + assert (Hl1 : live (self st1))
        by exact (set_relative_positioning_live _ _ _ _ Hl H1).
      assert (E1 : _absolute_positioning (self st1) = false
                   /\ posted (net st1) = posted (net st) ++ ["G91"]).
      { unfold _set_relative_positioning, bind, get_self in H1.
        rewrite Hsim in H1.
        destruct (send json_loads "G91" st) as [[t|e] st0] eqn:Hs;
          [|discriminate H1].
        inversion H1; subst. split; [reflexivity|].
        exact (proj2 (gcode_posted _ _ _ _ _ _ Hl Hs)). }
      destruct E1 as [E1 P1].
      unfold bind at 1 in H.
      destruct (_check_axis_limits json_loads py_float
                  [("X", x); ("Y", y); ("Z", z)] true st1)
        as [[[]|e2] st2] eqn:H2.
      * pose proof (keeps_self_check_axis_limits _ _ _ _ _ _ _ Hl1 H2) as E2.
        assert (Hl2 : live (self st2)) by (rewrite E2; exact Hl1).
        assert (P2 : exists m2, posted (net st2) = posted (net st1) ++ m2).
        { unfold _check_axis_limits, bind at 1, get_self in H2.
          destruct Hl1 as [Hsim1 _]. rewrite Hsim1 in H2.
          destruct (_axis_limits (self st1)) as [lims|];
            [|inversion H2].
          destruct (negb (any_limit lims)); [inversion H2|].
          apply bind_return_inv in H2. destruct H2 as (pos & st3 & H2 & H4).
          inversion H4; subst st3.
          exact (get_position_posted _ _ _ _ _
                   (conj Hsim1 (proj2 (set_relative_positioning_live
                                         _ _ _ _ Hl H1))) H2). }
        destruct P2 as [m2 P2].
        destruct (emits_move_xyzu json_loads py_str (self st2)
                    x y z u s param wait st2 r st' Hl2 (same_config_refl _) H)
          as (_ & out & P3 & _).
        split.
        -- exists (m2 ++ out). rewrite P3, P2, P1, <- !app_assoc. reflexivity.
        -- intros ->.
           rewrite (keeps_self_move_xyzu _ _ _ _ _ _ _ _ _ _ _ _ Hl2 H), E2.
           exact E1.
      * inversion H; subst.
        assert (P2 : exists m2, posted (net st') = posted (net st1) ++ m2).
        { unfold _check_axis_limits, bind at 1, get_self in H2.
          destruct Hl1 as [Hsim1 Hses1]. rewrite Hsim1 in H2.
          destruct (_axis_limits (self st1)) as [lims|];
            [|inversion H2; subst; exists []; rewrite app_nil_r; reflexivity].
          destruct (negb (any_limit lims));
            [inversion H2; subst; exists []; rewrite app_nil_r; reflexivity|].
          apply bind_inv in H2.
          destruct H2 as [(pos & st3 & H2 & H4) | (e & H2 & _)].
          - inversion H4; subst st3.
            exact (get_position_posted _ _ _ _ _ (conj Hsim1 Hses1) H2).
          - exact (get_position_posted _ _ _ _ _ (conj Hsim1 Hses1) H2). }
        destruct P2 as [m2 P2]. split; [|intros He; discriminate He].
        exists m2. rewrite P2, P1, <- app_assoc. reflexivity.
    + inversion H; subst. split; [|intros He; discriminate He].
      unfold _set_relative_positioning, bind, get_self in H1.
      rewrite Hsim in H1.
      destruct (send json_loads "G91" st) as [[t|e] st0] eqn:Hs;
        [discriminate H1|].
      inversion H1; subst. exists [].
      exact (proj2 (gcode_posted _ _ _ _ _ _ Hl Hs)).
Qed.

Lemma moves_set_their_mode_witness :
  let script := [Bench.ok ""; Bench.ok (Bench.homed true true true true);
                 Bench.ok ""] in
  let run := Bench.move_to (Some 1%Q) None None None speed_default None false
                           (Bench.boot Bench.lab script) in
  fst run = Return tt
  /\ posted (net (snd run)) = ["G90"; M409_homed; "G0 X1.00 F6000.00"]
  /\ _absolute_positioning (self (snd run)) = true.
Proof.
  intros script run.
  assert (Hret : fst run = Return tt) by (vm_compute; reflexivity).
  destruct (proj1 (moves_set_their_mode
                     Decoders.json_loads Decoders.decimal_float Decoders.py_str
                     (Some 1%Q) None None None speed_default None false
                     (Bench.boot Bench.lab script) (fst run) (snd run)
                     (conj eq_refl eq_refl))
                  (surjective_pairing _))
    as ((out & P & _ & Fu & _) & Hmode).
  split; [exact Hret|]. split.
  - rewrite P, (Fu Hret). reflexivity.
  - exact (Hmode Hret).
Defined.

(* ================================================================== *)
(** * Reading the endstops *)
(* ================================================================== *)

(** The line boundaries of [str.splitlines] among the code points below
    256: LF, VT, FF, CR, FS, GS, RS and NEL. *)
Definition is_linebreak (c : ascii) : bool :=
  let n := nat_of_ascii c in
  ((10 <=? n)%nat && (n <=? 13)%nat) || ((28 <=? n)%nat && (n <=? 30)%nat)
  || (n =? 133)%nat.

(** [s.splitlines()]: the lines without their boundaries, CR LF counting
    as one boundary; a boundary at the end opens no further line. *)
Fixpoint splitlines (s : string) : list string :=
  match s with
  | EmptyString => []
  | String c s' =>
      if is_linebreak c then
        EmptyString
          :: match s' with
             | String c' s'' =>
                 if Ascii.eqb c "013"%char && Ascii.eqb c' "010"%char
                 then splitlines s''
                 else splitlines s'
             | EmptyString => []
             end
      else match splitlines s' with
           | [] => [String c EmptyString]
           | line :: rest => String c line :: rest
           end
  end.

(** [s.lstrip()], [s.rstrip()] and [s.strip()] *)
Fixpoint lstrip (s : string) : string :=
  match s with
  | EmptyString => EmptyString
  | String c s' => if PyStr.isspace c then lstrip s' else s
  end.

Fixpoint rstrip (s : string) : string :=
  match s with
  | EmptyString => EmptyString
  | String c s' =>
      match rstrip s' with
      | EmptyString => if PyStr.isspace c then EmptyString
                       else String c EmptyString
      | kept => String c kept
      end
  end.

Definition strip (s : string) : string := rstrip (lstrip s).

(** One round of the loop of [get_endstops] over the lines. *)
Definition parse_endstop (states : gmap string string) (line : string)
  : gmap string string :=
  if PyStr.contains ":" line then
    match PyStr.split1 ":" line with
    | [name; state] => <[strip name := strip state]> states
    | _ => states
    end
  else states.

Definition parse_endstops (response : string) : gmap string string :=
  fold_left parse_endstop (splitlines response) ∅.

Definition endstops_open : gmap string string :=
  <["X" := "open"]> (<["Y" := "open"]> (<["Z" := "open"]>
                                          (<["U" := "open"]> ∅))).

Definition get_endstops (json_loads : string -> option json)
  : M (gmap string string) :=
  c <- get_self ;;
  if simulated c then ret endstops_open
  else
    response <- send json_loads "M119" ;;
    ret (parse_endstops response).

(** A text without a line boundary. *)
Fixpoint one_line (s : string) : bool :=
  match s with
  | EmptyString => true
  | String c s' => negb (is_linebreak c) && one_line s'
  end.

(** A text that [strip] leaves as it is: not empty, with no white space
    at either end. *)
Definition starts_clean (s : string) : bool :=
  match s with
  | EmptyString => false
  | String c _ => negb (PyStr.isspace c)
  end.

Fixpoint ends_clean (s : string) : bool :=
  match s with
  | EmptyString => false
  | String c EmptyString => negb (PyStr.isspace c)
  | String _ s' => ends_clean s'
  end.

(** A name and a state as a report line holds them. *)
Definition clean_entry (e : string * string) : Prop :=
  PyStr.contains ":" (fst e) = false
  /\ one_line (fst e) = true /\ one_line (snd e) = true
  /\ starts_clean (fst e) = true /\ ends_clean (fst e) = true
  /\ starts_clean (snd e) = true /\ ends_clean (snd e) = true.

(** The report of the entries, one [name: state] a line. *)
Definition report_line (e : string * string) : string :=
  (fst e ++ ":" ++ " " ++ snd e)%string.

Definition report (entries : list (string * string)) : string :=
  PyStr.join nl (map report_line entries).

Lemma splitlines_first (line rest : string) :
  one_line line = true ->
  splitlines (line ++ nl ++ rest) = line :: splitlines rest.
Proof.
  induction line as [|c line IH]; intros H.
  - change (splitlines (String "010"%char rest)
            = EmptyString :: splitlines rest).
    cbn [splitlines]. destruct rest; reflexivity.
  - cbn [one_line] in H. apply andb_true_iff in H. destruct H as [Hc Hl].
    change (splitlines (String c (line ++ nl ++ rest))
            = String c line :: splitlines rest).
    cbn [splitlines]. apply negb_true_iff in Hc. rewrite Hc, (IH Hl).
    reflexivity.
Qed.

Lemma splitlines_last (line : string) :
  one_line line = true -> line <> EmptyString -> splitlines line = [line].
Proof.
  induction line as [|c line IH]; intros H Hne; [contradiction|].
  cbn [one_line] in H. apply andb_true_iff in H. destruct H as [Hc Hl].
  cbn [splitlines]. apply negb_true_iff in Hc. rewrite Hc.
  destruct line as [|c' line']; [reflexivity|].
  rewrite (IH Hl); [reflexivity | discriminate].
Qed.

Lemma splitlines_join (lines : list string) :
  Forall (fun l => one_line l = true /\ l <> EmptyString) lines ->
  splitlines (PyStr.join nl lines) = lines.
Proof.
  unfold PyStr.join. induction lines as [|l lines IH]; intros H;
    [reflexivity|].
  apply Forall_cons in H. destruct H as [[Hl Hne] H].
  destruct lines as [|l' lines'].
  - exact (splitlines_last _ Hl Hne).
  - change (String.concat nl (l :: l' :: lines'))
      with (l ++ nl ++ String.concat nl (l' :: lines'))%string.
    rewrite (splitlines_first _ _ Hl), (IH H). reflexivity.
Qed.

Lemma one_line_app (a b : string) :
  one_line (a ++ b) = one_line a && one_line b.
Proof.
  induction a as [|c a IH]; [reflexivity|].
  change (one_line (String c (a ++ b)) = one_line (String c a) && one_line b).
  cbn [one_line]. rewrite IH, andb_assoc. reflexivity.
Qed.

Lemma lstrip_clean (s : string) : starts_clean s = true -> lstrip s = s.
Proof.
  destruct s as [|c s]; [discriminate|]. simpl. intros H.
  apply negb_true_iff in H. rewrite H. reflexivity.
Qed.

Lemma rstrip_clean (s : string) : ends_clean s = true -> rstrip s = s.
Proof.
  induction s as [|c s IH]; [discriminate|].
  destruct s as [|c' s'].
  - simpl. intros H. apply negb_true_iff in H. rewrite H. reflexivity.
  - intros H. change (ends_clean (String c' s') = true) in H.
    cbn [rstrip]. cbn [rstrip] in IH. rewrite (IH H). reflexivity.
Qed.

Lemma strip_clean (s : string) :
  starts_clean s = true -> ends_clean s = true -> strip s = s.
Proof.
  intros Hs He. unfold strip. rewrite (lstrip_clean _ Hs).
  exact (rstrip_clean _ He).
Qed.

Lemma strip_after_space (s : string) :
  starts_clean s = true -> ends_clean s = true ->
  strip (" " ++ s) = s.
Proof.
  intros Hs He. unfold strip.
  change (rstrip (lstrip s) = s). rewrite (lstrip_clean _ Hs).
  exact (rstrip_clean _ He).
Qed.

Lemma parse_endstop_colon states name state :
  PyStr.contains ":" name = false ->
  parse_endstop states (name ++ ":" ++ state)
  = <[strip name := strip state]> states.
Proof.
  intros H. unfold parse_endstop.
  rewrite contains_colon, (split1_colon _ _ H). reflexivity.
Qed.

Lemma parse_report_lines entries :
  Forall clean_entry entries ->
  forall states,
    fold_left parse_endstop (map report_line entries) states
    = fold_left (fun m e => <[fst e := snd e]> m) entries states.
Proof.
  induction 1 as [|e entries He _ IH]; intros states; [reflexivity|].
  destruct He as (Hc & _ & _ & Hn1 & Hn2 & Hs1 & Hs2).
  assert (E : parse_endstop states (report_line e)
              = <[fst e := snd e]> states).
  { unfold report_line. rewrite (parse_endstop_colon _ _ _ Hc).
    rewrite (strip_clean _ Hn1 Hn2), (strip_after_space _ Hs1 Hs2).
    reflexivity. }
  change (fold_left parse_endstop (map report_line entries)
                    (parse_endstop states (report_line e))
          = fold_left (fun m e0 => <[fst e0 := snd e0]> m) entries
                      (<[fst e := snd e]> states)).
  rewrite E. apply IH.
Qed.

(** X26.  [get_endstops].  On a connected controller it posts [M119]
    once, assigns no attribute, and returns what the parser reads in the
    reply; what it raises is the communication error of [gcode].  The
    parser takes the reply line by line: a line without a colon adds
    nothing; in a line with one, only the first colon separates, the name
    before it and the whole text after it are stripped of surrounding white
    space, and a later line of the same name replaces an earlier one.  So
    a report of one [name: state] a line is read back as its entries, and
    the simulated reply to [M119] reads as the states the simulated getter
    returns. *)
Theorem endstop_report_parsing :
  (forall json_loads st r st',
      live (self st) ->
      get_endstops json_loads st = (r, st') ->
      self st' = self st
      /\ posted (net st') = posted (net st) ++ ["M119"]
      /\ (forall states, r = Return states ->
            exists reply,
              send json_loads "M119" st = (Return reply, st')
              /\ states = parse_endstops reply)
      /\ (forall e, r = Raise e ->
                    exn_cls e = JubileeCommunicationError
                    /\ exists cause, exn_cause e = Some cause))
  /\ (forall states line,
         PyStr.contains ":" line = false ->
         parse_endstop states line = states)
  /\ (forall states name state,
         PyStr.contains ":" name = false ->
         parse_endstop states (name ++ ":" ++ state)
         = <[strip name := strip state]> states)
  /\ (forall entries,
         Forall clean_entry entries ->
         parse_endstops (report entries)
         = fold_left (fun m e => <[fst e := snd e]> m) entries ∅)
  /\ (forall json_loads st,
         simulated (self st) = true ->
         exists reply,
           send json_loads "M119" st = (Return reply, st)
           /\ get_endstops json_loads st = (Return (parse_endstops reply), st)).
Proof.
  split; [|split; [|split; [|split]]].
  - intros jl st r st' Hl H. pose proof Hl as [Hsim _].
    unfold get_endstops, bind at 1, get_self in H. rewrite Hsim in H.
    unfold bind in H.
    destruct (send jl "M119" st) as [[reply|e] st1] eqn:Hs;
      inversion H; subst; clear H;
      destruct (gcode_posted _ _ _ _ _ _ Hl Hs) as [E P];
      (split; [exact E|]); (split; [exact P|]); split.
    + intros states Hr. inversion Hr; subst. exists reply. split; reflexivity.
    + intros e Hr. discriminate Hr.
    + intros states Hr. discriminate Hr.
    + intros e0 Hr. inversion Hr; subst e0.
      destruct (gcode_raises _ _ _ _ _ _ Hl Hs) as [cause ->].
      split; [reflexivity|]. exists cause. reflexivity.
  - intros states line H. unfold parse_endstop. rewrite H. reflexivity.
  - exact parse_endstop_colon.
  - intros entries H. unfold parse_endstops, report.
    rewrite splitlines_join; [exact (parse_report_lines _ H _)|].
    apply Forall_forall. intros l Hin. apply list_elem_of_In in Hin.
    apply in_map_iff in Hin. destruct Hin as (e & <- & He).
    apply list_elem_of_In in He.
    destruct (proj1 (Forall_forall _ _) H e He)
      as (_ & Ho1 & Ho2 & _).
    split.
    + unfold report_line. rewrite !one_line_app, Ho1, Ho2. reflexivity.
    + unfold report_line. destruct (fst e); discriminate.
  - intros jl st Hsim. exists (simulated_reply "M119"). split.
    + unfold send, gcode, bind, get_self. rewrite Hsim. reflexivity.
    + unfold get_endstops, bind, get_self. rewrite Hsim.
      assert (E : parse_endstops (simulated_reply "M119") = endstops_open)
        by (vm_compute; reflexivity).
      rewrite E. reflexivity.
Qed.

Lemma endstop_report_parsing_witness :
  let st := Bench.boot Bench.lab
              [Bench.ok (report [("X", "open"); ("Z probe", "at min stop")])]
  in
  fst (get_endstops Decoders.json_loads st)
  = Return (<["Z probe" := "at min stop"]> (<["X" := "open"]> ∅))
  /\ posted (net (snd (get_endstops Decoders.json_loads st))) = ["M119"].
Proof.
  intros st.
  destruct endstop_report_parsing as (Hrun & _ & _ & Hrep & _).
  destruct (Hrun Decoders.json_loads st _ _ (conj eq_refl eq_refl)
                 (surjective_pairing _)) as (_ & P & Hret & _).
  split; [|exact P].
  assert (Hclean : Forall clean_entry
                          [("X", "open"); ("Z probe", "at min stop")]).
  { repeat constructor. }
  assert (Hr : fst (get_endstops Decoders.json_loads st)
               = Return (parse_endstops
                           (report [("X", "open");
                                    ("Z probe", "at min stop")])))
    by (vm_compute; reflexivity).
  rewrite Hr, (Hrep _ Hclean). reflexivity.
Defined.

(* ================================================================== *)
(** * The manager of tools and their offsets

    [JubileeManager] (file [src/science_jubilee/JubileeManager.py]) keeps
    the tool slots, the offsets of the tools and the index of the active
    tool, and drives the controller with them.  A method of the manager is
    a function in the monad [MM]: it takes the attributes of the manager
    and the state of its controller, and returns a value or a raised
    exception together with both.  Coordinates and offsets are floats, as
    the annotations of the methods say: their sums and differences are
    those of [PyFloat]. *)
(* ================================================================== *)

Module Manager.

(** A [Tool] object ([tools/Tool.py]): [ident] stands for the identity of
    the object, which [is] compares, [name] for its attribute. *)
Record tool : Type := {
  ident : positive;
  name : string
}.

(** [a is b] *)
Definition tool_is (a b : tool) : bool := Pos.eqb (ident a) (ident b).

(** What the manager reads of a [Deck]: [deck_offset], a tuple of any
    length ([decks/Deck.py], line 111).  A [Deck] defines neither [__bool__]
    nor [__len__]: a loaded deck is true. *)
Record Deck : Type := {
  deck_offset : list Q
}.

(** A [dict] with int keys, in insertion order. *)
Definition dict (V : Type) : Type := list (Z * V).

(** [d.get(k)], [None] standing for a missing key. *)
Fixpoint dict_get {V : Type} (d : dict V) (k : Z) : option V :=
  match d with
  | [] => None
  | (k', v) :: rest => if Z.eqb k' k then Some v else dict_get rest k
  end.

(** [d[k] = v]: the value of a key of [d] is replaced where it stands, a
    new key goes last. *)
Fixpoint dict_set {V : Type} (d : dict V) (k : Z) (v : V) : dict V :=
  match d with
  | [] => [(k, v)]
  | (k', v') :: rest =>
      if Z.eqb k' k then (k', v) :: rest else (k', v') :: dict_set rest k v
  end.

(** [range(n)] *)
Definition range (n : Z) : list Z := map Z.of_nat (seq 0 (Z.to_nat n)).

(** The attributes of a [JubileeManager], but [controller], whose state is
    kept beside them, and [simulated], which no method reads. *)
Record manager : Type := {
  deck : option Deck;
  MAX_TOOLS : Z;
  tools_list : dict (option tool);
  tool_offsets : gmap Z (Q * Q * Q);
  active_tool_index : option Z
}.

(** The manager [__init__] builds around a controller it is given. *)
Definition __init__ (max_tools : Z) : manager :=
  {| deck := None;
     MAX_TOOLS := max_tools;
     tools_list := map (fun i => (i, None)) (range max_tools);
     tool_offsets := ∅;
     active_tool_index := None |}.

(** The exceptions a method of the manager ends with: the four classes
    the manager raises itself, and [Propagated e] for an exception [e] of
    the controller or of the Python runtime, which no method of the manager
    catches. *)
Inductive error : Type :=
| ToolStateError (msg : string)
| ToolConfigurationError (msg : string)
| DeckStateError (msg : string)
| DeckConfigurationError (msg : string)
| Propagated (e : exn).

Inductive outcome (A : Type) : Type :=
| Done (a : A)
| Failed (e : error).
Arguments Done {A} a.
Arguments Failed {A} e.

(** The manager and the controller it holds. *)
Record system : Type := {
  this : manager;
  ctl : state
}.

Definition MM (A : Type) : Type := system -> outcome A * system.

Definition mret {A : Type} (a : A) : MM A := fun sys => (Done a, sys).

Definition mraise {A : Type} (e : error) : MM A := fun sys => (Failed e, sys).

Definition mbind {A B : Type} (m : MM A) (k : A -> MM B) : MM B :=
  fun sys =>
    match m sys with
    | (Done a, sys') => k a sys'
    | (Failed e, sys') => (Failed e, sys')
    end.

Definition get_this : MM manager := fun sys => (Done (this sys), sys).

Definition set_this (f : manager -> manager) : MM unit :=
  fun sys => (Done tt, {| this := f (this sys); ctl := ctl sys |}).

(** A call of a method of [self.controller]. *)
Definition call {A : Type} (m : M A) : MM A :=
  fun sys =>
    match m (ctl sys) with
    | (Return a, st') => (Done a, {| this := this sys; ctl := st' |})
    | (Raise e, st') =>
        (Failed (Propagated e), {| this := this sys; ctl := st' |})
    end.

Declare Scope mgr_scope.
Delimit Scope mgr_scope with mgr.
Notation "x <- m ;; k" := (mbind m (fun x => k))
  (at level 100, m at next level, right associativity) : mgr_scope.
Notation "m ;; k" := (mbind m (fun _ => k))
  (at level 100, right associativity) : mgr_scope.
#[local] Open Scope mgr_scope.

(** ** Assignments to the attributes *)

Definition with_tools_list (d : dict (option tool)) (m : manager) : manager :=
  {| deck := deck m;
     MAX_TOOLS := MAX_TOOLS m;
     tools_list := d;
     tool_offsets := tool_offsets m;
     active_tool_index := active_tool_index m |}.

Definition with_tool_offsets (o : gmap Z (Q * Q * Q)) (m : manager)
  : manager :=
  {| deck := deck m;
     MAX_TOOLS := MAX_TOOLS m;
     tools_list := tools_list m;
     tool_offsets := o;
     active_tool_index := active_tool_index m |}.

Definition with_active_tool_index (a : option Z) (m : manager) : manager :=
  {| deck := deck m;
     MAX_TOOLS := MAX_TOOLS m;
     tools_list := tools_list m;
     tool_offsets := tool_offsets m;
     active_tool_index := a |}.

Definition with_deck (d : option Deck) (m : manager) : manager :=
  {| deck := d;
     MAX_TOOLS := MAX_TOOLS m;
     tools_list := tools_list m;
     tool_offsets := tool_offsets m;
     active_tool_index := active_tool_index m |}.

(** ** Tool slots *)

(** [self.tools_list.get(index)], a free slot and a missing key both
    giving [None]. *)
Definition slot (m : manager) (index : Z) : option tool :=
  match dict_get (tools_list m) index with
  | Some (Some t) => Some t
  | _ => None
  end.

(** [[t for t in self.tools_list.values() if t is not None]] *)
Definition loaded_tools (m : manager) : list tool :=
  omap snd (tools_list m).

(** [0 <= index < self.MAX_TOOLS] *)
Definition in_bounds (m : manager) (index : Z) : bool :=
  (0 <=? index)%Z && (index <? MAX_TOOLS m)%Z.

Definition out_of_bounds (m : manager) (index : Z) : error :=
  ToolConfigurationError
    ("Tool index " ++ PyStr.str_of_int index ++ " out of bounds (0-"
     ++ PyStr.str_of_int (MAX_TOOLS m - 1) ++ ").")%string.

Definition is_tool_loaded (index : Z) : MM bool :=
  m <- get_this ;;
  if negb (in_bounds m index) then mraise (out_of_bounds m index)
  else mret (match slot m index with Some _ => true | None => false end).

Definition already_loaded_elsewhere : error :=
  ToolStateError "This tool object is already loaded at another index.".

Definition too_many_tools (m : manager) : error :=
  ToolConfigurationError
    ("Cannot load more than " ++ PyStr.str_of_int (MAX_TOOLS m)
     ++ " tools.")%string.

Definition load_tool (t : tool) (index : Z) : MM unit :=
  m <- get_this ;;
  if negb (in_bounds m index) then mraise (out_of_bounds m index)
  else
    match dict_get (tools_list m) index with
    | Some (Some _) =>
        mraise (ToolStateError
                  ("A tool is already loaded at index "
                   ++ PyStr.str_of_int index ++ ".")%string)
    | _ =>
        if existsb (fun t' => tool_is t' t) (loaded_tools m)
        then mraise already_loaded_elsewhere
        else if (Z.of_nat (length (loaded_tools m)) >=? MAX_TOOLS m)%Z
        then mraise (too_many_tools m)
        else set_this (with_tools_list
                         (dict_set (tools_list m) index (Some t)))
    end.

(** The loop of [change_tool] over [self.tools_list.items()]: the first
    index whose slot holds the object [t]. *)
Fixpoint index_of_object (d : dict (option tool)) (t : tool) : option Z :=
  match d with
  | [] => None
  | (idx, Some t') :: rest =>
      if tool_is t' t then Some idx else index_of_object rest t
  | (_, None) :: rest => index_of_object rest t
  end.

Definition change_tool (t : tool) (index : Z) : MM unit :=
  m <- get_this ;;
  if negb (in_bounds m index) then mraise (out_of_bounds m index)
  else
    match slot m index with
    | None =>
        mraise (ToolStateError
                  ("No tool to replace at index "
                   ++ PyStr.str_of_int index ++ ".")%string)
    | Some _ =>
        match index_of_object (tools_list m) t with
        | Some idx =>
            mraise (ToolStateError
                      ("This tool object is already loaded at index "
                       ++ PyStr.str_of_int idx
                       ++ ". Cannot change tool at index "
                       ++ PyStr.str_of_int index ++ ".")%string)
        | None =>
            set_this (with_tools_list
                        (dict_set (tools_list m) index (Some t)))
        end
    end.

(** The three assignments that unload the slot [index]. *)
Definition unload_slot (index : Z) (m : manager) : manager :=
  {| deck := deck m;
     MAX_TOOLS := MAX_TOOLS m;
     tools_list := dict_set (tools_list m) index None;
     tool_offsets := delete index (tool_offsets m);
     active_tool_index :=
       match active_tool_index m with
       | Some a => if Z.eqb a index then None else Some a
       | None => None
       end |}.

Definition unload_tool (index : Z) : MM unit :=
  loaded <- is_tool_loaded index ;;
  if negb loaded
  then mraise (ToolStateError
                 ("No tool loaded at index " ++ PyStr.str_of_int index
                  ++ " to unload.")%string)
  else set_this (unload_slot index).

(** One round of the loop of [unload_all_tools]; the flag is
    [unloaded_any]. *)
Definition unload_all_step (acc : manager * bool) (idx : Z)
  : manager * bool :=
  match slot (fst acc) idx with
  | Some _ => (unload_slot idx (fst acc), true)
  | None => acc
  end.

Definition no_tools_to_unload : error := ToolStateError "No tools to unload.".

Definition unload_all_tools : MM unit :=
  m <- get_this ;;
  let after := fold_left unload_all_step (map fst (tools_list m))
                         (m, false) in
  set_this (fun _ => fst after) ;;
  if negb (snd after) then mraise no_tools_to_unload else mret tt.

(** [get_loaded_tools]: the index and the name of each loaded tool. *)
Definition get_loaded_tools : MM (list (Z * string)) :=
  m <- get_this ;;
  mret (omap (fun it => match snd it with
                        | Some t => Some (fst it, name t)
                        | None => None
                        end) (tools_list m)).

Definition get_tool (index : Z) : MM (Z * string * tool) :=
  m <- get_this ;;
  if negb (in_bounds m index) then mraise (out_of_bounds m index)
  else
    match slot m index with
    | Some t => mret (index, name t, t)
    | None =>
        mraise (ToolStateError
                  ("No tool loaded at index " ++ PyStr.str_of_int index
                   ++ ".")%string)
    end.

(** The loop of [get_tool_by_name] and of [set_active_tool_by_name]: the
    first slot, in the order of the keys, that holds a tool of that name. *)
Fixpoint find_by_name (d : dict (option tool)) (tool_name : string)
  : option (Z * tool) :=
  match d with
  | [] => None
  | (idx, Some t) :: rest =>
      if String.eqb (name t) tool_name then Some (idx, t)
      else find_by_name rest tool_name
  | (_, None) :: rest => find_by_name rest tool_name
  end.

Definition get_tool_by_name (tool_name : string) : MM (Z * string * tool) :=
  m <- get_this ;;
  match find_by_name (tools_list m) tool_name with
  | Some (idx, t) => mret (idx, name t, t)
  | None =>
      mraise (ToolStateError
                ("No tool loaded with name '" ++ tool_name ++ "'.")%string)
  end.

(** ** Offsets *)

Definition set_tool_offset (index : Z) (offset : Q * Q * Q) : MM unit :=
  loaded <- is_tool_loaded index ;;
  if negb loaded
  then mraise (ToolStateError
                 ("No tool loaded at index " ++ PyStr.str_of_int index
                  ++ " to set offset.")%string)
  else set_this (fun m => with_tool_offsets
                            (<[index := offset]> (tool_offsets m)) m).

Definition get_tool_offset (index : Z) : MM (Q * Q * Q) :=
  loaded <- is_tool_loaded index ;;
  if negb loaded
  then mraise (ToolStateError
                 ("No tool loaded at index " ++ PyStr.str_of_int index
                  ++ " to get offset.")%string)
  else
    m <- get_this ;;
    mret (match tool_offsets m !! index with
          | Some offset => offset
          | None => (0, 0, 0)%Q
          end).

(** ** The active tool *)

Definition set_active_tool (index : Z) : MM unit :=
  loaded <- is_tool_loaded index ;;
  if negb loaded
  then mraise (ToolStateError
                 ("No tool loaded at index " ++ PyStr.str_of_int index
                  ++ " to set as active.")%string)
  else set_this (with_active_tool_index (Some index)).

Definition set_active_tool_by_name (tool_name : string) : MM unit :=
  m <- get_this ;;
  match find_by_name (tools_list m) tool_name with
  | Some (idx, _) => set_this (with_active_tool_index (Some idx))
  | None =>
      mraise (ToolStateError
                ("No tool loaded with name '" ++ tool_name
                 ++ "' to set as active.")%string)
  end.

Definition get_active_tool : MM (option Z * option tool) :=
  m <- get_this ;;
  match active_tool_index m with
  | None => mret (None, None)
  | Some idx =>
      loaded <- is_tool_loaded idx ;;
      if loaded then mret (Some idx, slot m idx) else mret (None, None)
  end.

Definition no_active_tool (what : string) : error :=
  ToolStateError ("No active tool to " ++ what ++ ".")%string.

(** [machine_pos.get(axis, 0.0) - offset]: an axis missing from the reply
    counts as 0, an axis bound to [None] cannot be subtracted from. *)
Definition workspace_coordinate (machine_pos : gmap string (option Q))
           (axis : string) (offset : Q) : MM Q :=
  match machine_pos !! axis with
  | None => mret (PyFloat.sub 0 offset)
  | Some (Some v) => mret (PyFloat.sub v offset)
  | Some None => mraise (Propagated (runtime_error TypeError))
  end.

(** ** Tool-exchange and moves *)

(** [self.deck.deck_offset[2] if self.deck and len(self.deck.deck_offset) > 2
    else 0.0] *)
Definition z_deck (m : manager) : Q :=
  match deck m with
  | Some d =>
      if (2 <? length (deck_offset d))%nat then nth 2 (deck_offset d) 0%Q
      else 0%Q
  | None => 0%Q
  end.

(** [self.get_tool_offset(index)[2] if index in self.tool_offsets else 0.0] *)
Definition z_tool (index : Z) : MM Q :=
  m <- get_this ;;
  match tool_offsets m !! index with
  | Some _ => offset <- get_tool_offset index ;; mret (snd offset)
  | None => mret 0%Q
  end.

(** [v + offset if v is not None else None] *)
Definition add_offset (v : option Q) (offset : Q) : option Q :=
  match v with
  | Some q => Some (PyFloat.add q offset)
  | None => None
  end.

Definition unload_deck : MM unit :=
  m <- get_this ;;
  match deck m with
  | None => mraise (DeckStateError "No deck loaded.")
  | Some _ => set_this (with_deck None)
  end.

(** [load_deck].  [built] is what [Deck(deck_filename, path)] comes to for
    the file named: a deck, or an exception of the given text. *)
Definition load_deck (built : Deck + string) : MM Deck :=
  m <- get_this ;;
  match deck m with
  | Some _ => mraise (DeckStateError "Deck already loaded. Unload first.")
  | None =>
      match built with
      | inl d => set_this (with_deck (Some d)) ;; mret d
      | inr e =>
          mraise (DeckConfigurationError ("Failed to load deck: " ++ e)%string)
      end
  end.

Definition change_deck (built : Deck + string) : MM Deck :=
  m <- get_this ;;
  match deck m with
  | None => mraise (DeckStateError "No deck loaded. Cannot change deck.")
  | Some _ => unload_deck ;; load_deck built
  end.

Definition is_deck_loaded : MM bool :=
  m <- get_this ;;
  mret (match deck m with Some _ => true | None => false end).

Section Methods.

Variable json_loads : string -> option json.
Variable py_float : string -> option Q.
Variable py_str : option Q -> string.

Definition get_active_tool_position : MM (Q * Q * Q) :=
  m <- get_this ;;
  match active_tool_index m with
  | None => mraise (no_active_tool "get position")
  | Some idx =>
      loaded <- is_tool_loaded idx ;;
      if negb loaded then mraise (no_active_tool "get position")
      else
        machine_pos <- call (get_position json_loads py_float) ;;
        offset <- get_tool_offset idx ;;
        let '(ox, oy, oz) := offset in
        x <- workspace_coordinate machine_pos "X" ox ;;
        y <- workspace_coordinate machine_pos "Y" oy ;;
        z <- workspace_coordinate machine_pos "Z" oz ;;
        mret (x, y, z)
  end.

Definition pickup_tool (index : Z) (speed : option Q) : MM unit :=
  m <- get_this ;;
  match active_tool_index m with
  | Some active =>
      mraise (ToolStateError
                ("A tool (index " ++ PyStr.str_of_int active
                 ++ ") is already loaded. Park it before picking up another.")
                %string)
  | None =>
      loaded <- is_tool_loaded index ;;
      if negb loaded
      then mraise (ToolStateError
                     ("No tool loaded at index " ++ PyStr.str_of_int index
                      ++ " to pick up.")%string)
      else
        zt <- z_tool index ;;
        let z_park := PyFloat.add (z_deck m) zt in
        call (pickup_tool_sequence json_loads py_float py_str
                                   index (Some z_park) speed) ;;
        set_this (with_active_tool_index (Some index))
  end.

Definition park_active_tool (speed : option Q) : MM unit :=
  m <- get_this ;;
  match active_tool_index m with
  | None => mraise (no_active_tool "park")
  | Some index =>
      zt <- z_tool index ;;
      let z_park := PyFloat.add (z_deck m) zt in
      call (park_tool_sequence json_loads py_float py_str
                               index (Some z_park) speed) ;;
      set_this (with_active_tool_index None)
  end.

Definition move_active_tool_effector_to (x y z u s : option Q)
           (param : option string) (wait : bool) : MM unit :=
  m <- get_this ;;
  match active_tool_index m with
  | None => mraise (no_active_tool "move")
  | Some idx =>
      loaded <- is_tool_loaded idx ;;
      if negb loaded then mraise (no_active_tool "move")
      else
        offset <- get_tool_offset idx ;;
        let '(ox, oy, oz) := offset in
        call (move_to json_loads py_float py_str
                      (add_offset x ox) (add_offset y oy) (add_offset z oz)
                      u s param wait)
  end.

Definition reset : MM unit :=
  unload_all_tools ;;
  m <- get_this ;;
  (match deck m with
   | Some _ => unload_deck
   | None => mret tt
   end) ;;
  set_this (with_active_tool_index None) ;;
  set_this (with_tool_offsets ∅).

End Methods.

End Manager.

Import Manager.

(* ================================================================== *)
(** * The invariant of the manager *)
(* ================================================================== *)

(** ** Dictionaries *)

Lemma dict_get_set_eq {V : Type} (d : dict V) k v :
  dict_get (dict_set d k v) k = Some v.
Proof.
  induction d as [|[k' v'] d IH]; simpl.
  - rewrite Z.eqb_refl. reflexivity.
  - destruct (Z.eqb k' k) eqn:E; simpl; rewrite E; [reflexivity | exact IH].
Qed.

Lemma dict_get_set_ne {V : Type} (d : dict V) k k' v :
  k <> k' -> dict_get (dict_set d k v) k' = dict_get d k'.
Proof.
  intros Hne. induction d as [|[k0 v0] d IH]; simpl.
  - destruct (Z.eqb k k') eqn:E; [apply Z.eqb_eq in E; contradiction|].
    reflexivity.
  - destruct (Z.eqb k0 k) eqn:E; simpl.
    + apply Z.eqb_eq in E. subst k0.
      destruct (Z.eqb k k') eqn:E'; [apply Z.eqb_eq in E'; contradiction|].
      reflexivity.
    + destruct (Z.eqb k0 k'); [reflexivity | exact IH].
Qed.

Lemma dict_get_keys {V : Type} (d : dict V) k :
  In k (map fst d) <-> exists v, dict_get d k = Some v.
Proof.
  induction d as [|[k0 v0] d IH]; simpl.
  - split; [intros [] | intros [v Hv]; discriminate Hv].
  - destruct (Z.eqb k0 k) eqn:E.
    + apply Z.eqb_eq in E. split; [intros _; eexists; reflexivity | auto].
    + apply Z.eqb_neq in E. rewrite <- IH. split; [|auto].
      intros [H | H]; [contradiction | exact H].
Qed.

Lemma dict_set_keys {V : Type} (d : dict V) k v :
  In k (map fst d) -> map fst (dict_set d k v) = map fst d.
Proof.
  induction d as [|[k0 v0] d IH]; simpl; [intros []|].
  intros H. destruct (Z.eqb k0 k) eqn:E; simpl; [reflexivity|].
  apply Z.eqb_neq in E. destruct H as [H | H]; [contradiction|].
  rewrite (IH H). reflexivity.
Qed.

Lemma dict_set_back {V : Type} (d : dict V) k v w :
  dict_get d k = Some v -> dict_set (dict_set d k w) k v = d.
Proof.
  induction d as [|[k0 v0] d IH]; simpl; [discriminate|].
  destruct (Z.eqb k0 k) eqn:E; simpl; rewrite E.
  - intros H. inversion H; subst. reflexivity.
  - intros H. rewrite (IH H). reflexivity.
Qed.

Lemma dict_get_in {V : Type} (d : dict V) k v :
  dict_get d k = Some v -> In (k, v) d.
Proof.
  induction d as [|[k0 v0] d IH]; simpl; [discriminate|].
  destruct (Z.eqb k0 k) eqn:E.
  - apply Z.eqb_eq in E. intros H. inversion H; subst. left. reflexivity.
  - intros H. right. exact (IH H).
Qed.

Lemma dict_in_get {V : Type} (d : dict V) k v :
  NoDup (map fst d) -> In (k, v) d -> dict_get d k = Some v.
Proof.
  induction d as [|[k0 v0] d IH]; simpl; [intros _ []|].
  intros Hnd [H | H].
  - inversion H; subst. rewrite Z.eqb_refl. reflexivity.
  - apply NoDup_cons in Hnd. destruct Hnd as [Hni Hnd].
    destruct (Z.eqb k0 k) eqn:E.
    + apply Z.eqb_eq in E. subst k0. exfalso. apply Hni.
      apply list_elem_of_In. change k with (fst (k, v)). apply in_map. exact H.
    + exact (IH Hnd H).
Qed.

Lemma range_spec n k : In k (range n) <-> (0 <= k < n)%Z.
Proof.
  unfold range. rewrite in_map_iff. split.
  - intros (i & <- & Hi). apply in_seq in Hi. lia.
  - intros Hk. exists (Z.to_nat k). split; [lia|]. apply in_seq. lia.
Qed.

Lemma range_NoDup n : NoDup (range n).
Proof.
  unfold range. apply (NoDup_fmap_2 Z.of_nat), NoDup_seq.
Qed.

(** ** The invariant

    The keys of the slots are [0 .. MAX_TOOLS-1] in that order; no tool
    object sits in two slots; only loaded slots have an offset; the active
    index, if any, is the index of a loaded slot. *)
Record wf (m : manager) : Prop := {
  wf_keys : map fst (tools_list m) = range (MAX_TOOLS m);
  wf_objects : forall i j t t',
      slot m i = Some t -> slot m j = Some t' -> ident t = ident t' -> i = j;
  wf_offsets : forall i offset,
      tool_offsets m !! i = Some offset -> exists t, slot m i = Some t;
  wf_active : forall i,
      active_tool_index m = Some i -> exists t, slot m i = Some t
}.

Lemma in_bounds_spec m index :
  in_bounds m index = true <-> (0 <= index < MAX_TOOLS m)%Z.
Proof. unfold in_bounds. rewrite andb_true_iff, Z.leb_le, Z.ltb_lt. tauto. Qed.

Lemma wf_key m index :
  wf m -> in_bounds m index = true -> In index (map fst (tools_list m)).
Proof.
  intros W H. rewrite (wf_keys _ W). apply range_spec, in_bounds_spec, H.
Qed.

Lemma slot_in_bounds m index t :
  wf m -> slot m index = Some t -> in_bounds m index = true.
Proof.
  intros W H. apply in_bounds_spec, range_spec. rewrite <- (wf_keys _ W).
  apply dict_get_keys. unfold slot in H.
  destruct (dict_get (tools_list m) index) as [v|]; [|discriminate H].
  exists v. reflexivity.
Qed.

Lemma slot_set m index v j :
  slot (with_tools_list (dict_set (tools_list m) index v) m) j
  = if Z.eqb index j then v else slot m j.
Proof.
  unfold slot, with_tools_list. simpl.
  destruct (Z.eqb index j) eqn:E.
  - apply Z.eqb_eq in E. subst j. rewrite dict_get_set_eq.
    destruct v; reflexivity.
  - apply Z.eqb_neq in E. rewrite (dict_get_set_ne _ _ _ _ E). reflexivity.
Qed.

Lemma slot_unload m index j :
  slot (unload_slot index m) j = if Z.eqb index j then None else slot m j.
Proof. exact (slot_set m index None j). Qed.

Lemma slot_loaded m index t : slot m index = Some t -> In t (loaded_tools m).
Proof.
  unfold slot, loaded_tools. intros H.
  destruct (dict_get (tools_list m) index) as [[t'|]|] eqn:E;
    try discriminate H.
  inversion H; subst t'. apply list_elem_of_In, list_elem_of_omap.
  exists (index, Some t). split; [|reflexivity].
  apply list_elem_of_In, dict_get_in, E.
Qed.

Lemma slot_init n j : slot (__init__ n) j = None.
Proof.
  unfold slot, __init__. simpl. induction (range n) as [|k l IH]; simpl;
    [reflexivity|]. destruct (Z.eqb k j); [reflexivity | exact IH].
Qed.

Lemma wf_init n : wf (__init__ n).
Proof.
  split.
  - simpl. rewrite map_map. simpl. apply map_id.
  - intros i j t t' H. rewrite slot_init in H. discriminate H.
  - intros i offset H. simpl in H. rewrite lookup_empty in H. discriminate H.
  - intros i H. discriminate H.
Qed.

Lemma wf_set_tool m index t :
  wf m -> in_bounds m index = true ->
  (forall j t', slot m j = Some t' -> j <> index -> ident t' <> ident t) ->
  wf (with_tools_list (dict_set (tools_list m) index (Some t)) m).
Proof.
  intros W Hb Hfresh. split.
  - simpl. rewrite dict_set_keys; [apply (wf_keys _ W) | apply wf_key; auto].
  - intros i j t1 t2. rewrite !slot_set.
    destruct (Z.eqb_spec index i) as [Ei|Ei],
             (Z.eqb_spec index j) as [Ej|Ej].
    + congruence.
    + intros H1 H2 Hid. inversion H1; subst t1.
      exfalso. apply (Hfresh j t2 H2); congruence.
    + intros H1 H2 Hid. inversion H2; subst t2.
      exfalso. apply (Hfresh i t1 H1); congruence.
    + apply (wf_objects _ W).
  - intros i offset H. simpl in H. rewrite slot_set.
    destruct (Z.eqb index i); [eexists; reflexivity|].
    exact (wf_offsets _ W _ _ H).
  - intros i H. simpl in H. rewrite slot_set.
    destruct (Z.eqb index i); [eexists; reflexivity|].
    exact (wf_active _ W _ H).
Qed.

Lemma wf_unload_slot m index :
  wf m -> In index (map fst (tools_list m)) -> wf (unload_slot index m).
Proof.
  intros W Hk. split.
  - simpl. rewrite dict_set_keys; [apply (wf_keys _ W) | exact Hk].
  - intros i j t1 t2. rewrite !slot_unload.
    destruct (Z.eqb index i), (Z.eqb index j); try discriminate.
    apply (wf_objects _ W).
  - intros i offset H. simpl in H. rewrite slot_unload.
    destruct (Z.eqb index i) eqn:E.
    + apply Z.eqb_eq in E. subst i. rewrite lookup_delete_eq in H.
      discriminate H.
    + apply Z.eqb_neq in E. rewrite lookup_delete_ne in H by exact E.
      exact (wf_offsets _ W _ _ H).
  - intros i H. simpl in H. rewrite slot_unload.
    destruct (active_tool_index m) as [a|] eqn:Ea; [|discriminate H].
    destruct (Z.eqb a index) eqn:E; [discriminate H|].
    inversion H; subst a. rewrite Z.eqb_sym, E.
    exact (wf_active _ W _ Ea).
Qed.

Lemma wf_set_offset m index offset t :
  wf m -> slot m index = Some t ->
  wf (with_tool_offsets (<[index := offset]> (tool_offsets m)) m).
Proof.
  intros W Hs. split; try apply W.
  intros i o H. simpl in H. change (exists t0, slot m i = Some t0).
  destruct (decide (index = i)) as [<- | Hne]; [eexists; exact Hs|].
  rewrite lookup_insert_ne in H by exact Hne.
  exact (wf_offsets _ W _ _ H).
Qed.

Lemma wf_clear_offsets m : wf m -> wf (with_tool_offsets ∅ m).
Proof.
  intros W. split; try apply W.
  intros i o H. simpl in H. rewrite lookup_empty in H. discriminate H.
Qed.

Lemma wf_set_active m a :
  wf m -> (forall i, a = Some i -> exists t, slot m i = Some t) ->
  wf (with_active_tool_index a m).
Proof. intros W H. split; try apply W. exact H. Qed.

Lemma wf_set_deck m d : wf m -> wf (with_deck d m).
Proof. intros W. split; apply W. Qed.

(** ** Running a method *)

Lemma mbind_inv {A B : Type} (m : MM A) (k : A -> MM B) sys r sys' :
  mbind m k sys = (r, sys') ->
  (exists a sys1, m sys = (Done a, sys1) /\ k a sys1 = (r, sys'))
  \/ (exists e, m sys = (Failed e, sys') /\ r = Failed e).
Proof.
  unfold mbind. destruct (m sys) as [[a|e] sys1]; intros H.
  - left. exists a, sys1. split; [reflexivity | exact H].
  - right. inversion H; subst. exists e. split; reflexivity.
Qed.

Lemma is_tool_loaded_run index sys :
  is_tool_loaded index sys
  = (if in_bounds (this sys) index
     then Done (match slot (this sys) index with
                | Some _ => true
                | None => false
                end)
     else Failed (out_of_bounds (this sys) index), sys).
Proof.
  unfold is_tool_loaded, mbind, get_this, mraise, mret.
  destruct (in_bounds (this sys) index); reflexivity.
Qed.

Lemma get_tool_offset_run index sys t :
  in_bounds (this sys) index = true -> slot (this sys) index = Some t ->
  get_tool_offset index sys
  = (Done (match tool_offsets (this sys) !! index with
           | Some offset => offset
           | None => (0, 0, 0)%Q
           end), sys).
Proof.
  intros Hb Hs. unfold get_tool_offset, mbind.
  rewrite is_tool_loaded_run, Hb, Hs. reflexivity.
Qed.

Lemma z_tool_run index sys :
  wf (this sys) ->
  z_tool index sys
  = (Done (match tool_offsets (this sys) !! index with
           | Some offset => snd offset
           | None => 0%Q
           end), sys).
Proof.
  intros W. unfold z_tool, mbind, get_this.
  destruct (tool_offsets (this sys) !! index) as [offset|] eqn:E;
    [|reflexivity].
  destruct (wf_offsets _ W _ _ E) as [t Ht].
  rewrite (get_tool_offset_run _ _ t (slot_in_bounds _ _ _ W Ht) Ht), E.
  reflexivity.
Qed.

Lemma call_this {A : Type} (m : M A) sys r sys' :
  call m sys = (r, sys') -> this sys' = this sys.
Proof.
  unfold call. destruct (m (ctl sys)) as [[a|e] st']; intros H;
    inversion H; reflexivity.
Qed.

(** A method that assigns no attribute of the manager. *)
Definition reads_only {A : Type} (m : MM A) : Prop :=
  forall sys r sys', m sys = (r, sys') -> this sys' = this sys.

Lemma reads_only_mbind {A B : Type} (m : MM A) (k : A -> MM B) :
  reads_only m -> (forall a, reads_only (k a)) -> reads_only (mbind m k).
Proof.
  intros Hm Hk sys r sys' H.
  destruct (mbind_inv _ _ _ _ _ H) as [(a & sys1 & H1 & H2) | (e & H1 & _)].
  - rewrite (Hk a _ _ _ H2). exact (Hm _ _ _ H1).
  - exact (Hm _ _ _ H1).
Qed.

Lemma reads_only_mret {A : Type} (a : A) : reads_only (mret a).
Proof. intros sys r sys' H. inversion H; reflexivity. Qed.

Lemma reads_only_mraise {A : Type} e : reads_only (@mraise A e).
Proof. intros sys r sys' H. inversion H; reflexivity. Qed.

Lemma reads_only_get_this : reads_only get_this.
Proof. intros sys r sys' H. inversion H; reflexivity. Qed.

Lemma reads_only_call {A : Type} (m : M A) : reads_only (call m).
Proof. intros sys r sys'. apply call_this. Qed.

Lemma reads_only_is_tool_loaded index : reads_only (is_tool_loaded index).
Proof.
  intros sys r sys' H. rewrite is_tool_loaded_run in H.
  inversion H; reflexivity.
Qed.

Lemma reads_only_get_tool_offset index : reads_only (get_tool_offset index).
Proof.
  unfold get_tool_offset.
  apply reads_only_mbind; [apply reads_only_is_tool_loaded|].
  intros b. destruct (negb b); [apply reads_only_mraise|].
  apply reads_only_mbind; [apply reads_only_get_this|].
  intros m. apply reads_only_mret.
Qed.

Lemma reads_only_z_tool index : reads_only (z_tool index).
Proof.
  unfold z_tool. apply reads_only_mbind; [apply reads_only_get_this|].
  intros m. destruct (tool_offsets m !! index); [|apply reads_only_mret].
  apply reads_only_mbind; [apply reads_only_get_tool_offset|].
  intros o. apply reads_only_mret.
Qed.

Lemma reads_only_workspace_coordinate pos axis offset :
  reads_only (workspace_coordinate pos axis offset).
Proof.
  unfold workspace_coordinate.
  destruct (pos !! axis) as [[v|]|];
    [apply reads_only_mret | apply reads_only_mraise | apply reads_only_mret].
Qed.

Lemma reads_only_move_active_tool_effector_to jl pf ps x y z u s param wait :
  reads_only (move_active_tool_effector_to jl pf ps x y z u s param wait).
Proof.
  unfold move_active_tool_effector_to.
  apply reads_only_mbind; [apply reads_only_get_this|]. intros m.
  destruct (active_tool_index m); [|apply reads_only_mraise].
  apply reads_only_mbind; [apply reads_only_is_tool_loaded|]. intros b.
  destruct (negb b); [apply reads_only_mraise|].
  apply reads_only_mbind; [apply reads_only_get_tool_offset|].
  intros [[ox oy] oz]. apply reads_only_call.
Qed.

Lemma reads_only_get_active_tool_position jl pf :
  reads_only (get_active_tool_position jl pf).
Proof.
  unfold get_active_tool_position.
  apply reads_only_mbind; [apply reads_only_get_this|]. intros m.
  destruct (active_tool_index m); [|apply reads_only_mraise].
  apply reads_only_mbind; [apply reads_only_is_tool_loaded|]. intros b.
  destruct (negb b); [apply reads_only_mraise|].
  apply reads_only_mbind; [apply reads_only_call|]. intros pos.
  apply reads_only_mbind; [apply reads_only_get_tool_offset|].
  intros [[ox oy] oz].
  repeat (apply reads_only_mbind;
          [apply reads_only_workspace_coordinate | intros ?]).
  apply reads_only_mret.
Qed.

(** ** The loop of [unload_all_tools] *)

Lemma unload_all_flag keys m :
  snd (fold_left unload_all_step keys (m, true)) = true.
Proof.
  revert m. induction keys as [|k keys IH]; intros m; simpl; [reflexivity|].
  unfold unload_all_step at 2. simpl.
  destruct (slot m k); apply IH.
Qed.

Lemma unload_all_fold keys :
  forall m flag,
    wf m ->
    (forall k, In k keys -> In k (map fst (tools_list m))) ->
    let after := fold_left unload_all_step keys (m, flag) in
    wf (fst after)
    /\ MAX_TOOLS (fst after) = MAX_TOOLS m
    /\ deck (fst after) = deck m
    /\ (forall j, slot (fst after) j
                  = if existsb (Z.eqb j) keys then None else slot m j)
    /\ snd after
       = flag || existsb (fun k => match slot m k with
                                   | Some _ => true
                                   | None => false
                                   end) keys.
Proof.
  induction keys as [|k keys IH]; intros m flag W Hk; simpl.
  - repeat split; try apply W. rewrite orb_false_r. reflexivity.
  - unfold unload_all_step at 2 4 6 8 10. simpl.
    destruct (slot m k) as [t|] eqn:Es.
    + assert (W' : wf (unload_slot k m))
        by (apply wf_unload_slot; [exact W | apply Hk; left; reflexivity]).
      assert (Hk' : forall k0, In k0 keys ->
                               In k0 (map fst (tools_list (unload_slot k m)))).
      { intros k0 H0. simpl. rewrite dict_set_keys;
          apply Hk; [right; exact H0 | left; reflexivity]. }
      destruct (IH (unload_slot k m) true W' Hk') as (A & B & C & D & _).
      split; [exact A|]. split; [exact B|]. split; [exact C|]. split.
      * intros j. rewrite D, slot_unload.
        destruct (Z.eqb_spec j k) as [->|Hne].
        -- rewrite Z.eqb_refl. simpl.
           destruct (existsb (Z.eqb k) keys); reflexivity.
        -- destruct (Z.eqb_spec k j) as [E|_]; [congruence|]. reflexivity.
      * rewrite unload_all_flag. rewrite orb_true_r. reflexivity.
    + assert (Hk' : forall k0, In k0 keys -> In k0 (map fst (tools_list m)))
        by (intros k0 H0; apply Hk; right; exact H0).
      destruct (IH m flag W Hk') as (A & B & C & D & E).
      split; [exact A|]. split; [exact B|]. split; [exact C|]. split.
      * intros j. rewrite D.
        destruct (Z.eqb_spec j k) as [->|Hne]; [|reflexivity].
        simpl. rewrite Es. destruct (existsb (Z.eqb k) keys); reflexivity.
      * exact E.
Qed.

(** ** Every method keeps the invariant *)

Definition keeps_wf {A : Type} (m : MM A) : Prop :=
  forall sys r sys',
    wf (this sys) -> m sys = (r, sys') ->
    wf (this sys') /\ MAX_TOOLS (this sys') = MAX_TOOLS (this sys).

Lemma keeps_wf_reads_only {A : Type} (m : MM A) : reads_only m -> keeps_wf m.
Proof.
  intros Hm sys r sys' W H. rewrite (Hm _ _ _ H). split; [exact W | reflexivity].
Qed.

Lemma keeps_wf_mbind {A B : Type} (m : MM A) (k : A -> MM B) :
  keeps_wf m -> (forall a, keeps_wf (k a)) -> keeps_wf (mbind m k).
Proof.
  intros Hm Hk sys r sys' W H.
  destruct (mbind_inv _ _ _ _ _ H) as [(a & sys1 & H1 & H2) | (e & H1 & _)].
  - destruct (Hm _ _ _ W H1) as [W1 E1].
    destruct (Hk a _ _ _ W1 H2) as [W2 E2].
    split; [exact W2 | congruence].
  - exact (Hm _ _ _ W H1).
Qed.

Ltac mrun H :=
  unfold mbind, get_this, set_this, mraise, mret in H;
  cbn [this ctl fst snd] in H.

Ltac unchanged H W :=
  cbv beta in H; inversion H; subst; split; [exact W | reflexivity].

Lemma fresh_object m t :
  existsb (fun t' => tool_is t' t) (loaded_tools m) = false ->
  forall j t', slot m j = Some t' -> ident t' <> ident t.
Proof.
  intros He j t' Hs Hid.
  assert (Ht : existsb (fun t' => tool_is t' t) (loaded_tools m) = true).
  { apply existsb_exists. exists t'. split; [exact (slot_loaded _ _ _ Hs)|].
    unfold tool_is. rewrite Hid. apply Pos.eqb_refl. }
  congruence.
Qed.

Lemma index_of_object_none d t :
  index_of_object d t = None ->
  forall j t', In (j, Some t') d -> ident t' <> ident t.
Proof.
  induction d as [|[k [t0|]] d IH]; simpl; intros H j t' Hin.
  - destruct Hin.
  - destruct (tool_is t0 t) eqn:E; [discriminate H|].
    destruct Hin as [Hin | Hin]; [|exact (IH H j t' Hin)].
    inversion Hin; subst. unfold tool_is in E. intros Hid.
    rewrite Hid, Pos.eqb_refl in E. discriminate E.
  - destruct Hin as [Hin | Hin]; [discriminate Hin | exact (IH H j t' Hin)].
Qed.

Lemma slot_in m j t : slot m j = Some t -> In (j, Some t) (tools_list m).
Proof.
  unfold slot. intros H.
  destruct (dict_get (tools_list m) j) as [[t'|]|] eqn:E; try discriminate H.
  inversion H; subst. exact (dict_get_in _ _ _ E).
Qed.

Lemma wf_NoDup m : wf m -> NoDup (map fst (tools_list m)).
Proof. intros W. rewrite (wf_keys _ W). apply range_NoDup. Qed.

Lemma in_slot m j t :
  wf m -> In (j, Some t) (tools_list m) -> slot m j = Some t.
Proof.
  intros W H. unfold slot. rewrite (dict_in_get _ _ _ (wf_NoDup _ W) H).
  reflexivity.
Qed.

Lemma find_by_name_in d tool_name idx t :
  find_by_name d tool_name = Some (idx, t) ->
  In (idx, Some t) d /\ name t = tool_name.
Proof.
  induction d as [|[k [t0|]] d IH]; simpl; intros H.
  - discriminate H.
  - destruct (String.eqb (name t0) tool_name) eqn:E.
    + inversion H; subst. apply String.eqb_eq in E. auto.
    + destruct (IH H) as [A B]. auto.
  - destruct (IH H) as [A B]. auto.
Qed.

Lemma keeps_wf_load_tool t index : keeps_wf (load_tool t index).
Proof.
  intros sys r sys' W H. unfold load_tool in H. mrun H.
  destruct (in_bounds (this sys) index) eqn:Eb; simpl in H; [|unchanged H W].
  assert (Hset : existsb (fun t' => tool_is t' t) (loaded_tools (this sys))
                 = false ->
                 wf (with_tools_list
                       (dict_set (tools_list (this sys)) index (Some t))
                       (this sys))).
  { intros He. apply wf_set_tool; [exact W | exact Eb|].
    intros j t' Hs _. exact (fresh_object _ _ He j t' Hs). }
  destruct (dict_get (tools_list (this sys)) index) as [[t0|]|];
    [unchanged H W | |];
    (destruct (existsb (fun t' => tool_is t' t) (loaded_tools (this sys)))
       eqn:He; [unchanged H W|];
     destruct (Z.of_nat (length (loaded_tools (this sys)))
               >=? MAX_TOOLS (this sys))%Z; [unchanged H W|];
     cbv beta in H; inversion H; subst; split; [exact (Hset eq_refl) | reflexivity]).
Qed.

Lemma keeps_wf_change_tool t index : keeps_wf (change_tool t index).
Proof.
  intros sys r sys' W H. unfold change_tool in H. mrun H.
  destruct (in_bounds (this sys) index) eqn:Eb; simpl in H; [|unchanged H W].
  destruct (slot (this sys) index) as [t0|]; [|unchanged H W].
  destruct (index_of_object (tools_list (this sys)) t) as [idx|] eqn:Ei;
    [unchanged H W|].
  inversion H; subst. split; [|reflexivity].
  apply wf_set_tool; [exact W | exact Eb|].
  intros j t' Hs _.
  exact (index_of_object_none _ _ Ei j t' (slot_in _ _ _ Hs)).
Qed.

Lemma keeps_wf_unload_tool index : keeps_wf (unload_tool index).
Proof.
  intros sys r sys' W H. unfold unload_tool, mbind in H.
  rewrite is_tool_loaded_run in H.
  destruct (in_bounds (this sys) index) eqn:Eb; [|unchanged H W].
  destruct (slot (this sys) index) as [t0|]; simpl in H; [|unchanged H W].
  inversion H; subst. split; [|reflexivity].
  apply wf_unload_slot; [exact W | exact (wf_key _ _ W Eb)].
Qed.

Lemma keeps_wf_unload_all_tools : keeps_wf unload_all_tools.
Proof.
  intros sys r sys' W H. unfold unload_all_tools in H. mrun H.
  destruct (unload_all_fold (map fst (tools_list (this sys))) (this sys) false
              W (fun k Hk => Hk)) as (A & B & _).
  destruct (negb (snd (fold_left unload_all_step
                                 (map fst (tools_list (this sys)))
                                 (this sys, false))));
    inversion H; subst; split; assumption.
Qed.

Lemma keeps_wf_set_tool_offset index offset :
  keeps_wf (set_tool_offset index offset).
Proof.
  intros sys r sys' W H. unfold set_tool_offset, mbind in H.
  rewrite is_tool_loaded_run in H.
  destruct (in_bounds (this sys) index) eqn:Eb; [|unchanged H W].
  destruct (slot (this sys) index) as [t0|] eqn:Es; simpl in H;
    [|unchanged H W].
  inversion H; subst. split; [|reflexivity].
  exact (wf_set_offset _ _ _ _ W Es).
Qed.

Lemma keeps_wf_set_active_tool index : keeps_wf (set_active_tool index).
Proof.
  intros sys r sys' W H. unfold set_active_tool, mbind in H.
  rewrite is_tool_loaded_run in H.
  destruct (in_bounds (this sys) index) eqn:Eb; [|unchanged H W].
  destruct (slot (this sys) index) as [t0|] eqn:Es; simpl in H;
    [|unchanged H W].
  inversion H; subst. split; [|reflexivity].
  apply wf_set_active; [exact W|].
  intros i Hi. inversion Hi; subst. eexists. exact Es.
Qed.

Lemma keeps_wf_set_active_tool_by_name tool_name :
  keeps_wf (set_active_tool_by_name tool_name).
Proof.
  intros sys r sys' W H. unfold set_active_tool_by_name in H. mrun H.
  destruct (find_by_name (tools_list (this sys)) tool_name) as [[idx t]|]
    eqn:Ef; [|unchanged H W].
  inversion H; subst. split; [|reflexivity].
  apply wf_set_active; [exact W|].
  intros i Hi. inversion Hi; subst. exists t.
  apply in_slot; [exact W|]. exact (proj1 (find_by_name_in _ _ _ _ Ef)).
Qed.

Lemma keeps_wf_set_this (f : manager -> manager) :
  (forall m, wf m -> wf (f m) /\ MAX_TOOLS (f m) = MAX_TOOLS m) ->
  keeps_wf (set_this f).
Proof. intros Hf sys r sys' W H. inversion H; subst. exact (Hf _ W). Qed.

Lemma keeps_wf_pickup_tool jl pf ps index speed :
  keeps_wf (pickup_tool jl pf ps index speed).
Proof.
  intros sys r sys' W H. unfold pickup_tool in H.
  unfold mbind at 1, get_this in H.
  destruct (active_tool_index (this sys)); [unchanged H W|].
  unfold mbind at 1 in H. rewrite is_tool_loaded_run in H.
  destruct (in_bounds (this sys) index) eqn:Eb; [|unchanged H W].
  destruct (slot (this sys) index) as [t0|] eqn:Es; simpl in H;
    [|unchanged H W].
  unfold mbind at 1 in H. rewrite (z_tool_run _ _ W) in H.
  unfold mbind, call, set_this in H.
  destruct (pickup_tool_sequence jl pf ps index _ speed (ctl sys))
    as [[[]|e] st']; inversion H; subst; simpl.
  - split; [|reflexivity]. apply wf_set_active; [exact W|].
    intros i Hi. inversion Hi; subst. eexists. exact Es.
  - split; [exact W | reflexivity].
Qed.

Lemma keeps_wf_park_active_tool jl pf ps speed :
  keeps_wf (park_active_tool jl pf ps speed).
Proof.
  intros sys r sys' W H. unfold park_active_tool in H.
  unfold mbind at 1, get_this in H.
  destruct (active_tool_index (this sys)) as [index|]; [|unchanged H W].
  unfold mbind at 1 in H. rewrite (z_tool_run _ _ W) in H.
  unfold mbind, call, set_this in H.
  destruct (park_tool_sequence jl pf ps index _ speed (ctl sys))
    as [[[]|e] st']; inversion H; subst; simpl.
  - split; [|reflexivity]. apply wf_set_active; [exact W|].
    intros i Hi. discriminate Hi.
  - split; [exact W | reflexivity].
Qed.

Lemma keeps_wf_unload_deck : keeps_wf unload_deck.
Proof.
  intros sys r sys' W H. unfold unload_deck in H. mrun H.
  destruct (deck (this sys)); [|unchanged H W].
  inversion H; subst. split; [apply wf_set_deck; exact W | reflexivity].
Qed.

Lemma keeps_wf_load_deck built : keeps_wf (load_deck built).
Proof.
  intros sys r sys' W H. unfold load_deck in H. mrun H.
  destruct (deck (this sys)); [unchanged H W|].
  destruct built as [d|e]; [|unchanged H W].
  inversion H; subst. split; [apply wf_set_deck; exact W | reflexivity].
Qed.

Lemma keeps_wf_change_deck built : keeps_wf (change_deck built).
Proof.
  unfold change_deck. intros sys r sys' W H.
  unfold mbind at 1, get_this in H.
  destruct (deck (this sys)); [|unchanged H W].
  revert H. apply keeps_wf_mbind; [apply keeps_wf_unload_deck | | exact W].
  intros _. apply keeps_wf_load_deck.
Qed.

Lemma keeps_wf_reset : keeps_wf reset.
Proof.
  unfold reset.
  apply keeps_wf_mbind; [apply keeps_wf_unload_all_tools|]. intros _.
  apply keeps_wf_mbind; [apply keeps_wf_reads_only, reads_only_get_this|].
  intros m.
  apply keeps_wf_mbind.
  { destruct (deck m); [apply keeps_wf_unload_deck|].
    apply keeps_wf_reads_only, reads_only_mret. }
  intros _. apply keeps_wf_mbind; [|intros _];
    apply keeps_wf_set_this; intros m0 W0.
  - split; [|reflexivity]. apply wf_set_active; [exact W0|].
    intros i Hi. discriminate Hi.
  - split; [|reflexivity]. apply wf_clear_offsets, W0.
Qed.

(** A call of a method of the manager that assigns an attribute or
    drives the controller. *)
Inductive request : Type :=
| Load_tool (t : tool) (index : Z)
| Change_tool (t : tool) (index : Z)
| Unload_tool (index : Z)
| Unload_all_tools
| Set_tool_offset (index : Z) (offset : Q * Q * Q)
| Set_active_tool (index : Z)
| Set_active_tool_by_name (tool_name : string)
| Pickup_tool (index : Z) (speed : option Q)
| Park_active_tool (speed : option Q)
| Move_active_tool_effector_to (x y z u s : option Q)
                               (param : option string) (wait : bool)
| Get_active_tool_position
| Load_deck (built : Deck + string)
| Change_deck (built : Deck + string)
| Unload_deck
| Reset.

Section Perform.

Variable json_loads : string -> option json.
Variable py_float : string -> option Q.
Variable py_str : option Q -> string.

(** The call, its result dropped. *)
Definition perform (rq : request) : MM unit :=
  match rq with
  | Load_tool t index => load_tool t index
  | Change_tool t index => change_tool t index
  | Unload_tool index => unload_tool index
  | Unload_all_tools => unload_all_tools
  | Set_tool_offset index offset => set_tool_offset index offset
  | Set_active_tool index => set_active_tool index
  | Set_active_tool_by_name tool_name => set_active_tool_by_name tool_name
  | Pickup_tool index speed =>
      pickup_tool json_loads py_float py_str index speed
  | Park_active_tool speed => park_active_tool json_loads py_float py_str speed
  | Move_active_tool_effector_to x y z u s param wait =>
      move_active_tool_effector_to json_loads py_float py_str
                                   x y z u s param wait
  | Get_active_tool_position =>
      mbind (get_active_tool_position json_loads py_float)
            (fun _ => mret tt)
  | Load_deck built => mbind (load_deck built) (fun _ => mret tt)
  | Change_deck built => mbind (change_deck built) (fun _ => mret tt)
  | Unload_deck => unload_deck
  | Reset => reset
  end.

(** A session: the calls made one after the other, each in the state the
    one before left, whether it returned or raised. *)
Fixpoint session_of (rqs : list request) (sys : system) : system :=
  match rqs with
  | [] => sys
  | rq :: rest => session_of rest (snd (perform rq sys))
  end.

End Perform.

Lemma session_keeps_wf :
  forall json_loads py_float py_str rqs sys,
    wf (this sys) ->
    wf (this (session_of json_loads py_float py_str rqs sys))
    /\ MAX_TOOLS (this (session_of json_loads py_float py_str rqs sys))
       = MAX_TOOLS (this sys).
Proof.
  intros jl pf ps rqs. induction rqs as [|rq rqs IH]; intros sys W; simpl.
  - split; [exact W | reflexivity].
  - assert (Hstep : keeps_wf (perform jl pf ps rq)).
    { destruct rq; simpl.
      - apply keeps_wf_load_tool.
      - apply keeps_wf_change_tool.
      - apply keeps_wf_unload_tool.
      - apply keeps_wf_unload_all_tools.
      - apply keeps_wf_set_tool_offset.
      - apply keeps_wf_set_active_tool.
      - apply keeps_wf_set_active_tool_by_name.
      - apply keeps_wf_pickup_tool.
      - apply keeps_wf_park_active_tool.
      - apply keeps_wf_reads_only, reads_only_move_active_tool_effector_to.
      - apply keeps_wf_reads_only, reads_only_mbind;
          [apply reads_only_get_active_tool_position|].
        intros _. apply reads_only_mret.
      - apply keeps_wf_mbind; [apply keeps_wf_load_deck|]. intros _.
        apply keeps_wf_reads_only, reads_only_mret.
      - apply keeps_wf_mbind; [apply keeps_wf_change_deck|]. intros _.
        apply keeps_wf_reads_only, reads_only_mret.
      - apply keeps_wf_unload_deck.
      - apply keeps_wf_reset. }
    destruct (Hstep sys _ _ W (surjective_pairing _)) as [W1 E1].
    destruct (IH _ W1) as [W2 E2]. split; [exact W2 | congruence].
Qed.

(** X16.  The invariant of the manager.  The manager [__init__] builds is
    well formed, and every method leaves a well-formed manager well formed,
    whether it returns or raises and whatever the controller answers.  So
    after any sequence of calls the slots are still the keys 0 to
    [MAX_TOOLS]-1 in that order, no tool object sits in two slots, offsets
    exist for loaded slots only, and the active index, if any, names a
    loaded slot. *)
Theorem manager_invariant :
  (forall max_tools, wf (__init__ max_tools))
  /\ forall json_loads py_float py_str rqs sys,
      wf (this sys) ->
      let sys' := session_of json_loads py_float py_str rqs sys in
      wf (this sys') /\ MAX_TOOLS (this sys') = MAX_TOOLS (this sys).
Proof.
  split; [exact wf_init|].
  intros jl pf ps rqs sys W. exact (session_keeps_wf jl pf ps rqs sys W).
Qed.

(** A manager of four slots and its tools, for the examples. *)
Module Rig.

Definition pipette : tool := {| ident := 1; name := "pipette" |}.
Definition camera : tool := {| ident := 2; name := "camera" |}.
Definition spare : tool := {| ident := 3; name := "pipette" |}.

(** The manager as [__init__] leaves it, around the connected controller
    of the bench facing [script]. *)
Definition fresh (script : list event) : system :=
  {| this := __init__ 4; ctl := Bench.boot Bench.lab script |}.

Definition perform :=
  perform Decoders.json_loads Decoders.decimal_float Decoders.py_str.
Definition session_of :=
  session_of Decoders.json_loads Decoders.decimal_float Decoders.py_str.
Definition pickup_tool :=
  pickup_tool Decoders.json_loads Decoders.decimal_float Decoders.py_str.
Definition park_active_tool :=
  park_active_tool Decoders.json_loads Decoders.decimal_float Decoders.py_str.
Definition move_active_tool_effector_to :=
  move_active_tool_effector_to Decoders.json_loads Decoders.decimal_float
                               Decoders.py_str.
Definition get_active_tool_position :=
  get_active_tool_position Decoders.json_loads Decoders.decimal_float.

(** The pipette in slot 0 with an offset, the camera in slot 2. *)
Definition tooled (script : list event) : system :=
  session_of [Load_tool pipette 0; Load_tool camera 2;
              Set_tool_offset 0 (10, 20, 30)%Q] (fresh script).

End Rig.

Lemma manager_invariant_witness :
  let sys' := Rig.session_of
                [Load_tool Rig.pipette 0; Load_tool Rig.pipette 1;
                 Set_tool_offset 0 (1, 2, 3)%Q; Set_active_tool 0;
                 Unload_tool 0; Reset] (Rig.fresh []) in
  wf (this sys') /\ MAX_TOOLS (this sys') = 4%Z.
Proof.
  exact (proj2 manager_invariant Decoders.json_loads Decoders.decimal_float
               Decoders.py_str _ (Rig.fresh [])
               (proj1 manager_invariant 4%Z)).
Defined.

(* ================================================================== *)
(** * Loading and unloading tools *)
(* ================================================================== *)

Lemma omap_length_le {A B : Type} (f : A -> option B) (l : list A) :
  (length (omap f l) <= length l)%nat.
Proof.
  induction l as [|a l IH]; [reflexivity|].
  change (omap f (a :: l))
    with (match f a with Some b => b :: omap f l | None => omap f l end).
  destruct (f a); simpl; lia.
Qed.

Lemma omap_length_lt {A B : Type} (f : A -> option B) (l : list A) x :
  In x l -> f x = None -> (length (omap f l) < length l)%nat.
Proof.
  induction l as [|a l IH]; [intros []|].
  change (omap f (a :: l))
    with (match f a with Some b => b :: omap f l | None => omap f l end).
  intros [-> | Hin] Hx.
  - rewrite Hx. pose proof (omap_length_le f l). simpl. lia.
  - pose proof (IH Hin Hx). destruct (f a); simpl; lia.
Qed.

Lemma free_slot_entry m index :
  wf m -> in_bounds m index = true -> slot m index = None ->
  dict_get (tools_list m) index = Some None.
Proof.
  intros W Hb Hs.
  destruct (proj1 (dict_get_keys _ _) (wf_key _ _ W Hb)) as [v Hv].
  unfold slot in Hs. rewrite Hv in Hs. rewrite Hv.
  destruct v; [discriminate Hs | reflexivity].
Qed.

Lemma loaded_count m index :
  wf m -> in_bounds m index = true -> slot m index = None ->
  (Z.of_nat (length (loaded_tools m)) < MAX_TOOLS m)%Z.
Proof.
  intros W Hb Hs.
  pose proof (dict_get_in _ _ _ (free_slot_entry _ _ W Hb Hs)) as Hin.
  pose proof (omap_length_lt snd (tools_list m) _ Hin eq_refl) as Hlt.
  assert (Hlen : length (tools_list m) = Z.to_nat (MAX_TOOLS m)).
  { rewrite <- (length_map fst), (wf_keys _ W). unfold range.
    rewrite length_map, length_seq. reflexivity. }
  unfold loaded_tools. apply in_bounds_spec in Hb. lia.
Qed.

Lemma with_tools_list_same m : with_tools_list (tools_list m) m = m.
Proof. destruct m; reflexivity. Qed.

(** X17.  Loading a tool.  On a well-formed manager [load_tool] returns
    exactly when the index is in bounds, the slot is free and the tool
    object is in no slot; otherwise it raises and changes nothing, and the
    error is never the one of the tool limit, which cannot be met.  When it
    returns, the slot holds the tool, the other slots are as before, the
    controller was not used, and [unload_tool] of that index gives back the
    manager of before. *)
Theorem load_tool_round_trip :
  forall t index sys,
    wf (this sys) ->
    let admissible :=
      in_bounds (this sys) index = true
      /\ slot (this sys) index = None
      /\ forall j t', slot (this sys) j = Some t' -> ident t' <> ident t in
    (forall r sys',
        load_tool t index sys = (r, sys') ->
        r <> Failed (too_many_tools (this sys))
        /\ (r = Done tt -> admissible)
        /\ (forall e, r = Failed e -> sys' = sys))
    /\ (admissible ->
        exists sys1,
          load_tool t index sys = (Done tt, sys1)
          /\ ctl sys1 = ctl sys
          /\ slot (this sys1) index = Some t
          /\ (forall j, j <> index ->
                        slot (this sys1) j = slot (this sys) j)
          /\ unload_tool index sys1 = (Done tt, sys)).
Proof.
  intros t index sys W. cbv zeta. split.
  - intros r sys' H. unfold load_tool in H. mrun H.
    destruct (in_bounds (this sys) index) eqn:Eb; simpl in H.
    2:{ inversion H; subst. split; [|split].
        - unfold out_of_bounds, too_many_tools. intros E. discriminate E.
        - intros E. discriminate E.
        - reflexivity. }
    destruct (slot (this sys) index) as [t0|] eqn:Es.
    + unfold slot in Es.
      destruct (dict_get (tools_list (this sys)) index) as [[t1|]|];
        try discriminate Es.
      inversion H; subst. split; [|split].
      * intros E. discriminate E.
      * intros E. discriminate E.
      * reflexivity.
    + assert (Hbr : (if existsb (fun t' => tool_is t' t)
                                (loaded_tools (this sys))
                     then fun sys0 => (Failed already_loaded_elsewhere, sys0)
                     else fun sys0 : system =>
                            (Done tt,
                             {| this := with_tools_list
                                          (dict_set (tools_list (this sys))
                                                    index (Some t))
                                          (this sys0);
                                ctl := ctl sys0 |})) sys = (r, sys')).
      { pose proof (loaded_count _ _ W Eb Es) as Hlt.
        assert (Hge : (Z.of_nat (length (loaded_tools (this sys)))
                       >=? MAX_TOOLS (this sys))%Z = false)
          by (rewrite Z.geb_leb; apply Z.leb_gt; lia).
        rewrite Hge in H. unfold slot in Es.
        destruct (dict_get (tools_list (this sys)) index) as [[t1|]|];
          [discriminate Es | exact H | exact H]. }
      clear H.
      destruct (existsb (fun t' => tool_is t' t) (loaded_tools (this sys)))
        eqn:He; cbv beta in Hbr; inversion Hbr; subst.
      * split; [|split].
        -- unfold already_loaded_elsewhere, too_many_tools. intros E.
           discriminate E.
        -- intros E. discriminate E.
        -- reflexivity.
      * split; [|split].
        -- intros E. discriminate E.
        -- intros _. split; [reflexivity|]. split; [reflexivity|].
           exact (fresh_object _ _ He).
        -- intros e E. discriminate E.
  - intros (Hb & Hs & Hfresh).
    pose proof (free_slot_entry _ _ W Hb Hs) as Hg.
    assert (He : existsb (fun t' => tool_is t' t) (loaded_tools (this sys))
                 = false).
    { destruct (existsb _ _) eqn:E; [|reflexivity].
      apply existsb_exists in E. destruct E as (t' & Hin & Hid).
      unfold loaded_tools in Hin.
      apply list_elem_of_In, list_elem_of_omap in Hin.
      destruct Hin as ([j v] & Hin & Hv). simpl in Hv. subst v.
      apply list_elem_of_In in Hin.
      exfalso. apply (Hfresh j t' (in_slot _ _ _ W Hin)).
      unfold tool_is in Hid. apply Pos.eqb_eq in Hid. exact Hid. }
    pose proof (loaded_count _ _ W Hb Hs) as Hlt.
    assert (Hge : (Z.of_nat (length (loaded_tools (this sys)))
                   >=? MAX_TOOLS (this sys))%Z = false)
      by (rewrite Z.geb_leb; apply Z.leb_gt; lia).
    eexists. split.
    { unfold load_tool. unfold mbind, get_this, set_this, mraise.
      cbn [this ctl]. rewrite Hb, Hg, He, Hge. reflexivity. }
    cbn [this ctl]. split; [reflexivity|]. split.
    { rewrite slot_set, Z.eqb_refl. reflexivity. }
    split.
    { intros j Hne. rewrite slot_set.
      destruct (Z.eqb_spec index j) as [E|_]; [congruence | reflexivity]. }
    unfold unload_tool, mbind. rewrite is_tool_loaded_run. cbn [this ctl].
    assert (Hb' : in_bounds (with_tools_list
                               (dict_set (tools_list (this sys)) index
                                         (Some t)) (this sys)) index = true)
      by exact Hb.
    rewrite Hb', slot_set, Z.eqb_refl. cbn [negb]. unfold set_this.
    cbn [this ctl]. f_equal. destruct sys as [m st]. cbn [this ctl] in *.
    f_equal. unfold unload_slot. cbn [tools_list tool_offsets
                                       active_tool_index deck MAX_TOOLS
                                       with_tools_list].
    rewrite (dict_set_back _ _ _ _ Hg).
    assert (Ho : delete index (tool_offsets m) = tool_offsets m).
    { apply delete_id. destruct (tool_offsets m !! index) as [o|] eqn:Eo;
        [|reflexivity].
      destruct (wf_offsets _ W _ _ Eo) as [t' Ht']. congruence. }
    assert (Ha : match active_tool_index m with
                 | Some a => if Z.eqb a index then None else Some a
                 | None => None
                 end = active_tool_index m).
    { destruct (active_tool_index m) as [a|] eqn:Ea; [|reflexivity].
      destruct (Z.eqb_spec a index) as [->|_]; [|reflexivity].
      destruct (wf_active _ W _ Ea) as [t' Ht']. congruence. }
    rewrite Ho, Ha. destruct m; reflexivity.
Qed.

Lemma load_tool_round_trip_witness :
  exists sys1,
    load_tool Rig.camera 2 (Rig.fresh []) = (Done tt, sys1)
    /\ slot (this sys1) 2 = Some Rig.camera
    /\ unload_tool 2 sys1 = (Done tt, Rig.fresh []).
Proof.
  assert (Hadm : in_bounds (this (Rig.fresh [])) 2 = true
                 /\ slot (this (Rig.fresh [])) 2 = None
                 /\ forall j t', slot (this (Rig.fresh [])) j = Some t' ->
                                 ident t' <> ident Rig.camera).
  { split; [reflexivity|]. split; [reflexivity|].
    intros j t' H. exfalso.
    change (this (Rig.fresh [])) with (__init__ 4) in H.
    rewrite slot_init in H. discriminate H. }
  destruct (proj2 (load_tool_round_trip Rig.camera 2 (Rig.fresh [])
                                        (wf_init 4)) Hadm)
    as (sys1 & H1 & _ & H3 & _ & H5).
  exists sys1. split; [exact H1|]. split; [exact H3 | exact H5].
Defined.

(* ================================================================== *)
(** * Picking up and parking through the manager *)
(* ================================================================== *)

(** The [z] the manager hands to both tool sequences for the slot
    [index]: the float sum of the third deck offset and the third offset
    of the tool, each 0 when missing. *)
Definition exchange_z (m : manager) (index : Z) : Q :=
  PyFloat.add (z_deck m)
              match tool_offsets m !! index with
              | Some offset => snd offset
              | None => 0%Q
              end.

Lemma pickup_tool_run jl pf ps index speed sys t :
  wf (this sys) ->
  active_tool_index (this sys) = None -> slot (this sys) index = Some t ->
  pickup_tool jl pf ps index speed sys
  = match pickup_tool_sequence jl pf ps index
                               (Some (exchange_z (this sys) index)) speed
                               (ctl sys) with
    | (Return _, st') =>
        (Done tt, {| this := with_active_tool_index (Some index) (this sys);
                     ctl := st' |})
    | (Raise e, st') =>
        (Failed (Propagated e), {| this := this sys; ctl := st' |})
    end.
Proof.
  intros W Ha Hs. unfold pickup_tool.
  unfold mbind at 1, get_this. rewrite Ha.
  unfold mbind at 1. rewrite is_tool_loaded_run.
  rewrite (slot_in_bounds _ _ _ W Hs), Hs. cbn [negb].
  unfold mbind at 1. rewrite (z_tool_run _ _ W).
  unfold mbind, call, set_this, exchange_z.
  destruct (pickup_tool_sequence jl pf ps index _ speed (ctl sys))
    as [[[]|e] st']; reflexivity.
Qed.

Lemma park_active_tool_run jl pf ps index speed sys :
  wf (this sys) ->
  active_tool_index (this sys) = Some index ->
  park_active_tool jl pf ps speed sys
  = match park_tool_sequence jl pf ps index
                             (Some (exchange_z (this sys) index)) speed
                             (ctl sys) with
    | (Return _, st') =>
        (Done tt, {| this := with_active_tool_index None (this sys);
                     ctl := st' |})
    | (Raise e, st') =>
        (Failed (Propagated e), {| this := this sys; ctl := st' |})
    end.
Proof.
  intros W Ha. unfold park_active_tool.
  unfold mbind at 1, get_this. rewrite Ha.
  unfold mbind at 1. rewrite (z_tool_run _ _ W).
  unfold mbind, call, set_this, exchange_z.
  destruct (park_tool_sequence jl pf ps index _ speed (ctl sys))
    as [[[]|e] st']; reflexivity.
Qed.

(** X18.  [pickup_tool] on a well-formed manager and a connected
    controller.  With a tool active, or no tool in the slot, it raises an
    error of the manager and nothing is sent.  Otherwise it runs the pickup
    sequence of the controller at the float sum of the [z] of the deck and
    tool offsets (0 without them), never at the [z_park] of the parking
    table: it posts a
    prefix of that sequence; the tool becomes the active tool only when the
    sequence returned, all its commands posted; an exception of the
    sequence passes through as it is and leaves no tool active, whatever
    was posted before it.  A slot without a parking position (an index
    above 3) cannot be picked up. *)
Theorem pickup_tool_contract :
  forall jl pf ps index speed sys r sys',
    wf (this sys) -> live (self (ctl sys)) ->
    pickup_tool jl pf ps index speed sys = (r, sys') ->
    ((active_tool_index (this sys) <> None \/ slot (this sys) index = None) ->
     sys' = sys
     /\ exists e, r = Failed e /\ forall x, e <> Propagated x)
    /\ (forall t,
           active_tool_index (this sys) = None ->
           slot (this sys) index = Some t ->
           match tool_parking_positions (self (ctl sys)) !! index with
           | None =>
               r = Failed (Propagated (no_parking index)) /\ sys' = sys
           | Some pos =>
               let full := sequence_commands tool_lock_cmd pos
                             (exchange_z (this sys) index) speed in
               live (self (ctl sys'))
               /\ (exists out,
                      posted (net (ctl sys'))
                      = posted (net (ctl sys)) ++ out
                      /\ out `prefix_of` full
                      /\ (r = Done tt -> out = full))
               /\ (r = Done tt ->
                   this sys'
                   = with_active_tool_index (Some index) (this sys))
               /\ (forall e, r = Failed e ->
                             this sys' = this sys
                             /\ exists x, e = Propagated x)
           end).
Proof.
  intros jl pf ps index speed sys r sys' W Hl H. split.
  - intros Hcase. unfold pickup_tool in H. unfold mbind at 1, get_this in H.
    destruct (active_tool_index (this sys)) as [a|] eqn:Ea.
    + inversion H; subst. split; [reflexivity|].
      eexists. split; [reflexivity|]. intros x E. discriminate E.
    + destruct Hcase as [Hc | Hs]; [congruence|].
      unfold mbind at 1 in H. rewrite is_tool_loaded_run, Hs in H.
      destruct (in_bounds (this sys) index); cbn [negb] in H;
        inversion H; subst; (split; [reflexivity|]);
        eexists; (split; [reflexivity|]); intros x E; discriminate E.
  - intros t Ha Hs. rewrite (pickup_tool_run _ _ _ _ _ _ _ W Ha Hs) in H.
    destruct (tool_parking_positions (self (ctl sys)) !! index) as [pos|]
      eqn:Hp.
    + destruct (pickup_tool_sequence jl pf ps index
                  (Some (exchange_z (this sys) index)) speed (ctl sys))
        as [cr st'] eqn:Hseq.
      destruct (emits_pickup_tool_sequence jl pf ps (self (ctl sys))
                  index (Some (exchange_z (this sys) index)) speed pos Hp
                  _ _ _ Hl (same_config_refl _) Hseq)
        as (Hc & out & P & Q & Fu).
      pose proof (same_config_live _ _ Hc Hl) as Hl'.
      destruct cr as [[]|e]; inversion H; subst; cbn [this ctl];
        (split; [exact Hl'|]); split.
      * exists out. split; [exact P|]. split; [exact Q|].
        intros _. exact (Fu tt eq_refl).
      * split; [reflexivity|]. intros e E. discriminate E.
      * exists out. split; [exact P|]. split; [exact Q|].
        intros E. discriminate E.
      * split; [intros E; discriminate E|].
        intros e0 E. inversion E; subst. split; [reflexivity|].
        eexists. reflexivity.
    + assert (Hseq : pickup_tool_sequence jl pf ps index
                       (Some (exchange_z (this sys) index)) speed (ctl sys)
                     = (Raise (no_parking index), ctl sys)).
      { unfold pickup_tool_sequence, bind, get_self.
        destruct Hl as [Hsim _]. rewrite Hsim, Hp. reflexivity. }
      rewrite Hseq in H. inversion H; subst. split; [reflexivity|].
      destruct sys; reflexivity.
Qed.

Lemma pickup_tool_contract_witness :
  let script := Bench.move_ok ++ Bench.move_ok ++ [Bench.ok ""]
                ++ Bench.move_ok in
  let sys := Rig.tooled script in
  let run := Rig.pickup_tool 0 speed_default sys in
  fst run = Done tt
  /\ active_tool_index (this (snd run)) = Some 0%Z
  /\ posted (net (ctl (snd run)))
     = sequence_commands tool_lock_cmd
         {| x_park := 277; y_clear := 280; y_park := 342; z_park := 150 |}
         (PyFloat.add 0 30) speed_default.
Proof.
  intros script sys run.
  assert (W : wf (this sys)).
  { exact (proj1 (session_keeps_wf
                    Decoders.json_loads Decoders.decimal_float
                    Decoders.py_str _ (Rig.fresh script) (wf_init 4))). }
  assert (Hret : fst run = Done tt) by (vm_compute; reflexivity).
  destruct (proj2 (pickup_tool_contract
                     Decoders.json_loads Decoders.decimal_float
                     Decoders.py_str 0 speed_default sys (fst run) (snd run)
                     W (conj eq_refl eq_refl) (surjective_pairing _))
                  Rig.pipette eq_refl eq_refl)
    as (_ & (out & P & _ & Fu) & Hact & _).
  split; [exact Hret|]. split.
  - rewrite (Hact Hret). reflexivity.
  - rewrite P, (Fu Hret). reflexivity.
Defined.

Lemma pickup_tool_done jl pf ps index speed sys sys1 :
  pickup_tool jl pf ps index speed sys = (Done tt, sys1) ->
  active_tool_index (this sys) = None
  /\ exists t, slot (this sys) index = Some t.
Proof.
  intros H. unfold pickup_tool in H. unfold mbind at 1, get_this in H.
  destruct (active_tool_index (this sys)) as [a|]; [discriminate H|].
  split; [reflexivity|].
  unfold mbind at 1 in H. rewrite is_tool_loaded_run in H.
  destruct (in_bounds (this sys) index); [|discriminate H].
  destruct (slot (this sys) index) as [t|]; [|discriminate H].
  exists t. reflexivity.
Qed.

Lemma with_active_back m a :
  active_tool_index m = None ->
  with_active_tool_index None (with_active_tool_index a m) = m.
Proof. destruct m. simpl. intros ->. reflexivity. Qed.

(** X19.  Parking through the manager.  Without an active tool
    [park_active_tool] raises and sends nothing.  After a [pickup_tool]
    that returned, [park_active_tool] runs the park sequence for the same
    index at the same [z]: the commands of the pickup are followed by a
    prefix of the same moves around the unlock command.  When it returns,
    the manager is the one of before the pickup; when it raises, the
    exception is the controller's and the tool stays the active tool. *)
Theorem pickup_then_park :
  forall jl pf ps index speed sys,
    wf (this sys) -> live (self (ctl sys)) ->
    (active_tool_index (this sys) = None ->
     park_active_tool jl pf ps speed sys
     = (Failed (no_active_tool "park"), sys))
    /\ (forall sys1 r sys2,
           pickup_tool jl pf ps index speed sys = (Done tt, sys1) ->
           park_active_tool jl pf ps speed sys1 = (r, sys2) ->
           exists pos out,
             let z := exchange_z (this sys) index in
             tool_parking_positions (self (ctl sys)) !! index = Some pos
             /\ posted (net (ctl sys2))
                = posted (net (ctl sys))
                  ++ sequence_commands tool_lock_cmd pos z speed ++ out
             /\ out `prefix_of` sequence_commands tool_unlock_cmd pos z speed
             /\ (r = Done tt ->
                 out = sequence_commands tool_unlock_cmd pos z speed
                 /\ this sys2 = this sys)
             /\ (forall e, r = Failed e ->
                           active_tool_index (this sys2) = Some index
                           /\ exists x, e = Propagated x)).
Proof.
  intros jl pf ps index speed sys W Hl. split.
  - intros Ha. unfold park_active_tool, mbind, get_this. rewrite Ha.
    reflexivity.
  - intros sys1 r sys2 H1 H2.
    destruct (pickup_tool_done _ _ _ _ _ _ _ H1) as (Ha & t & Hs).
    rewrite (pickup_tool_run _ _ _ _ _ _ _ W Ha Hs) in H1.
    destruct (pickup_tool_sequence jl pf ps index
                (Some (exchange_z (this sys) index)) speed (ctl sys))
      as [[[]|e1] st1] eqn:Hseq1; inversion H1; subst sys1; clear H1.
    destruct (tool_parking_positions (self (ctl sys)) !! index) as [pos|]
      eqn:Hp.
    2:{ exfalso. unfold pickup_tool_sequence, bind, get_self in Hseq1.
        destruct Hl as [Hsim _]. rewrite Hsim, Hp in Hseq1.
        discriminate Hseq1. }
    destruct (emits_return _ _ _ _ _ _
                (emits_pickup_tool_sequence jl pf ps (self (ctl sys)) index
                   (Some (exchange_z (this sys) index)) speed pos Hp)
                Hl (same_config_refl _) Hseq1) as (Hl1 & Hc1 & P1).
    assert (W1 : wf (with_active_tool_index (Some index) (this sys))).
    { apply wf_set_active; [exact W|].
      intros i Hi. inversion Hi; subst. exists t. exact Hs. }
    rewrite (park_active_tool_run jl pf ps index speed
               {| this := with_active_tool_index (Some index) (this sys);
                  ctl := st1 |} W1 eq_refl) in H2.
    cbn [this ctl] in H2.
    change (exchange_z (with_active_tool_index (Some index) (this sys)) index)
      with (exchange_z (this sys) index) in H2.
    destruct (park_tool_sequence jl pf ps index
                (Some (exchange_z (this sys) index)) speed st1)
      as [cr st2] eqn:Hseq2.
    assert (Hp1 : tool_parking_positions (self st1) !! index = Some pos).
    { destruct Hc1 as (_ & _ & _ & _ & Ht). rewrite Ht. exact Hp. }
    destruct (emits_park_tool_sequence jl pf ps (self st1) index
                (Some (exchange_z (this sys) index)) speed pos Hp1
                _ _ _ Hl1 (same_config_refl _) Hseq2)
      as (_ & out & P2 & Q2 & Fu2).
    exists pos, out. cbv zeta.
    split; [reflexivity|].
    destruct cr as [[]|e2]; inversion H2; subst; cbn [this ctl].
    + split; [rewrite P2, P1, <- app_assoc; reflexivity|].
      split; [exact Q2|]. split.
      * intros _. split; [exact (Fu2 tt eq_refl)|].
        exact (with_active_back _ _ Ha).
      * intros e E. discriminate E.
    + split; [rewrite P2, P1, <- app_assoc; reflexivity|].
      split; [exact Q2|]. split.
      * intros E. discriminate E.
      * intros e E. inversion E; subst. split; [reflexivity|].
        eexists. reflexivity.
Qed.

Lemma pickup_then_park_witness :
  let exchange := Bench.move_ok ++ Bench.move_ok ++ [Bench.ok ""]
                  ++ Bench.move_ok in
  let sys := Rig.tooled (exchange ++ exchange) in
  let parked := Rig.park_active_tool speed_default
                  (snd (Rig.pickup_tool 0 speed_default sys)) in
  fst parked = Done tt /\ this (snd parked) = this sys.
Proof.
  intros exchange sys parked.
  assert (W : wf (this sys)).
  { exact (proj1 (session_keeps_wf
                    Decoders.json_loads Decoders.decimal_float
                    Decoders.py_str _ (Rig.fresh (exchange ++ exchange))
                    (wf_init 4))). }
  assert (Hret : fst parked = Done tt) by (vm_compute; reflexivity).
  assert (Hpick : Rig.pickup_tool 0 speed_default sys
                  = (Done tt, snd (Rig.pickup_tool 0 speed_default sys))).
  { rewrite (surjective_pairing (Rig.pickup_tool 0 speed_default sys)) at 1.
    f_equal; vm_compute; reflexivity. }
  destruct (proj2 (pickup_then_park
                     Decoders.json_loads Decoders.decimal_float
                     Decoders.py_str 0 speed_default sys
                     W (conj eq_refl eq_refl))
                  _ (fst parked) (snd parked) Hpick (surjective_pairing _))
    as (pos & out & _ & _ & _ & Hdone & _).
  split; [exact Hret | exact (proj2 (Hdone Hret))].
Defined.

(* ================================================================== *)
(** * Workspace and machine coordinates *)
(* ================================================================== *)

(** The offset [get_tool_offset] gives for a loaded slot. *)
Definition offset_of (m : manager) (index : Z) : Q * Q * Q :=
  match tool_offsets m !! index with
  | Some offset => offset
  | None => (0, 0, 0)%Q
  end.

Lemma active_tool_loaded sys idx :
  wf (this sys) -> active_tool_index (this sys) = Some idx ->
  is_tool_loaded idx sys = (Done true, sys)
  /\ get_tool_offset idx sys = (Done (offset_of (this sys) idx), sys).
Proof.
  intros W Ha. destruct (wf_active _ W _ Ha) as [t Ht].
  pose proof (slot_in_bounds _ _ _ W Ht) as Hb. split.
  - rewrite is_tool_loaded_run, Hb, Ht. reflexivity.
  - exact (get_tool_offset_run _ _ _ Hb Ht).
Qed.

Lemma move_active_tool_effector_to_run jl pf ps x y z u s param wait sys idx :
  wf (this sys) -> active_tool_index (this sys) = Some idx ->
  move_active_tool_effector_to jl pf ps x y z u s param wait sys
  = call (move_to jl pf ps
                  (add_offset x (fst (fst (offset_of (this sys) idx))))
                  (add_offset y (snd (fst (offset_of (this sys) idx))))
                  (add_offset z (snd (offset_of (this sys) idx)))
                  u s param wait) sys.
Proof.
  intros W Ha. destruct (active_tool_loaded _ _ W Ha) as [Hl Ho].
  unfold move_active_tool_effector_to. unfold mbind at 1, get_this.
  rewrite Ha. unfold mbind at 1. rewrite Hl. cbn [negb].
  unfold mbind. rewrite Ho.
  destruct (offset_of (this sys) idx) as [[ox oy] oz]. reflexivity.
Qed.

(** An absolute [move_to] on a connected controller with axis limits,
    once [G90] has been sent: the outcome of the limit check decides. *)
Lemma move_to_checked_run jl pf ps x y z u s param wait st st1 lims :
  live (self st) ->
  _axis_limits (self st) = Some lims -> any_limit lims = true ->
  _set_absolute_positioning jl st = (Return tt, st1) ->
  posted (net st1) = posted (net st) ++ ["G90"]
  /\ move_to jl pf ps x y z u s param wait st
     = match check_targets (limits_of lims) ∅ false
                           [("X", x); ("Y", y); ("Z", z)] with
       | Return _ => _move_xyzu jl ps x y z u s param wait st1
       | Raise e => (Raise e, st1)
       end.
Proof.
  intros Hl Hlim Hany Hset. pose proof Hl as [Hsim _].
  destruct (emits_return (self st) _ _ _ _ _
              (emits_set_absolute_positioning jl (self st))
              Hl (same_config_refl _) Hset) as (Hl1 & Hc1 & P1).
  split; [exact P1|].
  assert (Hlim1 : _axis_limits (self st1) = Some lims).
  { destruct Hc1 as (_ & _ & _ & E & _). rewrite E. exact Hlim. }
  unfold move_to, bind at 1, get_self. rewrite Hsim, reraise_id.
  unfold bind at 1. rewrite Hset. unfold bind at 1.
  rewrite (check_axis_limits_absolute_run _ _ _ _ _ Hl1 Hlim1 Hany).
  destruct (check_targets (limits_of lims) ∅ false
                          [("X", x); ("Y", y); ("Z", z)]); reflexivity.
Qed.

(** X20.  [move_active_tool_effector_to] on a well-formed manager.
    Without an active tool it raises and sends nothing.  With the tool of
    slot [idx] active it is a [move_to] of the controller at the machine
    coordinates: the offset of the tool (zero when none was set) is added,
    as floats are, to each of x, y and z that is given, a null target stays
    null and u is passed as it is.  So on a connected controller the move
    command carries, and the axis limits are tested against, the
    coordinates with the offset added: when one of them is outside the
    limit of its axis the move is refused with the limit error of the
    controller, nothing sent after [G90], whether or not the coordinate
    asked for is inside the limit.  The manager itself is left as it
    was. *)
Theorem effector_move_adds_the_offset :
  forall jl pf ps x y z u s param wait sys,
    wf (this sys) ->
    (active_tool_index (this sys) = None ->
     move_active_tool_effector_to jl pf ps x y z u s param wait sys
     = (Failed (no_active_tool "move"), sys))
    /\ (forall idx r sys',
           active_tool_index (this sys) = Some idx ->
           move_active_tool_effector_to jl pf ps x y z u s param wait sys
           = (r, sys') ->
           let mx := add_offset x (fst (fst (offset_of (this sys) idx))) in
           let my := add_offset y (snd (fst (offset_of (this sys) idx))) in
           let mz := add_offset z (snd (offset_of (this sys) idx)) in
           this sys' = this sys
           /\ (exists cr, move_to jl pf ps mx my mz u s param wait (ctl sys)
                          = (cr, ctl sys')
                          /\ r = match cr with
                                 | Return a => Done a
                                 | Raise e => Failed (Propagated e)
                                 end)
           /\ (live (self (ctl sys)) ->
               exists out,
                 posted (net (ctl sys')) = posted (net (ctl sys)) ++ out
                 /\ out `prefix_of` move_to_commands mx my mz u s param wait
                 /\ (r = Done tt ->
                     out = move_to_commands mx my mz u s param wait))
           /\ (forall lims st1,
                  live (self (ctl sys)) ->
                  _axis_limits (self (ctl sys)) = Some lims ->
                  any_limit lims = true ->
                  _set_absolute_positioning jl (ctl sys) = (Return tt, st1) ->
                  (exists axis v lo hi,
                      checked (limits_of lims)
                              [("X", mx); ("Y", my); ("Z", mz)] axis v lo hi
                      /\ ~ in_range lo v hi) ->
                  exists axis v lo hi,
                    r = Failed (Propagated
                                  (Exn JubileeStateError
                                       (MsgAxisLimit "Absolute" axis lo hi)
                                       None))
                    /\ checked (limits_of lims)
                               [("X", mx); ("Y", my); ("Z", mz)] axis v lo hi
                    /\ ~ in_range lo v hi
                    /\ ctl sys' = st1
                    /\ posted (net st1)
                       = posted (net (ctl sys)) ++ ["G90"])).
Proof.
  intros jl pf ps x y z u s param wait sys W. split.
  - intros Ha. unfold move_active_tool_effector_to, mbind, get_this.
    rewrite Ha. reflexivity.
  - intros idx r sys' Ha H. cbv zeta.
    rewrite (move_active_tool_effector_to_run _ _ _ _ _ _ _ _ _ _ _ _ W Ha)
      in H.
    unfold call in H.
    destruct (move_to jl pf ps _ _ _ u s param wait (ctl sys))
      as [cr st'] eqn:Hm.
    assert (E : this sys' = this sys /\ ctl sys' = st'
                /\ r = match cr with
                       | Return a => Done a
                       | Raise e => Failed (Propagated e)
                       end).
    { destruct cr as [a|e]; inversion H; subst; repeat split. }
    destruct E as (E1 & E2 & E3). split; [exact E1|]. split; [|split].
    + exists cr. rewrite E2. split; [reflexivity | exact E3].
    + intros Hl.
      destruct (emits_move_to jl pf ps (self (ctl sys)) _ _ _ u s param wait
                  _ _ _ Hl (same_config_refl _) Hm)
        as (_ & out & P & Q & Fu).
      exists out. rewrite E2. split; [exact P|]. split; [exact Q|].
      intros Hr. rewrite Hr in E3. destruct cr as [[]|e]; [|discriminate E3].
      exact (Fu tt eq_refl).
    + intros lims st1 Hl Hlim Hany Hset (axis & v & lo & hi & Hch & Hout).
      destruct (move_to_checked_run
                  jl pf ps
                  (add_offset x (fst (fst (offset_of (this sys) idx))))
                  (add_offset y (snd (fst (offset_of (this sys) idx))))
                  (add_offset z (snd (offset_of (this sys) idx)))
                  u s param wait _ _ _ Hl Hlim Hany Hset) as [P1 Hrun].
      rewrite Hrun in Hm.
      destruct (check_targets_fail (limits_of lims) ∅ false _
                  (fun a v' lo' hi' _ => ex_intro _ v' eq_refl)
                  (ex_intro _ axis
                     (ex_intro _ v
                        (ex_intro _ lo
                           (ex_intro _ hi
                              (ex_intro _ v
                                 (conj Hch (conj eq_refl Hout))))))))
        as (a & v' & lo' & hi' & t & E & Hch' & Ht & Hr).
      simpl in Ht. inversion Ht; subst t.
      rewrite E in Hm. inversion Hm as [[Hcr Hst]].
      exists a, v', lo', hi'. split; [rewrite E3, <- Hcr; reflexivity|].
      split; [exact Hch'|]. split; [exact Hr|].
      split; [congruence | rewrite <- Hst; exact P1].
Qed.

Lemma effector_move_adds_the_offset_witness :
  let sys := Rig.session_of [Set_active_tool 0] (Rig.tooled Bench.move_ok) in
  let run := Rig.move_active_tool_effector_to
               (Some 1%Q) None (Some 3%Q) None speed_default None true sys in
  let far := Rig.move_active_tool_effector_to
               (Some 295%Q) None None None speed_default None true sys in
  fst run = Done tt
  /\ posted (net (ctl (snd run)))
     = ["G90"; M409_homed; "G0 X11.00 Z33.00 F6000.00"; "M400"]
  /\ (exists axis v lo hi,
         fst far = Failed (Propagated
                             (Exn JubileeStateError
                                  (MsgAxisLimit "Absolute" axis lo hi) None))
         /\ checked (limits_of [Some (0, 300); Some (0, 350); Some (0, 300);
                                Some (0, 200)]%Q)
                    [("X", Some (PyFloat.add 295 10)); ("Y", None);
                     ("Z", None)] axis v lo hi
         /\ ~ in_range lo v hi).
Proof.
  intros sys run far.
  assert (W : wf (this sys)).
  { exact (proj1 (session_keeps_wf
                    Decoders.json_loads Decoders.decimal_float
                    Decoders.py_str
                    ([Load_tool Rig.pipette 0; Load_tool Rig.camera 2;
                      Set_tool_offset 0 (10, 20, 30)%Q]
                     ++ [Set_active_tool 0])
                    (Rig.fresh Bench.move_ok) (wf_init 4))). }
  assert (Hret : fst run = Done tt) by (vm_compute; reflexivity).
  destruct (proj2 (effector_move_adds_the_offset
                     Decoders.json_loads Decoders.decimal_float
                     Decoders.py_str
                     (Some 1%Q) None (Some 3%Q) None speed_default None true
                     sys W)
                  0%Z (fst run) (snd run) eq_refl (surjective_pairing _))
    as (_ & _ & Hwire & _).
  destruct (Hwire (conj eq_refl eq_refl)) as (out & P & _ & Fu).
  split; [exact Hret|].
  split; [rewrite P, (Fu Hret); vm_compute; reflexivity|].
  destruct (proj2 (effector_move_adds_the_offset
                     Decoders.json_loads Decoders.decimal_float
                     Decoders.py_str
                     (Some 295%Q) None None None speed_default None true
                     sys W)
                  0%Z (fst far) (snd far) eq_refl (surjective_pairing _))
    as (_ & _ & _ & Hlimit).
  destruct (Hlimit _ (snd (_set_absolute_positioning Decoders.json_loads
                                                      (ctl sys)))
                   (conj eq_refl eq_refl) eq_refl eq_refl
                   ltac:(vm_compute; reflexivity))
    as (axis & v & lo & hi & Hr & Hch & Hout & _).
  - exists "X", (PyFloat.add 295 10), 0%Q, 300%Q. split.
    + split; [left; reflexivity | reflexivity].
    + intros [_ H]. apply Qle_bool_iff in H. vm_compute in H. discriminate H.
  - exists axis, v, lo, hi. split; [exact Hr|]. split; [exact Hch | exact Hout].
Defined.

(** [machine_pos.get(axis, 0.0)]: the value of the axis in the position
    the controller reports, an axis the reply does not name counting as 0;
    [None] when the value of the axis did not parse. *)
Definition reported (machine_pos : gmap string (option Q)) (axis : string)
  : option Q :=
  match machine_pos !! axis with
  | None => Some 0%Q
  | Some v => v
  end.

Lemma workspace_coordinate_run pos axis offset sys :
  workspace_coordinate pos axis offset sys
  = (match reported pos axis with
     | Some v => Done (PyFloat.sub v offset)
     | None => Failed (Propagated (runtime_error TypeError))
     end, sys).
Proof.
  unfold workspace_coordinate, reported.
  destruct (pos !! axis) as [[v|]|]; reflexivity.
Qed.

(** X21.  [get_active_tool_position] on a well-formed manager.  Without
    an active tool it raises and the controller is not asked.  With the
    tool of slot [idx] active it asks the controller once; an error of
    [get_position] passes through; from the position it subtracts, as
    floats are, the offset of the tool on X, Y and Z, an axis missing from
    the reply counting as 0; and if the value of one of the three did not parse it
    raises a bare [TypeError].  The manager is left as it was. *)
Theorem active_tool_position_subtracts_the_offset :
  forall jl pf sys,
    wf (this sys) ->
    (active_tool_index (this sys) = None ->
     get_active_tool_position jl pf sys
     = (Failed (no_active_tool "get position"), sys))
    /\ (forall idx cr st',
           active_tool_index (this sys) = Some idx ->
           get_position jl pf (ctl sys) = (cr, st') ->
           let sys' := {| this := this sys; ctl := st' |} in
           let '(ox, oy, oz) := offset_of (this sys) idx in
           get_active_tool_position jl pf sys
           = (match cr with
              | Raise e => Failed (Propagated e)
              | Return pos =>
                  match reported pos "X", reported pos "Y",
                        reported pos "Z" with
                  | Some px, Some py, Some pz =>
                      Done (PyFloat.sub px ox, PyFloat.sub py oy,
                            PyFloat.sub pz oz)
                  | _, _, _ => Failed (Propagated (runtime_error TypeError))
                  end
              end, sys')).
Proof.
  intros jl pf sys W. split.
  - intros Ha. unfold get_active_tool_position, mbind, get_this.
    rewrite Ha. reflexivity.
  - intros idx cr st' Ha Hg. cbv zeta.
    destruct (active_tool_loaded _ _ W Ha) as [Hl _].
    assert (Ha' : active_tool_index
                    (this {| this := this sys; ctl := st' |}) = Some idx)
      by exact Ha.
    destruct (active_tool_loaded {| this := this sys; ctl := st' |} idx W Ha')
      as [_ Ho].
    cbn [this] in Ho.
    unfold get_active_tool_position. unfold mbind at 1, get_this.
    rewrite Ha. unfold mbind at 1. rewrite Hl. cbn [negb].
    unfold mbind at 1, call. rewrite Hg.
    destruct (offset_of (this sys) idx) as [[ox oy] oz].
    destruct cr as [pos|e]; [|reflexivity].
    unfold mbind at 1. rewrite Ho.
    unfold mbind, mret. rewrite workspace_coordinate_run.
    destruct (reported pos "X") as [px|]; [|reflexivity].
    cbv beta iota. rewrite workspace_coordinate_run.
    destruct (reported pos "Y") as [py|]; [|reflexivity].
    cbv beta iota. rewrite workspace_coordinate_run.
    destruct (reported pos "Z") as [pz|]; reflexivity.
Qed.

Lemma active_tool_position_subtracts_the_offset_witness :
  let sys := Rig.session_of [Set_active_tool 0]
               (Rig.tooled [Bench.ok "X:11.00 Y:22.00 Count 0"]) in
  fst (Rig.get_active_tool_position sys)
  = Done (PyFloat.sub 11.00 10, PyFloat.sub 22.00 20, PyFloat.sub 0 30).
Proof.
  intros sys.
  assert (W : wf (this sys)).
  { exact (proj1 (session_keeps_wf
                    Decoders.json_loads Decoders.decimal_float
                    Decoders.py_str
                    ([Load_tool Rig.pipette 0; Load_tool Rig.camera 2;
                      Set_tool_offset 0 (10, 20, 30)%Q]
                     ++ [Set_active_tool 0])
                    (Rig.fresh [Bench.ok "X:11.00 Y:22.00 Count 0"])
                    (wf_init 4))). }
  pose proof (proj2 (active_tool_position_subtracts_the_offset
                       Decoders.json_loads Decoders.decimal_float sys W)
                    0%Z _ _ eq_refl (surjective_pairing _)) as H.
  cbv zeta in H.
  change (offset_of (this sys) 0%Z) with (10, 20, 30)%Q in H.
  cbv beta iota in H.
  unfold Rig.get_active_tool_position. rewrite H.
  vm_compute. reflexivity.
Defined.

(* ================================================================== *)
(** * Resetting the manager *)
(* ================================================================== *)

Lemma unload_all_nothing keys m flag :
  (forall k, In k keys -> slot m k = None) ->
  fold_left unload_all_step keys (m, flag) = (m, flag).
Proof.
  induction keys as [|k keys IH]; intros Hn; simpl; [reflexivity|].
  unfold unload_all_step at 2. simpl.
  rewrite (Hn k (or_introl eq_refl)). apply IH.
  intros k0 H0. apply Hn. right. exact H0.
Qed.

Lemma all_free (d : dict (option tool)) :
  (forall k v, In (k, v) d -> v = None) ->
  d = map (fun i => (i, None)) (map fst d).
Proof.
  induction d as [|[k v] d IH]; intros Hn; simpl; [reflexivity|].
  rewrite (Hn k v (or_introl eq_refl)). f_equal.
  apply IH. intros k0 v0 H0. apply (Hn k0 v0). right. exact H0.
Qed.

Lemma free_manager m :
  wf m -> (forall j, slot m j = None) ->
  tools_list m = map (fun i => (i, None)) (range (MAX_TOOLS m)).
Proof.
  intros W Hn. rewrite <- (wf_keys _ W). apply all_free.
  intros k [t|] Hin; [|reflexivity].
  pose proof (Hn k) as Hk. rewrite (in_slot _ _ _ W Hin) in Hk.
  discriminate Hk.
Qed.

Lemma system_eta sys : {| this := this sys; ctl := ctl sys |} = sys.
Proof. destruct sys; reflexivity. Qed.

(** X22.  [reset] on a well-formed manager.  With no tool loaded it
    raises the error of [unload_all_tools] and resets nothing: the deck, if
    one is loaded, stays loaded.  With a tool loaded it returns and leaves
    the manager as [__init__] built it: every slot free, no offset, no
    active tool, no deck.  The controller is not used. *)
Theorem reset_needs_a_loaded_tool :
  forall sys,
    wf (this sys) ->
    ((forall j, slot (this sys) j = None) ->
     reset sys = (Failed no_tools_to_unload, sys))
    /\ (forall j t,
           slot (this sys) j = Some t ->
           reset sys
           = (Done tt, {| this := __init__ (MAX_TOOLS (this sys));
                          ctl := ctl sys |})).
Proof.
  intros sys W. split.
  - intros Hn. unfold reset, unload_all_tools.
    unfold mbind, get_this, set_this, mraise.
    rewrite (unload_all_nothing _ _ _ (fun k _ => Hn k)).
    cbn [fst snd negb this ctl]. rewrite system_eta. reflexivity.
  - intros j t Hs.
    destruct (unload_all_fold (map fst (tools_list (this sys))) (this sys)
                              false W (fun k Hk => Hk))
      as (W' & Emax & Edeck & Eslot & Eflag).
    assert (Hkeys : forall k, In k (map fst (tools_list (this sys))) ->
                              existsb (Z.eqb k) (map fst (tools_list (this sys)))
                              = true).
    { intros k Hk. apply existsb_exists. exists k. split; [exact Hk|].
      apply Z.eqb_refl. }
    assert (Hfree : forall k,
               slot (fst (fold_left unload_all_step
                                    (map fst (tools_list (this sys)))
                                    (this sys, false))) k = None).
    { intros k. rewrite Eslot.
      destruct (existsb (Z.eqb k) (map fst (tools_list (this sys)))) eqn:E;
        [reflexivity|].
      destruct (slot (this sys) k) as [t'|] eqn:Ek; [|reflexivity].
      rewrite (Hkeys k (wf_key _ _ W (slot_in_bounds _ _ _ W Ek))) in E.
      discriminate E. }
    assert (Hany : snd (fold_left unload_all_step
                                  (map fst (tools_list (this sys)))
                                  (this sys, false)) = true).
    { rewrite Eflag. simpl. apply existsb_exists. exists j.
      split; [exact (wf_key _ _ W (slot_in_bounds _ _ _ W Hs))|].
      rewrite Hs. reflexivity. }
    pose proof (free_manager _ W' Hfree) as Hlist.
    unfold reset, unload_all_tools.
    unfold mbind at 1. unfold mbind at 1, get_this.
    unfold mbind at 1, set_this at 1. cbn [this ctl].
    rewrite Hany. cbn [negb]. unfold mret at 1.
    unfold mbind at 1. cbn [this ctl].
    destruct (fold_left unload_all_step (map fst (tools_list (this sys)))
                        (this sys, false)) as [m' flag].
    cbn [fst snd] in *. rewrite Emax in Hlist.
    destruct m' as [dk mx tl off act]. cbn in Edeck, Emax, Hlist. subst.
    unfold unload_deck, mbind, get_this, set_this, mret. cbn [this ctl deck].
    destruct (deck (this sys)); reflexivity.
Qed.

Lemma reset_needs_a_loaded_tool_witness :
  reset (Rig.fresh []) = (Failed no_tools_to_unload, Rig.fresh [])
  /\ reset (Rig.tooled []) = (Done tt, Rig.fresh []).
Proof.
  split.
  - apply (proj1 (reset_needs_a_loaded_tool (Rig.fresh []) (wf_init 4))).
    intros j. apply slot_init.
  - assert (W : wf (this (Rig.tooled []))).
    { exact (proj1 (session_keeps_wf
                      Decoders.json_loads Decoders.decimal_float
                      Decoders.py_str _ (Rig.fresh []) (wf_init 4))). }
    exact (proj2 (reset_needs_a_loaded_tool (Rig.tooled []) W)
                 0%Z Rig.pipette eq_refl).
Defined.

(* ================================================================== *)
(** * Selecting a tool by its name *)
(* ================================================================== *)

Lemma range_ascending len :
  forall start l1 a l2,
    map Z.of_nat (seq start len) = l1 ++ a :: l2 ->
    forall b, In b l2 -> (a < b)%Z.
Proof.
  induction len as [|len IH]; intros start l1 a l2 H b Hb; simpl in H.
  - destruct l1; discriminate H.
  - destruct l1 as [|x l1]; simpl in H; inversion H; subst.
    + apply in_map_iff in Hb. destruct Hb as (i & <- & Hi).
      apply in_seq in Hi. lia.
    + exact (IH _ _ _ _ H2 b Hb).
Qed.

Lemma find_by_name_first d tool_name idx t :
  find_by_name d tool_name = Some (idx, t) ->
  exists d1 d2,
    d = d1 ++ (idx, Some t) :: d2
    /\ name t = tool_name
    /\ forall j t', In (j, Some t') d1 -> name t' <> tool_name.
Proof.
  induction d as [|[k [t0|]] d IH]; simpl; intros H.
  - discriminate H.
  - destruct (String.eqb (name t0) tool_name) eqn:E.
    + inversion H; subst. exists [], d. split; [reflexivity|].
      split; [apply String.eqb_eq, E|]. intros j t' [].
    + destruct (IH H) as (d1 & d2 & -> & Hn & Hd1).
      exists ((k, Some t0) :: d1), d2. split; [reflexivity|].
      split; [exact Hn|]. intros j t' [Hin | Hin].
      * inversion Hin; subst. apply String.eqb_neq, E.
      * exact (Hd1 j t' Hin).
  - destruct (IH H) as (d1 & d2 & -> & Hn & Hd1).
    exists ((k, None) :: d1), d2. split; [reflexivity|].
    split; [exact Hn|]. intros j t' [Hin | Hin]; [discriminate Hin|].
    exact (Hd1 j t' Hin).
Qed.

Lemma find_by_name_none d tool_name :
  find_by_name d tool_name = None ->
  forall j t', In (j, Some t') d -> name t' <> tool_name.
Proof.
  induction d as [|[k [t0|]] d IH]; simpl; intros H j t' Hin.
  - destruct Hin.
  - destruct (String.eqb (name t0) tool_name) eqn:E; [discriminate H|].
    destruct Hin as [Hin | Hin]; [|exact (IH H j t' Hin)].
    inversion Hin; subst. apply String.eqb_neq, E.
  - destruct Hin as [Hin | Hin]; [discriminate Hin | exact (IH H j t' Hin)].
Qed.

(** X23.  Selecting by name on a well-formed manager.  Names need not be
    unique: [set_active_tool_by_name] makes active the loaded slot of the
    lowest index whose tool has the name, the one [get_tool_by_name]
    returns, and changes nothing else; it raises, changing nothing, exactly
    when no loaded tool has the name. *)
Theorem by_name_selects_the_lowest_index :
  forall tool_name sys r sys',
    wf (this sys) ->
    set_active_tool_by_name tool_name sys = (r, sys') ->
    (r = Done tt ->
     exists idx t,
       sys' = {| this := with_active_tool_index (Some idx) (this sys);
                 ctl := ctl sys |}
       /\ slot (this sys) idx = Some t
       /\ name t = tool_name
       /\ get_tool_by_name tool_name sys = (Done (idx, name t, t), sys)
       /\ forall j t', slot (this sys) j = Some t' -> name t' = tool_name ->
                       (idx <= j)%Z)
    /\ (forall e, r = Failed e ->
                  sys' = sys
                  /\ forall j t', slot (this sys) j = Some t' ->
                                  name t' <> tool_name).
Proof.
  intros tool_name sys r sys' W H.
  unfold set_active_tool_by_name in H. mrun H.
  destruct (find_by_name (tools_list (this sys)) tool_name) as [[idx t]|]
    eqn:Ef; cbv beta in H; inversion H; subst.
  - split; [|intros e E; discriminate E].
    intros _. exists idx, t. split; [reflexivity|].
    destruct (find_by_name_first _ _ _ _ Ef) as (d1 & d2 & Hd & Hn & Hd1).
    assert (Hin : In (idx, Some t) (tools_list (this sys)))
      by (rewrite Hd; apply in_or_app; right; left; reflexivity).
    split; [exact (in_slot _ _ _ W Hin)|]. split; [exact Hn|]. split.
    { unfold get_tool_by_name, mbind, get_this, mret. rewrite Ef.
      reflexivity. }
    intros j t' Hs Hname.
    pose proof (slot_in _ _ _ Hs) as Hj. rewrite Hd in Hj.
    apply in_app_or in Hj. destruct Hj as [Hj | [Hj | Hj]].
    + exfalso. exact (Hd1 j t' Hj Hname).
    + inversion Hj; subst. lia.
    + pose proof (wf_keys _ W) as Hk. rewrite Hd, map_app in Hk.
      simpl in Hk. unfold range in Hk. symmetry in Hk.
      assert (Hj' : In j (map fst d2))
        by (change j with (fst (j, Some t')); apply in_map; exact Hj).
      pose proof (range_ascending _ _ _ _ _ Hk j Hj'). lia.
  - split; [intros E; discriminate E|].
    intros e _. split; [reflexivity|].
    intros j t' Hs. exact (find_by_name_none _ _ Ef j t' (slot_in _ _ _ Hs)).
Qed.

Lemma by_name_selects_the_lowest_index_witness :
  let sys := Rig.session_of [Load_tool Rig.spare 3; Load_tool Rig.camera 2;
                             Load_tool Rig.pipette 1] (Rig.fresh []) in
  let run := set_active_tool_by_name "pipette" sys in
  fst run = Done tt /\ active_tool_index (this (snd run)) = Some 1%Z.
Proof.
  intros sys run.
  assert (W : wf (this sys)).
  { exact (proj1 (session_keeps_wf
                    Decoders.json_loads Decoders.decimal_float
                    Decoders.py_str _ (Rig.fresh []) (wf_init 4))). }
  assert (Hret : fst run = Done tt) by (vm_compute; reflexivity).
  destruct (proj1 (by_name_selects_the_lowest_index
                     "pipette" sys (fst run) (snd run) W
                     (surjective_pairing _)) Hret)
    as (idx & t & Hsys & _ & _ & Hget & _).
  split; [exact Hret|]. rewrite Hsys. cbn [this active_tool_index
                                             with_active_tool_index].
  f_equal.
  assert (Hg : get_tool_by_name "pipette" sys
               = (Done (1%Z, name Rig.pipette, Rig.pipette), sys))
    by (vm_compute; reflexivity).
  rewrite Hg in Hget. inversion Hget. reflexivity.
Defined.

(* ================================================================== *)
(** * Replacing the deck *)
(* ================================================================== *)

(** X24.  [change_deck] unloads the deck before it builds the new one.
    When the new deck cannot be built, the error is raised after the old
    deck is gone: the manager is left without a deck, the deck offset of
    the tool exchanges falls back to 0, and a second [change_deck] is
    refused for want of a deck.  When it can be built, the new deck
    replaces the old one.  Tools, offsets and the active tool are not
    touched either way. *)
Theorem change_deck_unloads_first :
  forall sys old built,
    deck (this sys) = Some old ->
    let gone := {| this := with_deck None (this sys); ctl := ctl sys |} in
    match built with
    | inr e =>
        change_deck built sys
        = (Failed (DeckConfigurationError ("Failed to load deck: " ++ e)),
           gone)
        /\ is_deck_loaded gone = (Done false, gone)
        /\ z_deck (this gone) = 0%Q
        /\ change_deck built gone
           = (Failed (DeckStateError "No deck loaded. Cannot change deck."),
              gone)
    | inl d =>
        change_deck built sys
        = (Done d, {| this := with_deck (Some d) (this sys); ctl := ctl sys |})
    end.
Proof.
  intros sys old built Hd. cbv zeta.
  destruct built as [d|e].
  - unfold change_deck, unload_deck, load_deck.
    unfold mbind, get_this, set_this, mret, mraise. rewrite Hd.
    cbv beta iota. rewrite Hd. reflexivity.
  - split.
    + unfold change_deck, unload_deck, load_deck.
      unfold mbind, get_this, set_this, mret, mraise. rewrite Hd.
      cbv beta iota. rewrite Hd. reflexivity.
    + split; [reflexivity|]. split; reflexivity.
Qed.

Lemma change_deck_unloads_first_witness :
  let plate := {| deck_offset := [0; 0; 5]%Q |} in
  let sys := snd (load_deck (inl plate) (Rig.fresh [])) in
  z_deck (this sys) = 5%Q
  /\ z_deck (this (snd (change_deck (inr "no such file") sys))) = 0%Q.
Proof.
  intros plate sys. split; [reflexivity|].
  destruct (change_deck_unloads_first sys plate (inr "no such file") eq_refl)
    as (H & _ & Hz & _).
  rewrite H. exact Hz.
Defined.

(* ================================================================== *)
(** * Replacing a tool in its slot *)
(* ================================================================== *)

(** X25.  [change_tool] on a well-formed manager.  It returns only for a
    loaded slot and a tool object that is in no slot; replacing a tool by
    itself is refused; when it raises, nothing has changed.  When it
    returns, the slot holds the new tool and nothing else has changed: the
    new tool inherits the offset of the old one and, if the slot was the
    active one, is the active tool.  Unloading the slot and loading the new
    tool instead leaves the slot without an offset and not active. *)
Theorem change_tool_keeps_offset_and_activity :
  forall t index sys,
    wf (this sys) ->
    (forall r sys',
        change_tool t index sys = (r, sys') ->
        (r = Done tt ->
         (exists old, slot (this sys) index = Some old)
         /\ (forall j t', slot (this sys) j = Some t' -> ident t' <> ident t)
         /\ ctl sys' = ctl sys
         /\ slot (this sys') index = Some t
         /\ (forall j, j <> index -> slot (this sys') j = slot (this sys) j)
         /\ tool_offsets (this sys') = tool_offsets (this sys)
         /\ active_tool_index (this sys') = active_tool_index (this sys)
         /\ deck (this sys') = deck (this sys)
         /\ get_tool_offset index sys'
            = (Done (offset_of (this sys) index), sys'))
        /\ (forall e, r = Failed e -> sys' = sys)
        /\ (slot (this sys) index = Some t ->
            exists msg, r = Failed (ToolStateError msg)))
    /\ (forall sys1 sys2,
           unload_tool index sys = (Done tt, sys1) ->
           load_tool t index sys1 = (Done tt, sys2) ->
           slot (this sys2) index = Some t
           /\ tool_offsets (this sys2) !! index = None
           /\ active_tool_index (this sys2) <> Some index).
Proof.
  intros t index sys W. split.
  - intros r sys' H. unfold change_tool in H. mrun H.
    destruct (in_bounds (this sys) index) eqn:Eb; simpl in H.
    2:{ inversion H; subst. split; [intros E; discriminate E|].
        split; [reflexivity|]. intros Hs.
        rewrite (slot_in_bounds _ _ _ W Hs) in Eb. discriminate Eb. }
    destruct (slot (this sys) index) as [old|] eqn:Es.
    2:{ inversion H; subst. split; [intros E; discriminate E|].
        split; [reflexivity|]. intros Hs. discriminate Hs. }
    destruct (index_of_object (tools_list (this sys)) t) as [idx|] eqn:Ei;
      cbv beta in H; inversion H; subst.
    + split; [intros E; discriminate E|]. split; [reflexivity|].
      intros _. eexists. reflexivity.
    + assert (Hfresh : forall j t', slot (this sys) j = Some t' ->
                                    ident t' <> ident t).
      { intros j t' Hs.
        exact (index_of_object_none _ _ Ei j t' (slot_in _ _ _ Hs)). }
      split.
      * intros _. cbn [this ctl].
        split; [exists old; reflexivity|]. split; [exact Hfresh|].
        split; [reflexivity|]. split.
        { rewrite slot_set, Z.eqb_refl. reflexivity. }
        split.
        { intros j Hne. rewrite slot_set.
          destruct (Z.eqb_spec index j) as [E|_]; [congruence | reflexivity]. }
        split; [reflexivity|]. split; [reflexivity|]. split; [reflexivity|].
        rewrite (get_tool_offset_run index _ t); [reflexivity | exact Eb|].
        cbn [this]. rewrite slot_set, Z.eqb_refl. reflexivity.
      * split; [intros e E; discriminate E|].
        intros Hs. exfalso. inversion Hs; subst old.
        exact (Hfresh index t Es eq_refl).
  - intros sys1 sys2 H1 H2.
    unfold unload_tool, mbind in H1. rewrite is_tool_loaded_run in H1.
    destruct (in_bounds (this sys) index) eqn:Eb; [|discriminate H1].
    destruct (slot (this sys) index) as [old|] eqn:Es; cbn [negb] in H1;
      [|discriminate H1].
    unfold set_this in H1. inversion H1; subst sys1. clear H1.
    unfold load_tool in H2. mrun H2.
    change (in_bounds (unload_slot index (this sys)) index)
      with (in_bounds (this sys) index) in H2.
    rewrite Eb in H2. cbn [negb] in H2.
    assert (Hset : this sys2
                   = with_tools_list
                       (dict_set (tools_list (unload_slot index (this sys)))
                                 index (Some t))
                       (unload_slot index (this sys))).
    { destruct (dict_get (tools_list (unload_slot index (this sys))) index)
        as [[t0|]|]; [discriminate H2 | |];
        (destruct (existsb _ _); [discriminate H2|]);
        (destruct (_ >=? _)%Z; [discriminate H2|]);
        cbv beta in H2; inversion H2; reflexivity. }
    rewrite Hset. split.
    + rewrite slot_set, Z.eqb_refl. reflexivity.
    + split.
      * cbn [tool_offsets with_tools_list unload_slot].
        apply lookup_delete_eq.
      * cbn [active_tool_index with_tools_list unload_slot].
        destruct (active_tool_index (this sys)) as [a|]; [|discriminate].
        destruct (Z.eqb_spec a index) as [E|Hne]; [discriminate|].
        intros E. inversion E. contradiction.
Qed.

Lemma change_tool_keeps_offset_and_activity_witness :
  let sys := Rig.session_of [Set_active_tool 0] (Rig.tooled []) in
  let run := change_tool Rig.spare 0 sys in
  fst run = Done tt
  /\ slot (this (snd run)) 0 = Some Rig.spare
  /\ active_tool_index (this (snd run)) = Some 0%Z
  /\ get_tool_offset 0 (snd run) = (Done (10, 20, 30)%Q, snd run).
Proof.
  intros sys run.
  assert (W : wf (this sys)).
  { exact (proj1 (session_keeps_wf
                    Decoders.json_loads Decoders.decimal_float
                    Decoders.py_str
                    ([Load_tool Rig.pipette 0; Load_tool Rig.camera 2;
                      Set_tool_offset 0 (10, 20, 30)%Q]
                     ++ [Set_active_tool 0])
                    (Rig.fresh []) (wf_init 4))). }
  assert (Hret : fst run = Done tt) by (vm_compute; reflexivity).
  destruct (proj1 (proj1 (change_tool_keeps_offset_and_activity
                            Rig.spare 0 sys W)
                         (fst run) (snd run) (surjective_pairing _)) Hret)
    as (_ & _ & _ & Hslot & _ & _ & Hact & _ & Hoff).
  split; [exact Hret|]. split; [exact Hslot|].
  split; [rewrite Hact; reflexivity|]. rewrite Hoff. reflexivity.
Defined.
